(** * XTulator286: the 80186/80286 interpreter core

    A shallow embedding of the instruction interpreter (cpu.c), of the
    stack discipline of its 80287 coprocessor (fpu.c) and of the A20 gate
    it shares with the keyboard controller (i8042.c).  C integers are
    values of [Z]; every conversion to a narrower C type is written out
    with [u8], [u16] and [u32], and the bit operators are those of [Z]. *)

From Stdlib Require Import ZArith Lia List Bool.
Import ListNotations.
Local Open Scope Z_scope.

(** ** Machine integers *)

Definition u8 (x : Z) : Z := x mod 0x100.
Definition u16 (x : Z) : Z := x mod 0x10000.
Definition u32 (x : Z) : Z := x mod 0x100000000.

(** The C truth value of an integer expression. *)
Definition nz (x : Z) : bool := negb (x =? 0).

(** Arrays indexed by a small integer ([wordregs], [segregs], [segcache],
    the FPU stack, the physical memory) are total maps; [upd] is the
    assignment [a[k] = v]. *)
Definition upd {A : Type} (a : Z -> A) (k : Z) (v : A) : Z -> A :=
  fun i => if i =? k then v else a i.

(** Register numbers of cpu.h (the 8086 encoding order). *)
Definition regax : Z := 0.
Definition regcx : Z := 1.
Definition regdx : Z := 2.
Definition regbx : Z := 3.
Definition regsp : Z := 4.
Definition regbp : Z := 5.
Definition regsi : Z := 6.
Definition regdi : Z := 7.

Definition reges : Z := 0.
Definition regcs : Z := 1.
Definition regss : Z := 2.
Definition regds : Z := 3.

(** Byte registers: [regs] is a union of [wordregs[8]] and [byteregs[8]],
    so byte [2k] is the low half and byte [2k+1] the high half of word
    [k] (AX, CX, DX, BX). *)
Definition regal : Z := 0.
Definition regah : Z := 1.
Definition regcl : Z := 2.
Definition regch : Z := 3.
Definition regdl : Z := 4.
Definition regdh : Z := 5.
Definition regbl : Z := 6.
Definition regbh : Z := 7.

Definition byteregtable : list Z :=
  [regal; regcl; regdl; regbl; regah; regch; regdh; regbh].

(** ** The state *)

(** A descriptor-table register ([gdtr], [idtr]). *)
Module DT.
Record t : Type := mk { base : Z; limit : Z }.
End DT.
Definition DTR : Type := DT.t.

(** A cached descriptor; [sp0] and [ss0] are used by the task register
    only. *)
Record DESCRIPTOR_CACHE : Type := mkCache {
  base : Z;
  limit : Z;
  access : Z;
  valid : Z;
  sp0 : Z;
  ss0 : Z
}.

Definition set_valid (v : Z) (c : DESCRIPTOR_CACHE) : DESCRIPTOR_CACHE :=
  mkCache (base c) (limit c) (access c) v (sp0 c) (ss0 c).
Definition set_base (v : Z) (c : DESCRIPTOR_CACHE) : DESCRIPTOR_CACHE :=
  mkCache v (limit c) (access c) (valid c) (sp0 c) (ss0 c).
Definition set_limit (v : Z) (c : DESCRIPTOR_CACHE) : DESCRIPTOR_CACHE :=
  mkCache (base c) v (access c) (valid c) (sp0 c) (ss0 c).
Definition set_access (v : Z) (c : DESCRIPTOR_CACHE) : DESCRIPTOR_CACHE :=
  mkCache (base c) (limit c) v (valid c) (sp0 c) (ss0 c).

(** [memset(.., 0, ..)] of a descriptor cache. *)
Definition zero_cache : DESCRIPTOR_CACHE := mkCache 0 0 0 0 0 0.

(** A [double] is its IEEE-754 binary64 bit pattern: the stack only stores
    and returns the values. *)
Definition double : Type := Z.

(** fpu.h: [FPU_t]. *)
Module FPU.
Record t : Type := mk {
    st : Z -> double;
    cw : Z;
    sw : Z;
    tw : Z;
    ip : Z;
    cs : Z;
    dp : Z;
    ds : Z;
    op : Z
  }.
Definition set_st (v : Z -> double) (f : t) : t :=
    mk v (cw f) (sw f) (tw f) (ip f) (cs f) (dp f) (ds f) (op f).
Definition set_cw (v : Z) (f : t) : t :=
    mk (st f) v (sw f) (tw f) (ip f) (cs f) (dp f) (ds f) (op f).
Definition set_sw (v : Z) (f : t) : t :=
    mk (st f) (cw f) v (tw f) (ip f) (cs f) (dp f) (ds f) (op f).
Definition set_tw (v : Z) (f : t) : t :=
    mk (st f) (cw f) (sw f) v (ip f) (cs f) (dp f) (ds f) (op f).
End FPU.
Definition FPU_t : Type := FPU.t.

(** A registered interrupt callback is host code; the table holds its
    name and the host gives it a meaning (see [Section Interpreter]). *)
Definition callback : Type := nat.

(** [CPU_t], together with the two pieces of state the core shares with
    its collaborators: the physical memory behind [cpu_read] and
    [cpu_write], and the [a20_enabled] byte of the keyboard controller. *)
Record CPU_t : Type := mkCPU {
  wordregs : Z -> Z;
  segregs : Z -> Z;
  segcache : Z -> DESCRIPTOR_CACHE;
  ip : Z;
  cf : Z;
  pf : Z;
  af : Z;
  zf : Z;
  sf : Z;
  tf : Z;
  ifl : Z;
  df : Z;
  of_ : Z;
  trap_toggle : Z;
  hltstate : Z;
  msw : Z;
  protected_mode : Z;
  handling_fault : Z;
  gdtr : DTR;
  idtr : DTR;
  ldtr : Z;
  tr : Z;
  ldtr_cache : DESCRIPTOR_CACHE;
  tr_cache : DESCRIPTOR_CACHE;
  int_callback : Z -> option callback;
  reptype : Z;
  segoverride : Z;
  useseg : Z;
  opcode : Z;
  savecs : Z;
  saveip : Z;
  addrbyte : Z;
  mode : Z;
  reg : Z;
  rm : Z;
  disp16 : Z;
  ea : Z;
  oper1 : Z;
  oper2 : Z;
  res16 : Z;
  oper1b : Z;
  oper2b : Z;
  res8 : Z;
  totalexec : Z;
  fpu : FPU_t;
  mem : Z -> Z;
  a20_enabled : Z
}.

Definition set_wordregs (v : Z -> Z) (s : CPU_t) : CPU_t :=
  mkCPU v (segregs s) (segcache s) (ip s) (cf s) (pf s) (af s) (zf s) (sf s)
    (tf s) (ifl s) (df s) (of_ s) (trap_toggle s) (hltstate s) (msw s)
    (protected_mode s) (handling_fault s) (gdtr s) (idtr s) (ldtr s) (tr s)
    (ldtr_cache s) (tr_cache s) (int_callback s) (reptype s) (segoverride s)
    (useseg s) (opcode s) (savecs s) (saveip s) (addrbyte s) (mode s) (reg s)
    (rm s) (disp16 s) (ea s) (oper1 s) (oper2 s) (res16 s) (oper1b s)
    (oper2b s) (res8 s) (totalexec s) (fpu s) (mem s) (a20_enabled s).

Definition set_segregs (v : Z -> Z) (s : CPU_t) : CPU_t :=
  mkCPU (wordregs s) v (segcache s) (ip s) (cf s) (pf s) (af s) (zf s) (sf s)
    (tf s) (ifl s) (df s) (of_ s) (trap_toggle s) (hltstate s) (msw s)
    (protected_mode s) (handling_fault s) (gdtr s) (idtr s) (ldtr s) (tr s)
    (ldtr_cache s) (tr_cache s) (int_callback s) (reptype s) (segoverride s)
    (useseg s) (opcode s) (savecs s) (saveip s) (addrbyte s) (mode s) (reg s)
    (rm s) (disp16 s) (ea s) (oper1 s) (oper2 s) (res16 s) (oper1b s)
    (oper2b s) (res8 s) (totalexec s) (fpu s) (mem s) (a20_enabled s).

Definition set_segcache (v : Z -> DESCRIPTOR_CACHE) (s : CPU_t) : CPU_t :=
  mkCPU (wordregs s) (segregs s) v (ip s) (cf s) (pf s) (af s) (zf s) (sf s)
    (tf s) (ifl s) (df s) (of_ s) (trap_toggle s) (hltstate s) (msw s)
    (protected_mode s) (handling_fault s) (gdtr s) (idtr s) (ldtr s) (tr s)
    (ldtr_cache s) (tr_cache s) (int_callback s) (reptype s) (segoverride s)
    (useseg s) (opcode s) (savecs s) (saveip s) (addrbyte s) (mode s) (reg s)
    (rm s) (disp16 s) (ea s) (oper1 s) (oper2 s) (res16 s) (oper1b s)
    (oper2b s) (res8 s) (totalexec s) (fpu s) (mem s) (a20_enabled s).

Definition set_ip (v : Z) (s : CPU_t) : CPU_t :=
  mkCPU (wordregs s) (segregs s) (segcache s) v (cf s) (pf s) (af s) (zf s)
    (sf s) (tf s) (ifl s) (df s) (of_ s) (trap_toggle s) (hltstate s) (msw s)
    (protected_mode s) (handling_fault s) (gdtr s) (idtr s) (ldtr s) (tr s)
    (ldtr_cache s) (tr_cache s) (int_callback s) (reptype s) (segoverride s)
    (useseg s) (opcode s) (savecs s) (saveip s) (addrbyte s) (mode s) (reg s)
    (rm s) (disp16 s) (ea s) (oper1 s) (oper2 s) (res16 s) (oper1b s)
    (oper2b s) (res8 s) (totalexec s) (fpu s) (mem s) (a20_enabled s).

Definition set_cf (v : Z) (s : CPU_t) : CPU_t :=
  mkCPU (wordregs s) (segregs s) (segcache s) (ip s) v (pf s) (af s) (zf s)
    (sf s) (tf s) (ifl s) (df s) (of_ s) (trap_toggle s) (hltstate s) (msw s)
    (protected_mode s) (handling_fault s) (gdtr s) (idtr s) (ldtr s) (tr s)
    (ldtr_cache s) (tr_cache s) (int_callback s) (reptype s) (segoverride s)
    (useseg s) (opcode s) (savecs s) (saveip s) (addrbyte s) (mode s) (reg s)
    (rm s) (disp16 s) (ea s) (oper1 s) (oper2 s) (res16 s) (oper1b s)
    (oper2b s) (res8 s) (totalexec s) (fpu s) (mem s) (a20_enabled s).

Definition set_pf (v : Z) (s : CPU_t) : CPU_t :=
  mkCPU (wordregs s) (segregs s) (segcache s) (ip s) (cf s) v (af s) (zf s)
    (sf s) (tf s) (ifl s) (df s) (of_ s) (trap_toggle s) (hltstate s) (msw s)
    (protected_mode s) (handling_fault s) (gdtr s) (idtr s) (ldtr s) (tr s)
    (ldtr_cache s) (tr_cache s) (int_callback s) (reptype s) (segoverride s)
    (useseg s) (opcode s) (savecs s) (saveip s) (addrbyte s) (mode s) (reg s)
    (rm s) (disp16 s) (ea s) (oper1 s) (oper2 s) (res16 s) (oper1b s)
    (oper2b s) (res8 s) (totalexec s) (fpu s) (mem s) (a20_enabled s).

Definition set_af (v : Z) (s : CPU_t) : CPU_t :=
  mkCPU (wordregs s) (segregs s) (segcache s) (ip s) (cf s) (pf s) v (zf s)
    (sf s) (tf s) (ifl s) (df s) (of_ s) (trap_toggle s) (hltstate s) (msw s)
    (protected_mode s) (handling_fault s) (gdtr s) (idtr s) (ldtr s) (tr s)
    (ldtr_cache s) (tr_cache s) (int_callback s) (reptype s) (segoverride s)
    (useseg s) (opcode s) (savecs s) (saveip s) (addrbyte s) (mode s) (reg s)
    (rm s) (disp16 s) (ea s) (oper1 s) (oper2 s) (res16 s) (oper1b s)
    (oper2b s) (res8 s) (totalexec s) (fpu s) (mem s) (a20_enabled s).

Definition set_zf (v : Z) (s : CPU_t) : CPU_t :=
  mkCPU (wordregs s) (segregs s) (segcache s) (ip s) (cf s) (pf s) (af s) v
    (sf s) (tf s) (ifl s) (df s) (of_ s) (trap_toggle s) (hltstate s) (msw s)
    (protected_mode s) (handling_fault s) (gdtr s) (idtr s) (ldtr s) (tr s)
    (ldtr_cache s) (tr_cache s) (int_callback s) (reptype s) (segoverride s)
    (useseg s) (opcode s) (savecs s) (saveip s) (addrbyte s) (mode s) (reg s)
    (rm s) (disp16 s) (ea s) (oper1 s) (oper2 s) (res16 s) (oper1b s)
    (oper2b s) (res8 s) (totalexec s) (fpu s) (mem s) (a20_enabled s).

Definition set_sf (v : Z) (s : CPU_t) : CPU_t :=
  mkCPU (wordregs s) (segregs s) (segcache s) (ip s) (cf s) (pf s) (af s)
    (zf s) v (tf s) (ifl s) (df s) (of_ s) (trap_toggle s) (hltstate s)
    (msw s) (protected_mode s) (handling_fault s) (gdtr s) (idtr s) (ldtr s)
    (tr s) (ldtr_cache s) (tr_cache s) (int_callback s) (reptype s)
    (segoverride s) (useseg s) (opcode s) (savecs s) (saveip s) (addrbyte s)
    (mode s) (reg s) (rm s) (disp16 s) (ea s) (oper1 s) (oper2 s) (res16 s)
    (oper1b s) (oper2b s) (res8 s) (totalexec s) (fpu s) (mem s)
    (a20_enabled s).

Definition set_tf (v : Z) (s : CPU_t) : CPU_t :=
  mkCPU (wordregs s) (segregs s) (segcache s) (ip s) (cf s) (pf s) (af s)
    (zf s) (sf s) v (ifl s) (df s) (of_ s) (trap_toggle s) (hltstate s)
    (msw s) (protected_mode s) (handling_fault s) (gdtr s) (idtr s) (ldtr s)
    (tr s) (ldtr_cache s) (tr_cache s) (int_callback s) (reptype s)
    (segoverride s) (useseg s) (opcode s) (savecs s) (saveip s) (addrbyte s)
    (mode s) (reg s) (rm s) (disp16 s) (ea s) (oper1 s) (oper2 s) (res16 s)
    (oper1b s) (oper2b s) (res8 s) (totalexec s) (fpu s) (mem s)
    (a20_enabled s).

Definition set_ifl (v : Z) (s : CPU_t) : CPU_t :=
  mkCPU (wordregs s) (segregs s) (segcache s) (ip s) (cf s) (pf s) (af s)
    (zf s) (sf s) (tf s) v (df s) (of_ s) (trap_toggle s) (hltstate s) (msw s)
    (protected_mode s) (handling_fault s) (gdtr s) (idtr s) (ldtr s) (tr s)
    (ldtr_cache s) (tr_cache s) (int_callback s) (reptype s) (segoverride s)
    (useseg s) (opcode s) (savecs s) (saveip s) (addrbyte s) (mode s) (reg s)
    (rm s) (disp16 s) (ea s) (oper1 s) (oper2 s) (res16 s) (oper1b s)
    (oper2b s) (res8 s) (totalexec s) (fpu s) (mem s) (a20_enabled s).

Definition set_df (v : Z) (s : CPU_t) : CPU_t :=
  mkCPU (wordregs s) (segregs s) (segcache s) (ip s) (cf s) (pf s) (af s)
    (zf s) (sf s) (tf s) (ifl s) v (of_ s) (trap_toggle s) (hltstate s)
    (msw s) (protected_mode s) (handling_fault s) (gdtr s) (idtr s) (ldtr s)
    (tr s) (ldtr_cache s) (tr_cache s) (int_callback s) (reptype s)
    (segoverride s) (useseg s) (opcode s) (savecs s) (saveip s) (addrbyte s)
    (mode s) (reg s) (rm s) (disp16 s) (ea s) (oper1 s) (oper2 s) (res16 s)
    (oper1b s) (oper2b s) (res8 s) (totalexec s) (fpu s) (mem s)
    (a20_enabled s).

Definition set_of_ (v : Z) (s : CPU_t) : CPU_t :=
  mkCPU (wordregs s) (segregs s) (segcache s) (ip s) (cf s) (pf s) (af s)
    (zf s) (sf s) (tf s) (ifl s) (df s) v (trap_toggle s) (hltstate s) (msw s)
    (protected_mode s) (handling_fault s) (gdtr s) (idtr s) (ldtr s) (tr s)
    (ldtr_cache s) (tr_cache s) (int_callback s) (reptype s) (segoverride s)
    (useseg s) (opcode s) (savecs s) (saveip s) (addrbyte s) (mode s) (reg s)
    (rm s) (disp16 s) (ea s) (oper1 s) (oper2 s) (res16 s) (oper1b s)
    (oper2b s) (res8 s) (totalexec s) (fpu s) (mem s) (a20_enabled s).

Definition set_trap_toggle (v : Z) (s : CPU_t) : CPU_t :=
  mkCPU (wordregs s) (segregs s) (segcache s) (ip s) (cf s) (pf s) (af s)
    (zf s) (sf s) (tf s) (ifl s) (df s) (of_ s) v (hltstate s) (msw s)
    (protected_mode s) (handling_fault s) (gdtr s) (idtr s) (ldtr s) (tr s)
    (ldtr_cache s) (tr_cache s) (int_callback s) (reptype s) (segoverride s)
    (useseg s) (opcode s) (savecs s) (saveip s) (addrbyte s) (mode s) (reg s)
    (rm s) (disp16 s) (ea s) (oper1 s) (oper2 s) (res16 s) (oper1b s)
    (oper2b s) (res8 s) (totalexec s) (fpu s) (mem s) (a20_enabled s).

Definition set_hltstate (v : Z) (s : CPU_t) : CPU_t :=
  mkCPU (wordregs s) (segregs s) (segcache s) (ip s) (cf s) (pf s) (af s)
    (zf s) (sf s) (tf s) (ifl s) (df s) (of_ s) (trap_toggle s) v (msw s)
    (protected_mode s) (handling_fault s) (gdtr s) (idtr s) (ldtr s) (tr s)
    (ldtr_cache s) (tr_cache s) (int_callback s) (reptype s) (segoverride s)
    (useseg s) (opcode s) (savecs s) (saveip s) (addrbyte s) (mode s) (reg s)
    (rm s) (disp16 s) (ea s) (oper1 s) (oper2 s) (res16 s) (oper1b s)
    (oper2b s) (res8 s) (totalexec s) (fpu s) (mem s) (a20_enabled s).

Definition set_msw (v : Z) (s : CPU_t) : CPU_t :=
  mkCPU (wordregs s) (segregs s) (segcache s) (ip s) (cf s) (pf s) (af s)
    (zf s) (sf s) (tf s) (ifl s) (df s) (of_ s) (trap_toggle s) (hltstate s) v
    (protected_mode s) (handling_fault s) (gdtr s) (idtr s) (ldtr s) (tr s)
    (ldtr_cache s) (tr_cache s) (int_callback s) (reptype s) (segoverride s)
    (useseg s) (opcode s) (savecs s) (saveip s) (addrbyte s) (mode s) (reg s)
    (rm s) (disp16 s) (ea s) (oper1 s) (oper2 s) (res16 s) (oper1b s)
    (oper2b s) (res8 s) (totalexec s) (fpu s) (mem s) (a20_enabled s).

Definition set_protected_mode (v : Z) (s : CPU_t) : CPU_t :=
  mkCPU (wordregs s) (segregs s) (segcache s) (ip s) (cf s) (pf s) (af s)
    (zf s) (sf s) (tf s) (ifl s) (df s) (of_ s) (trap_toggle s) (hltstate s)
    (msw s) v (handling_fault s) (gdtr s) (idtr s) (ldtr s) (tr s)
    (ldtr_cache s) (tr_cache s) (int_callback s) (reptype s) (segoverride s)
    (useseg s) (opcode s) (savecs s) (saveip s) (addrbyte s) (mode s) (reg s)
    (rm s) (disp16 s) (ea s) (oper1 s) (oper2 s) (res16 s) (oper1b s)
    (oper2b s) (res8 s) (totalexec s) (fpu s) (mem s) (a20_enabled s).

Definition set_handling_fault (v : Z) (s : CPU_t) : CPU_t :=
  mkCPU (wordregs s) (segregs s) (segcache s) (ip s) (cf s) (pf s) (af s)
    (zf s) (sf s) (tf s) (ifl s) (df s) (of_ s) (trap_toggle s) (hltstate s)
    (msw s) (protected_mode s) v (gdtr s) (idtr s) (ldtr s) (tr s)
    (ldtr_cache s) (tr_cache s) (int_callback s) (reptype s) (segoverride s)
    (useseg s) (opcode s) (savecs s) (saveip s) (addrbyte s) (mode s) (reg s)
    (rm s) (disp16 s) (ea s) (oper1 s) (oper2 s) (res16 s) (oper1b s)
    (oper2b s) (res8 s) (totalexec s) (fpu s) (mem s) (a20_enabled s).

Definition set_gdtr (v : DTR) (s : CPU_t) : CPU_t :=
  mkCPU (wordregs s) (segregs s) (segcache s) (ip s) (cf s) (pf s) (af s)
    (zf s) (sf s) (tf s) (ifl s) (df s) (of_ s) (trap_toggle s) (hltstate s)
    (msw s) (protected_mode s) (handling_fault s) v (idtr s) (ldtr s) (tr s)
    (ldtr_cache s) (tr_cache s) (int_callback s) (reptype s) (segoverride s)
    (useseg s) (opcode s) (savecs s) (saveip s) (addrbyte s) (mode s) (reg s)
    (rm s) (disp16 s) (ea s) (oper1 s) (oper2 s) (res16 s) (oper1b s)
    (oper2b s) (res8 s) (totalexec s) (fpu s) (mem s) (a20_enabled s).

Definition set_idtr (v : DTR) (s : CPU_t) : CPU_t :=
  mkCPU (wordregs s) (segregs s) (segcache s) (ip s) (cf s) (pf s) (af s)
    (zf s) (sf s) (tf s) (ifl s) (df s) (of_ s) (trap_toggle s) (hltstate s)
    (msw s) (protected_mode s) (handling_fault s) (gdtr s) v (ldtr s) (tr s)
    (ldtr_cache s) (tr_cache s) (int_callback s) (reptype s) (segoverride s)
    (useseg s) (opcode s) (savecs s) (saveip s) (addrbyte s) (mode s) (reg s)
    (rm s) (disp16 s) (ea s) (oper1 s) (oper2 s) (res16 s) (oper1b s)
    (oper2b s) (res8 s) (totalexec s) (fpu s) (mem s) (a20_enabled s).

Definition set_ldtr (v : Z) (s : CPU_t) : CPU_t :=
  mkCPU (wordregs s) (segregs s) (segcache s) (ip s) (cf s) (pf s) (af s)
    (zf s) (sf s) (tf s) (ifl s) (df s) (of_ s) (trap_toggle s) (hltstate s)
    (msw s) (protected_mode s) (handling_fault s) (gdtr s) (idtr s) v (tr s)
    (ldtr_cache s) (tr_cache s) (int_callback s) (reptype s) (segoverride s)
    (useseg s) (opcode s) (savecs s) (saveip s) (addrbyte s) (mode s) (reg s)
    (rm s) (disp16 s) (ea s) (oper1 s) (oper2 s) (res16 s) (oper1b s)
    (oper2b s) (res8 s) (totalexec s) (fpu s) (mem s) (a20_enabled s).

Definition set_tr (v : Z) (s : CPU_t) : CPU_t :=
  mkCPU (wordregs s) (segregs s) (segcache s) (ip s) (cf s) (pf s) (af s)
    (zf s) (sf s) (tf s) (ifl s) (df s) (of_ s) (trap_toggle s) (hltstate s)
    (msw s) (protected_mode s) (handling_fault s) (gdtr s) (idtr s) (ldtr s) v
    (ldtr_cache s) (tr_cache s) (int_callback s) (reptype s) (segoverride s)
    (useseg s) (opcode s) (savecs s) (saveip s) (addrbyte s) (mode s) (reg s)
    (rm s) (disp16 s) (ea s) (oper1 s) (oper2 s) (res16 s) (oper1b s)
    (oper2b s) (res8 s) (totalexec s) (fpu s) (mem s) (a20_enabled s).

Definition set_ldtr_cache (v : DESCRIPTOR_CACHE) (s : CPU_t) : CPU_t :=
  mkCPU (wordregs s) (segregs s) (segcache s) (ip s) (cf s) (pf s) (af s)
    (zf s) (sf s) (tf s) (ifl s) (df s) (of_ s) (trap_toggle s) (hltstate s)
    (msw s) (protected_mode s) (handling_fault s) (gdtr s) (idtr s) (ldtr s)
    (tr s) v (tr_cache s) (int_callback s) (reptype s) (segoverride s)
    (useseg s) (opcode s) (savecs s) (saveip s) (addrbyte s) (mode s) (reg s)
    (rm s) (disp16 s) (ea s) (oper1 s) (oper2 s) (res16 s) (oper1b s)
    (oper2b s) (res8 s) (totalexec s) (fpu s) (mem s) (a20_enabled s).

Definition set_tr_cache (v : DESCRIPTOR_CACHE) (s : CPU_t) : CPU_t :=
  mkCPU (wordregs s) (segregs s) (segcache s) (ip s) (cf s) (pf s) (af s)
    (zf s) (sf s) (tf s) (ifl s) (df s) (of_ s) (trap_toggle s) (hltstate s)
    (msw s) (protected_mode s) (handling_fault s) (gdtr s) (idtr s) (ldtr s)
    (tr s) (ldtr_cache s) v (int_callback s) (reptype s) (segoverride s)
    (useseg s) (opcode s) (savecs s) (saveip s) (addrbyte s) (mode s) (reg s)
    (rm s) (disp16 s) (ea s) (oper1 s) (oper2 s) (res16 s) (oper1b s)
    (oper2b s) (res8 s) (totalexec s) (fpu s) (mem s) (a20_enabled s).

Definition set_int_callback (v : Z -> option callback) (s : CPU_t) : CPU_t :=
  mkCPU (wordregs s) (segregs s) (segcache s) (ip s) (cf s) (pf s) (af s)
    (zf s) (sf s) (tf s) (ifl s) (df s) (of_ s) (trap_toggle s) (hltstate s)
    (msw s) (protected_mode s) (handling_fault s) (gdtr s) (idtr s) (ldtr s)
    (tr s) (ldtr_cache s) (tr_cache s) v (reptype s) (segoverride s)
    (useseg s) (opcode s) (savecs s) (saveip s) (addrbyte s) (mode s) (reg s)
    (rm s) (disp16 s) (ea s) (oper1 s) (oper2 s) (res16 s) (oper1b s)
    (oper2b s) (res8 s) (totalexec s) (fpu s) (mem s) (a20_enabled s).

Definition set_reptype (v : Z) (s : CPU_t) : CPU_t :=
  mkCPU (wordregs s) (segregs s) (segcache s) (ip s) (cf s) (pf s) (af s)
    (zf s) (sf s) (tf s) (ifl s) (df s) (of_ s) (trap_toggle s) (hltstate s)
    (msw s) (protected_mode s) (handling_fault s) (gdtr s) (idtr s) (ldtr s)
    (tr s) (ldtr_cache s) (tr_cache s) (int_callback s) v (segoverride s)
    (useseg s) (opcode s) (savecs s) (saveip s) (addrbyte s) (mode s) (reg s)
    (rm s) (disp16 s) (ea s) (oper1 s) (oper2 s) (res16 s) (oper1b s)
    (oper2b s) (res8 s) (totalexec s) (fpu s) (mem s) (a20_enabled s).

Definition set_segoverride (v : Z) (s : CPU_t) : CPU_t :=
  mkCPU (wordregs s) (segregs s) (segcache s) (ip s) (cf s) (pf s) (af s)
    (zf s) (sf s) (tf s) (ifl s) (df s) (of_ s) (trap_toggle s) (hltstate s)
    (msw s) (protected_mode s) (handling_fault s) (gdtr s) (idtr s) (ldtr s)
    (tr s) (ldtr_cache s) (tr_cache s) (int_callback s) (reptype s) v
    (useseg s) (opcode s) (savecs s) (saveip s) (addrbyte s) (mode s) (reg s)
    (rm s) (disp16 s) (ea s) (oper1 s) (oper2 s) (res16 s) (oper1b s)
    (oper2b s) (res8 s) (totalexec s) (fpu s) (mem s) (a20_enabled s).

Definition set_useseg (v : Z) (s : CPU_t) : CPU_t :=
  mkCPU (wordregs s) (segregs s) (segcache s) (ip s) (cf s) (pf s) (af s)
    (zf s) (sf s) (tf s) (ifl s) (df s) (of_ s) (trap_toggle s) (hltstate s)
    (msw s) (protected_mode s) (handling_fault s) (gdtr s) (idtr s) (ldtr s)
    (tr s) (ldtr_cache s) (tr_cache s) (int_callback s) (reptype s)
    (segoverride s) v (opcode s) (savecs s) (saveip s) (addrbyte s) (mode s)
    (reg s) (rm s) (disp16 s) (ea s) (oper1 s) (oper2 s) (res16 s) (oper1b s)
    (oper2b s) (res8 s) (totalexec s) (fpu s) (mem s) (a20_enabled s).

Definition set_opcode (v : Z) (s : CPU_t) : CPU_t :=
  mkCPU (wordregs s) (segregs s) (segcache s) (ip s) (cf s) (pf s) (af s)
    (zf s) (sf s) (tf s) (ifl s) (df s) (of_ s) (trap_toggle s) (hltstate s)
    (msw s) (protected_mode s) (handling_fault s) (gdtr s) (idtr s) (ldtr s)
    (tr s) (ldtr_cache s) (tr_cache s) (int_callback s) (reptype s)
    (segoverride s) (useseg s) v (savecs s) (saveip s) (addrbyte s) (mode s)
    (reg s) (rm s) (disp16 s) (ea s) (oper1 s) (oper2 s) (res16 s) (oper1b s)
    (oper2b s) (res8 s) (totalexec s) (fpu s) (mem s) (a20_enabled s).

Definition set_savecs (v : Z) (s : CPU_t) : CPU_t :=
  mkCPU (wordregs s) (segregs s) (segcache s) (ip s) (cf s) (pf s) (af s)
    (zf s) (sf s) (tf s) (ifl s) (df s) (of_ s) (trap_toggle s) (hltstate s)
    (msw s) (protected_mode s) (handling_fault s) (gdtr s) (idtr s) (ldtr s)
    (tr s) (ldtr_cache s) (tr_cache s) (int_callback s) (reptype s)
    (segoverride s) (useseg s) (opcode s) v (saveip s) (addrbyte s) (mode s)
    (reg s) (rm s) (disp16 s) (ea s) (oper1 s) (oper2 s) (res16 s) (oper1b s)
    (oper2b s) (res8 s) (totalexec s) (fpu s) (mem s) (a20_enabled s).

Definition set_saveip (v : Z) (s : CPU_t) : CPU_t :=
  mkCPU (wordregs s) (segregs s) (segcache s) (ip s) (cf s) (pf s) (af s)
    (zf s) (sf s) (tf s) (ifl s) (df s) (of_ s) (trap_toggle s) (hltstate s)
    (msw s) (protected_mode s) (handling_fault s) (gdtr s) (idtr s) (ldtr s)
    (tr s) (ldtr_cache s) (tr_cache s) (int_callback s) (reptype s)
    (segoverride s) (useseg s) (opcode s) (savecs s) v (addrbyte s) (mode s)
    (reg s) (rm s) (disp16 s) (ea s) (oper1 s) (oper2 s) (res16 s) (oper1b s)
    (oper2b s) (res8 s) (totalexec s) (fpu s) (mem s) (a20_enabled s).

Definition set_addrbyte (v : Z) (s : CPU_t) : CPU_t :=
  mkCPU (wordregs s) (segregs s) (segcache s) (ip s) (cf s) (pf s) (af s)
    (zf s) (sf s) (tf s) (ifl s) (df s) (of_ s) (trap_toggle s) (hltstate s)
    (msw s) (protected_mode s) (handling_fault s) (gdtr s) (idtr s) (ldtr s)
    (tr s) (ldtr_cache s) (tr_cache s) (int_callback s) (reptype s)
    (segoverride s) (useseg s) (opcode s) (savecs s) (saveip s) v (mode s)
    (reg s) (rm s) (disp16 s) (ea s) (oper1 s) (oper2 s) (res16 s) (oper1b s)
    (oper2b s) (res8 s) (totalexec s) (fpu s) (mem s) (a20_enabled s).

Definition set_mode (v : Z) (s : CPU_t) : CPU_t :=
  mkCPU (wordregs s) (segregs s) (segcache s) (ip s) (cf s) (pf s) (af s)
    (zf s) (sf s) (tf s) (ifl s) (df s) (of_ s) (trap_toggle s) (hltstate s)
    (msw s) (protected_mode s) (handling_fault s) (gdtr s) (idtr s) (ldtr s)
    (tr s) (ldtr_cache s) (tr_cache s) (int_callback s) (reptype s)
    (segoverride s) (useseg s) (opcode s) (savecs s) (saveip s) (addrbyte s) v
    (reg s) (rm s) (disp16 s) (ea s) (oper1 s) (oper2 s) (res16 s) (oper1b s)
    (oper2b s) (res8 s) (totalexec s) (fpu s) (mem s) (a20_enabled s).

Definition set_reg (v : Z) (s : CPU_t) : CPU_t :=
  mkCPU (wordregs s) (segregs s) (segcache s) (ip s) (cf s) (pf s) (af s)
    (zf s) (sf s) (tf s) (ifl s) (df s) (of_ s) (trap_toggle s) (hltstate s)
    (msw s) (protected_mode s) (handling_fault s) (gdtr s) (idtr s) (ldtr s)
    (tr s) (ldtr_cache s) (tr_cache s) (int_callback s) (reptype s)
    (segoverride s) (useseg s) (opcode s) (savecs s) (saveip s) (addrbyte s)
    (mode s) v (rm s) (disp16 s) (ea s) (oper1 s) (oper2 s) (res16 s)
    (oper1b s) (oper2b s) (res8 s) (totalexec s) (fpu s) (mem s)
    (a20_enabled s).

Definition set_rm (v : Z) (s : CPU_t) : CPU_t :=
  mkCPU (wordregs s) (segregs s) (segcache s) (ip s) (cf s) (pf s) (af s)
    (zf s) (sf s) (tf s) (ifl s) (df s) (of_ s) (trap_toggle s) (hltstate s)
    (msw s) (protected_mode s) (handling_fault s) (gdtr s) (idtr s) (ldtr s)
    (tr s) (ldtr_cache s) (tr_cache s) (int_callback s) (reptype s)
    (segoverride s) (useseg s) (opcode s) (savecs s) (saveip s) (addrbyte s)
    (mode s) (reg s) v (disp16 s) (ea s) (oper1 s) (oper2 s) (res16 s)
    (oper1b s) (oper2b s) (res8 s) (totalexec s) (fpu s) (mem s)
    (a20_enabled s).

Definition set_disp16 (v : Z) (s : CPU_t) : CPU_t :=
  mkCPU (wordregs s) (segregs s) (segcache s) (ip s) (cf s) (pf s) (af s)
    (zf s) (sf s) (tf s) (ifl s) (df s) (of_ s) (trap_toggle s) (hltstate s)
    (msw s) (protected_mode s) (handling_fault s) (gdtr s) (idtr s) (ldtr s)
    (tr s) (ldtr_cache s) (tr_cache s) (int_callback s) (reptype s)
    (segoverride s) (useseg s) (opcode s) (savecs s) (saveip s) (addrbyte s)
    (mode s) (reg s) (rm s) v (ea s) (oper1 s) (oper2 s) (res16 s) (oper1b s)
    (oper2b s) (res8 s) (totalexec s) (fpu s) (mem s) (a20_enabled s).

Definition set_ea (v : Z) (s : CPU_t) : CPU_t :=
  mkCPU (wordregs s) (segregs s) (segcache s) (ip s) (cf s) (pf s) (af s)
    (zf s) (sf s) (tf s) (ifl s) (df s) (of_ s) (trap_toggle s) (hltstate s)
    (msw s) (protected_mode s) (handling_fault s) (gdtr s) (idtr s) (ldtr s)
    (tr s) (ldtr_cache s) (tr_cache s) (int_callback s) (reptype s)
    (segoverride s) (useseg s) (opcode s) (savecs s) (saveip s) (addrbyte s)
    (mode s) (reg s) (rm s) (disp16 s) v (oper1 s) (oper2 s) (res16 s)
    (oper1b s) (oper2b s) (res8 s) (totalexec s) (fpu s) (mem s)
    (a20_enabled s).

Definition set_oper1 (v : Z) (s : CPU_t) : CPU_t :=
  mkCPU (wordregs s) (segregs s) (segcache s) (ip s) (cf s) (pf s) (af s)
    (zf s) (sf s) (tf s) (ifl s) (df s) (of_ s) (trap_toggle s) (hltstate s)
    (msw s) (protected_mode s) (handling_fault s) (gdtr s) (idtr s) (ldtr s)
    (tr s) (ldtr_cache s) (tr_cache s) (int_callback s) (reptype s)
    (segoverride s) (useseg s) (opcode s) (savecs s) (saveip s) (addrbyte s)
    (mode s) (reg s) (rm s) (disp16 s) (ea s) v (oper2 s) (res16 s) (oper1b s)
    (oper2b s) (res8 s) (totalexec s) (fpu s) (mem s) (a20_enabled s).

Definition set_oper2 (v : Z) (s : CPU_t) : CPU_t :=
  mkCPU (wordregs s) (segregs s) (segcache s) (ip s) (cf s) (pf s) (af s)
    (zf s) (sf s) (tf s) (ifl s) (df s) (of_ s) (trap_toggle s) (hltstate s)
    (msw s) (protected_mode s) (handling_fault s) (gdtr s) (idtr s) (ldtr s)
    (tr s) (ldtr_cache s) (tr_cache s) (int_callback s) (reptype s)
    (segoverride s) (useseg s) (opcode s) (savecs s) (saveip s) (addrbyte s)
    (mode s) (reg s) (rm s) (disp16 s) (ea s) (oper1 s) v (res16 s) (oper1b s)
    (oper2b s) (res8 s) (totalexec s) (fpu s) (mem s) (a20_enabled s).

Definition set_res16 (v : Z) (s : CPU_t) : CPU_t :=
  mkCPU (wordregs s) (segregs s) (segcache s) (ip s) (cf s) (pf s) (af s)
    (zf s) (sf s) (tf s) (ifl s) (df s) (of_ s) (trap_toggle s) (hltstate s)
    (msw s) (protected_mode s) (handling_fault s) (gdtr s) (idtr s) (ldtr s)
    (tr s) (ldtr_cache s) (tr_cache s) (int_callback s) (reptype s)
    (segoverride s) (useseg s) (opcode s) (savecs s) (saveip s) (addrbyte s)
    (mode s) (reg s) (rm s) (disp16 s) (ea s) (oper1 s) (oper2 s) v (oper1b s)
    (oper2b s) (res8 s) (totalexec s) (fpu s) (mem s) (a20_enabled s).

Definition set_oper1b (v : Z) (s : CPU_t) : CPU_t :=
  mkCPU (wordregs s) (segregs s) (segcache s) (ip s) (cf s) (pf s) (af s)
    (zf s) (sf s) (tf s) (ifl s) (df s) (of_ s) (trap_toggle s) (hltstate s)
    (msw s) (protected_mode s) (handling_fault s) (gdtr s) (idtr s) (ldtr s)
    (tr s) (ldtr_cache s) (tr_cache s) (int_callback s) (reptype s)
    (segoverride s) (useseg s) (opcode s) (savecs s) (saveip s) (addrbyte s)
    (mode s) (reg s) (rm s) (disp16 s) (ea s) (oper1 s) (oper2 s) (res16 s) v
    (oper2b s) (res8 s) (totalexec s) (fpu s) (mem s) (a20_enabled s).

Definition set_oper2b (v : Z) (s : CPU_t) : CPU_t :=
  mkCPU (wordregs s) (segregs s) (segcache s) (ip s) (cf s) (pf s) (af s)
    (zf s) (sf s) (tf s) (ifl s) (df s) (of_ s) (trap_toggle s) (hltstate s)
    (msw s) (protected_mode s) (handling_fault s) (gdtr s) (idtr s) (ldtr s)
    (tr s) (ldtr_cache s) (tr_cache s) (int_callback s) (reptype s)
    (segoverride s) (useseg s) (opcode s) (savecs s) (saveip s) (addrbyte s)
    (mode s) (reg s) (rm s) (disp16 s) (ea s) (oper1 s) (oper2 s) (res16 s)
    (oper1b s) v (res8 s) (totalexec s) (fpu s) (mem s) (a20_enabled s).

Definition set_res8 (v : Z) (s : CPU_t) : CPU_t :=
  mkCPU (wordregs s) (segregs s) (segcache s) (ip s) (cf s) (pf s) (af s)
    (zf s) (sf s) (tf s) (ifl s) (df s) (of_ s) (trap_toggle s) (hltstate s)
    (msw s) (protected_mode s) (handling_fault s) (gdtr s) (idtr s) (ldtr s)
    (tr s) (ldtr_cache s) (tr_cache s) (int_callback s) (reptype s)
    (segoverride s) (useseg s) (opcode s) (savecs s) (saveip s) (addrbyte s)
    (mode s) (reg s) (rm s) (disp16 s) (ea s) (oper1 s) (oper2 s) (res16 s)
    (oper1b s) (oper2b s) v (totalexec s) (fpu s) (mem s) (a20_enabled s).

Definition set_totalexec (v : Z) (s : CPU_t) : CPU_t :=
  mkCPU (wordregs s) (segregs s) (segcache s) (ip s) (cf s) (pf s) (af s)
    (zf s) (sf s) (tf s) (ifl s) (df s) (of_ s) (trap_toggle s) (hltstate s)
    (msw s) (protected_mode s) (handling_fault s) (gdtr s) (idtr s) (ldtr s)
    (tr s) (ldtr_cache s) (tr_cache s) (int_callback s) (reptype s)
    (segoverride s) (useseg s) (opcode s) (savecs s) (saveip s) (addrbyte s)
    (mode s) (reg s) (rm s) (disp16 s) (ea s) (oper1 s) (oper2 s) (res16 s)
    (oper1b s) (oper2b s) (res8 s) v (fpu s) (mem s) (a20_enabled s).

Definition set_fpu (v : FPU_t) (s : CPU_t) : CPU_t :=
  mkCPU (wordregs s) (segregs s) (segcache s) (ip s) (cf s) (pf s) (af s)
    (zf s) (sf s) (tf s) (ifl s) (df s) (of_ s) (trap_toggle s) (hltstate s)
    (msw s) (protected_mode s) (handling_fault s) (gdtr s) (idtr s) (ldtr s)
    (tr s) (ldtr_cache s) (tr_cache s) (int_callback s) (reptype s)
    (segoverride s) (useseg s) (opcode s) (savecs s) (saveip s) (addrbyte s)
    (mode s) (reg s) (rm s) (disp16 s) (ea s) (oper1 s) (oper2 s) (res16 s)
    (oper1b s) (oper2b s) (res8 s) (totalexec s) v (mem s) (a20_enabled s).

Definition set_mem (v : Z -> Z) (s : CPU_t) : CPU_t :=
  mkCPU (wordregs s) (segregs s) (segcache s) (ip s) (cf s) (pf s) (af s)
    (zf s) (sf s) (tf s) (ifl s) (df s) (of_ s) (trap_toggle s) (hltstate s)
    (msw s) (protected_mode s) (handling_fault s) (gdtr s) (idtr s) (ldtr s)
    (tr s) (ldtr_cache s) (tr_cache s) (int_callback s) (reptype s)
    (segoverride s) (useseg s) (opcode s) (savecs s) (saveip s) (addrbyte s)
    (mode s) (reg s) (rm s) (disp16 s) (ea s) (oper1 s) (oper2 s) (res16 s)
    (oper1b s) (oper2b s) (res8 s) (totalexec s) (fpu s) v (a20_enabled s).

Definition set_a20_enabled (v : Z) (s : CPU_t) : CPU_t :=
  mkCPU (wordregs s) (segregs s) (segcache s) (ip s) (cf s) (pf s) (af s)
    (zf s) (sf s) (tf s) (ifl s) (df s) (of_ s) (trap_toggle s) (hltstate s)
    (msw s) (protected_mode s) (handling_fault s) (gdtr s) (idtr s) (ldtr s)
    (tr s) (ldtr_cache s) (tr_cache s) (int_callback s) (reptype s)
    (segoverride s) (useseg s) (opcode s) (savecs s) (saveip s) (addrbyte s)
    (mode s) (reg s) (rm s) (disp16 s) (ea s) (oper1 s) (oper2 s) (res16 s)
    (oper1b s) (oper2b s) (res8 s) (totalexec s) (fpu s) (mem s) v.

(** ** The physical memory bus *)

(** Modelled from the spec: [cpu_read] and [cpu_write] live in memory.c,
    which is not among the sources.  The bus is the spec's
    [read_byte(addr) -> u8] and [write_byte(addr, u8)] on a flat byte
    array; both take a [uint32_t] address and a [uint8_t] value. *)
Definition cpu_read (s : CPU_t) (addr32 : Z) : Z :=
  u8 (mem s (u32 addr32)).

Definition cpu_write (s : CPU_t) (addr32 value : Z) : CPU_t :=
  set_mem (upd (mem s) (u32 addr32) (u8 value)) s.

Definition cpu_writew (s : CPU_t) (addr32 value : Z) : CPU_t :=
  let addr32 := u32 addr32 in
  let value := u16 value in
  let s := cpu_write s addr32 (u8 value) in
  cpu_write s (addr32 + 1) (u8 (Z.shiftr value 8)).

Definition cpu_readw (s : CPU_t) (addr32 : Z) : Z :=
  let addr32 := u32 addr32 in
  u16 (Z.lor (u16 (cpu_read s addr32))
             (u16 (Z.shiftl (cpu_read s (addr32 + 1)) 8))).

(** The same two accesses as functions of the memory alone. *)
Definition mem_writew (m : Z -> Z) (addr32 value : Z) : Z -> Z :=
  upd (upd m (u32 (u32 addr32)) (u8 (u8 (u16 value))))
      (u32 (u32 addr32 + 1)) (u8 (u8 (Z.shiftr (u16 value) 8))).

Definition mem_readw (m : Z -> Z) (addr32 : Z) : Z :=
  u16 (Z.lor (u16 (u8 (m (u32 (u32 addr32)))))
             (u16 (Z.shiftl (u8 (m (u32 (u32 addr32 + 1)))) 8))).

(** ** Byte view of the general registers *)

Definition byteregs (s : CPU_t) (b : Z) : Z :=
  let w := wordregs s (b / 2) in
  if Z.odd b then Z.land (Z.shiftr w 8) 0xFF else Z.land w 0xFF.

Definition set_bytereg (b v : Z) (s : CPU_t) : CPU_t :=
  let w := wordregs s (b / 2) in
  let w' := if Z.odd b
            then Z.lor (Z.land w 0x00FF) (Z.shiftl (u8 v) 8)
            else Z.lor (Z.land w 0xFF00) (u8 v) in
  set_wordregs (upd (wordregs s) (b / 2) w') s.

Definition set_wordreg (r v : Z) (s : CPU_t) : CPU_t :=
  set_wordregs (upd (wordregs s) r (u16 v)) s.

Definition set_segreg (r v : Z) (s : CPU_t) : CPU_t :=
  set_segregs (upd (segregs s) r (u16 v)) s.

(** ** The flag engine *)

Definition parity : list Z :=
  [1; 0; 0; 1; 0; 1; 1; 0; 0; 1; 1; 0; 1; 0; 0; 1; 0; 1; 1; 0; 1; 0; 0; 1; 1; 0; 0; 1; 0; 1; 1; 0;
   0; 1; 1; 0; 1; 0; 0; 1; 1; 0; 0; 1; 0; 1; 1; 0; 1; 0; 0; 1; 0; 1; 1; 0; 0; 1; 1; 0; 1; 0; 0; 1;
   0; 1; 1; 0; 1; 0; 0; 1; 1; 0; 0; 1; 0; 1; 1; 0; 1; 0; 0; 1; 0; 1; 1; 0; 0; 1; 1; 0; 1; 0; 0; 1;
   1; 0; 0; 1; 0; 1; 1; 0; 0; 1; 1; 0; 1; 0; 0; 1; 0; 1; 1; 0; 1; 0; 0; 1; 1; 0; 0; 1; 0; 1; 1; 0;
   0; 1; 1; 0; 1; 0; 0; 1; 1; 0; 0; 1; 0; 1; 1; 0; 1; 0; 0; 1; 0; 1; 1; 0; 0; 1; 1; 0; 1; 0; 0; 1;
   1; 0; 0; 1; 0; 1; 1; 0; 0; 1; 1; 0; 1; 0; 0; 1; 0; 1; 1; 0; 1; 0; 0; 1; 1; 0; 0; 1; 0; 1; 1; 0;
   1; 0; 0; 1; 0; 1; 1; 0; 0; 1; 1; 0; 1; 0; 0; 1; 0; 1; 1; 0; 1; 0; 0; 1; 1; 0; 0; 1; 0; 1; 1; 0;
   0; 1; 1; 0; 1; 0; 0; 1; 1; 0; 0; 1; 0; 1; 1; 0; 1; 0; 0; 1; 0; 1; 1; 0; 0; 1; 1; 0; 1; 0; 0; 1].

Definition parity_at (value : Z) : Z := nth (Z.to_nat value) parity 0.

Definition flag_szp8 (s : CPU_t) (value : Z) : CPU_t :=
  let value := u8 value in
  let s := if negb (nz value) then set_zf 1 s else set_zf 0 s in
  let s := if nz (Z.land value 0x80) then set_sf 1 s else set_sf 0 s in
  set_pf (parity_at value) s.

Definition flag_szp16 (s : CPU_t) (value : Z) : CPU_t :=
  let value := u16 value in
  let s := if negb (nz value) then set_zf 1 s else set_zf 0 s in
  let s := if nz (Z.land value 0x8000) then set_sf 1 s else set_sf 0 s in
  set_pf (parity_at (Z.land value 255)) s.

Definition flag_adc8 (s : CPU_t) (v1 v2 v3 : Z) : CPU_t :=
  let v1 := u8 v1 in let v2 := u8 v2 in let v3 := u8 v3 in
  let dst := u16 (v1 + v2 + v3) in
  let s := flag_szp8 s (u8 dst) in
  let s := if Z.land (Z.land (Z.lxor dst v1) (Z.lxor dst v2)) 0x80 =? 0x80
           then set_of_ 1 s else set_of_ 0 s in
  let s := if nz (Z.land dst 0xFF00) then set_cf 1 s else set_cf 0 s in
  if Z.land (Z.lxor (Z.lxor v1 v2) dst) 0x10 =? 0x10
  then set_af 1 s else set_af 0 s.

Definition flag_adc16 (s : CPU_t) (v1 v2 v3 : Z) : CPU_t :=
  let v1 := u16 v1 in let v2 := u16 v2 in let v3 := u16 v3 in
  let dst := u32 (v1 + v2 + v3) in
  let s := flag_szp16 s (u16 dst) in
  let s := if Z.land (Z.land (Z.lxor dst v1) (Z.lxor dst v2)) 0x8000 =? 0x8000
           then set_of_ 1 s else set_of_ 0 s in
  let s := if nz (Z.land dst 0xFFFF0000) then set_cf 1 s else set_cf 0 s in
  if Z.land (Z.lxor (Z.lxor v1 v2) dst) 0x10 =? 0x10
  then set_af 1 s else set_af 0 s.

Definition flag_add8 (s : CPU_t) (v1 v2 : Z) : CPU_t :=
  let v1 := u8 v1 in let v2 := u8 v2 in
  let dst := u16 (v1 + v2) in
  let s := flag_szp8 s (u8 dst) in
  let s := if nz (Z.land dst 0xFF00) then set_cf 1 s else set_cf 0 s in
  let s := if Z.land (Z.land (Z.lxor dst v1) (Z.lxor dst v2)) 0x80 =? 0x80
           then set_of_ 1 s else set_of_ 0 s in
  if Z.land (Z.lxor (Z.lxor v1 v2) dst) 0x10 =? 0x10
  then set_af 1 s else set_af 0 s.

Definition flag_add16 (s : CPU_t) (v1 v2 : Z) : CPU_t :=
  let v1 := u16 v1 in let v2 := u16 v2 in
  let dst := u32 (v1 + v2) in
  let s := flag_szp16 s (u16 dst) in
  let s := if nz (Z.land dst 0xFFFF0000) then set_cf 1 s else set_cf 0 s in
  let s := if Z.land (Z.land (Z.lxor dst v1) (Z.lxor dst v2)) 0x8000 =? 0x8000
           then set_of_ 1 s else set_of_ 0 s in
  if Z.land (Z.lxor (Z.lxor v1 v2) dst) 0x10 =? 0x10
  then set_af 1 s else set_af 0 s.

Definition flag_sbb8 (s : CPU_t) (v1 v2 v3 : Z) : CPU_t :=
  let v1 := u8 v1 in let v2 := u8 v2 in let v3 := u8 v3 in
  let v2 := u8 (v2 + v3) in
  let dst := u16 (v1 - v2) in
  let s := flag_szp8 s (u8 dst) in
  let s := if nz (Z.land dst 0xFF00) then set_cf 1 s else set_cf 0 s in
  let s := if nz (Z.land (Z.land (Z.lxor dst v1) (Z.lxor v1 v2)) 0x80)
           then set_of_ 1 s else set_of_ 0 s in
  if nz (Z.land (Z.lxor (Z.lxor v1 v2) dst) 0x10)
  then set_af 1 s else set_af 0 s.

Definition flag_sbb16 (s : CPU_t) (v1 v2 v3 : Z) : CPU_t :=
  let v1 := u16 v1 in let v2 := u16 v2 in let v3 := u16 v3 in
  let v2 := u16 (v2 + v3) in
  let dst := u32 (v1 - v2) in
  let s := flag_szp16 s (u16 dst) in
  let s := if nz (Z.land dst 0xFFFF0000) then set_cf 1 s else set_cf 0 s in
  let s := if nz (Z.land (Z.land (Z.lxor dst v1) (Z.lxor v1 v2)) 0x8000)
           then set_of_ 1 s else set_of_ 0 s in
  if nz (Z.land (Z.lxor (Z.lxor v1 v2) dst) 0x10)
  then set_af 1 s else set_af 0 s.

Definition flag_sub8 (s : CPU_t) (v1 v2 : Z) : CPU_t :=
  let v1 := u8 v1 in let v2 := u8 v2 in
  let dst := u16 (v1 - v2) in
  let s := flag_szp8 s (u8 dst) in
  let s := if nz (Z.land dst 0xFF00) then set_cf 1 s else set_cf 0 s in
  let s := if nz (Z.land (Z.land (Z.lxor dst v1) (Z.lxor v1 v2)) 0x80)
           then set_of_ 1 s else set_of_ 0 s in
  if nz (Z.land (Z.lxor (Z.lxor v1 v2) dst) 0x10)
  then set_af 1 s else set_af 0 s.

Definition flag_sub16 (s : CPU_t) (v1 v2 : Z) : CPU_t :=
  let v1 := u16 v1 in let v2 := u16 v2 in
  let dst := u32 (v1 - v2) in
  let s := flag_szp16 s (u16 dst) in
  let s := if nz (Z.land dst 0xFFFF0000) then set_cf 1 s else set_cf 0 s in
  let s := if nz (Z.land (Z.land (Z.lxor dst v1) (Z.lxor v1 v2)) 0x8000)
           then set_of_ 1 s else set_of_ 0 s in
  if nz (Z.land (Z.lxor (Z.lxor v1 v2) dst) 0x10)
  then set_af 1 s else set_af 0 s.

Definition op_adc8 (s : CPU_t) : CPU_t :=
  let s' := set_res8 (u8 (oper1b s + oper2b s + cf s)) s in
  flag_adc8 s' (oper1b s) (oper2b s) (cf s).

Definition op_adc16 (s : CPU_t) : CPU_t :=
  let s' := set_res16 (u16 (oper1 s + oper2 s + cf s)) s in
  flag_adc16 s' (oper1 s) (oper2 s) (cf s).

Definition op_add8 (s : CPU_t) : CPU_t :=
  let s' := set_res8 (u8 (oper1b s + oper2b s)) s in
  flag_add8 s' (oper1b s) (oper2b s).

Definition op_add16 (s : CPU_t) : CPU_t :=
  let s' := set_res16 (u16 (oper1 s + oper2 s)) s in
  flag_add16 s' (oper1 s) (oper2 s).

Definition op_sub8 (s : CPU_t) : CPU_t :=
  let s' := set_res8 (u8 (oper1b s - oper2b s)) s in
  flag_sub8 s' (oper1b s) (oper2b s).

Definition op_sub16 (s : CPU_t) : CPU_t :=
  let s' := set_res16 (u16 (oper1 s - oper2 s)) s in
  flag_sub16 s' (oper1 s) (oper2 s).

Definition op_sbb8 (s : CPU_t) : CPU_t :=
  let s' := set_res8 (u8 (oper1b s - (oper2b s + cf s))) s in
  flag_sbb8 s' (oper1b s) (oper2b s) (cf s).

Definition op_sbb16 (s : CPU_t) : CPU_t :=
  let s' := set_res16 (u16 (oper1 s - (oper2 s + cf s))) s in
  flag_sbb16 s' (oper1 s) (oper2 s) (cf s).

(** ** The coprocessor's register stack (fpu.h, fpu.c) *)

Definition kFpuTagValid : Z := 0.
Definition kFpuTagZero : Z := 1.
Definition kFpuTagSpecial : Z := 2.
Definition kFpuTagEmpty : Z := 3.

Definition kFpuSwIe : Z := 0x0001.
Definition kFpuSwSf : Z := 0x0040.
Definition kFpuSwC1 : Z := 0x0200.
Definition kFpuSwSp : Z := 0x3800.

(** [-NAN]: the quiet NaN with its sign bit set. *)
Definition neg_nan : double := 0xFFF8000000000000.

(** The 3-bit top-of-stack field of the status word. *)
Definition fpu_top (s : CPU_t) : Z :=
  Z.shiftr (Z.land (FPU.sw (fpu s)) kFpuSwSp) 11.

(** The index the macro [FpuSt(cpu, i)] selects in [st]. *)
Definition FpuSt (s : CPU_t) (i : Z) : Z := Z.land (i + fpu_top s) 7.

Definition set_fpu_sw (v : Z) (s : CPU_t) : CPU_t :=
  set_fpu (FPU.set_sw (u16 v) (fpu s)) s.

Definition set_fpu_tw (v : Z) (s : CPU_t) : CPU_t :=
  set_fpu (FPU.set_tw (u16 v) (fpu s)) s.

Definition set_FpuSt (s : CPU_t) (i : Z) (x : double) : CPU_t :=
  set_fpu (FPU.set_st (upd (FPU.st (fpu s)) (FpuSt s i) x) (fpu s)) s.

Definition OnFpuStackOverflow (s : CPU_t) : CPU_t :=
  set_fpu_sw
    (Z.lor (FPU.sw (fpu s)) (Z.lor (Z.lor kFpuSwIe kFpuSwC1) kFpuSwSf)) s.

Definition OnFpuStackUnderflow (s : CPU_t) : double * CPU_t :=
  let s := set_fpu_sw (Z.lor (FPU.sw (fpu s)) (Z.lor kFpuSwIe kFpuSwSf)) s in
  let s := set_fpu_sw (Z.land (FPU.sw (fpu s)) (Z.lnot kFpuSwC1)) s in
  (neg_nan, s).

(** The parameter [i] is [unsigned]: [-1] arrives as [0xFFFFFFFF]. *)
Definition FpuGetTag (s : CPU_t) (i : Z) : Z :=
  let i := u32 i in
  let t := FPU.tw (fpu s) in
  let i := u32 (i + fpu_top s) in
  let i := Z.land i 7 in
  let i := i * 2 in
  let t := Z.land t (Z.shiftl 3 i) in
  Z.shiftr t i.

Definition FpuSetTag (s : CPU_t) (i t : Z) : CPU_t :=
  let i := u32 i in
  let t := u32 t in
  let i := u32 (i + fpu_top s) in
  let t := Z.land t 3 in
  let i := Z.land i 7 in
  let i := i * 2 in
  let s := set_fpu_tw (Z.land (FPU.tw (fpu s)) (Z.lnot (Z.shiftl 3 i))) s in
  set_fpu_tw (Z.lor (FPU.tw (fpu s)) (Z.shiftl t i)) s.

Definition St (s : CPU_t) (i : Z) : double * CPU_t :=
  if FpuGetTag s i =? kFpuTagEmpty then OnFpuStackUnderflow s
  else (FPU.st (fpu s) (FpuSt s i), s).

Definition FpuPush (s : CPU_t) (x : double) : CPU_t :=
  let s := if negb (FpuGetTag s (-1) =? kFpuTagEmpty)
           then OnFpuStackOverflow s else s in
  let sw := FPU.sw (fpu s) in
  let s := set_fpu_sw
             (Z.lor (Z.land sw (Z.lnot kFpuSwSp))
                    (Z.land (sw - Z.shiftl 1 11) kFpuSwSp)) s in
  let s := set_FpuSt s 0 x in
  FpuSetTag s 0 kFpuTagValid.

Definition FpuPop (s : CPU_t) : double * CPU_t :=
  let '(x, s) :=
    if negb (FpuGetTag s 0 =? kFpuTagEmpty)
    then (FPU.st (fpu s) (FpuSt s 0), FpuSetTag s 0 kFpuTagEmpty)
    else OnFpuStackUnderflow s in
  let sw := FPU.sw (fpu s) in
  (x, set_fpu_sw
        (Z.lor (Z.land sw (Z.lnot kFpuSwSp))
               (Z.land (sw + Z.shiftl 1 11) kFpuSwSp)) s).

(** The two updates of the status word, and the top-of-stack field, as
    functions of the word alone. *)
Definition top_of (sw : Z) : Z := Z.shiftr (Z.land sw kFpuSwSp) 11.

Definition sw_dec (sw : Z) : Z :=
  u16 (Z.lor (Z.land sw (Z.lnot kFpuSwSp))
             (Z.land (sw - Z.shiftl 1 11) kFpuSwSp)).

Definition sw_inc (sw : Z) : Z :=
  u16 (Z.lor (Z.land sw (Z.lnot kFpuSwSp))
             (Z.land (sw + Z.shiftl 1 11) kFpuSwSp)).

Definition OpFinit (s : CPU_t) : CPU_t :=
  let s := set_fpu (FPU.set_cw 0x037F (fpu s)) s in
  let s := set_fpu (FPU.set_sw 0 (fpu s)) s in
  set_fpu (FPU.set_tw 0xFFFF (fpu s)) s.

(** ** Address formation *)

(** [getea]: the offset of the current ModR/M operand ([tempea], a
    [uint32_t], cut to its low word) and then its physical address. *)
Definition getea_offset (s : CPU_t) (rmval : Z) : Z :=
  let rmval := u8 rmval in
  let r := wordregs s in
  let tempea :=
    if mode s =? 0 then
      if rmval =? 0 then u32 (r regbx + r regsi)
      else if rmval =? 1 then u32 (r regbx + r regdi)
      else if rmval =? 2 then u32 (r regbp + r regsi)
      else if rmval =? 3 then u32 (r regbp + r regdi)
      else if rmval =? 4 then r regsi
      else if rmval =? 5 then r regdi
      else if rmval =? 6 then disp16 s
      else if rmval =? 7 then r regbx
      else 0
    else if (mode s =? 1) || (mode s =? 2) then
      if rmval =? 0 then u32 (r regbx + r regsi + disp16 s)
      else if rmval =? 1 then u32 (r regbx + r regdi + disp16 s)
      else if rmval =? 2 then u32 (r regbp + r regsi + disp16 s)
      else if rmval =? 3 then u32 (r regbp + r regdi + disp16 s)
      else if rmval =? 4 then u32 (r regsi + disp16 s)
      else if rmval =? 5 then u32 (r regdi + disp16 s)
      else if rmval =? 6 then u32 (r regbp + disp16 s)
      else if rmval =? 7 then u32 (r regbx + disp16 s)
      else 0
    else 0 in
  Z.land tempea 0xFFFF.

Definition getea (s : CPU_t) (rmval : Z) : CPU_t :=
  let offset := getea_offset s rmval in
  if nz (protected_mode s) then
    let seg_reg_index :=
      if useseg s =? segregs s regss then regss
      else if useseg s =? segregs s regds then regds
      else if useseg s =? segregs s reges then reges
      else if useseg s =? segregs s regcs then regcs
      else -1 in
    if negb (seg_reg_index =? -1) && nz (valid (segcache s seg_reg_index))
    then set_ea (u32 (base (segcache s seg_reg_index) + offset)) s
    else set_ea 0 s
  else
    let addr := u32 (Z.shiftl (useseg s) 4 + offset) in
    let addr := if negb (nz (a20_enabled s))
                then Z.land addr 0x000FFFFF else addr in
    set_ea addr s.

(** [translate_address_safe] returns the address and the value it stores
    through [fault]. *)
Definition translate_address_safe (s : CPU_t) (seg off : Z) : Z * Z :=
  let seg := u16 seg in
  let off := u16 off in
  if negb (nz (protected_mode s)) then (u32 (Z.shiftl seg 4 + off), 0)
  else
    let cache :=
      if seg =? segregs s regcs then Some (segcache s regcs)
      else if seg =? segregs s regds then Some (segcache s regds)
      else if seg =? segregs s reges then Some (segcache s reges)
      else if seg =? segregs s regss then Some (segcache s regss)
      else None in
    match cache with
    | None => (0xFFFFFFFF, 1)
    | Some c =>
        if negb (nz (valid c)) then (0xFFFFFFFF, 1)
        else if limit c <? off then (0xFFFFFFFF, 1)
        else (u32 (base c + off), 0)
    end.

(** Whether [get_real_address] takes its fault branch, and the address
    it returns when it does not. *)
Definition translation_faults (s : CPU_t) (seg off : Z) : bool :=
  nz (protected_mode s) && nz (snd (translate_address_safe s seg off)).

Definition translated_address (s : CPU_t) (seg off : Z) : Z :=
  if nz (protected_mode s) then fst (translate_address_safe s seg off)
  else
    let addr := u32 (Z.shiftl (u16 seg) 4 + u16 off) in
    if negb (nz (a20_enabled s)) then Z.land addr 0x000FFFFF else addr.

(** ** Reset *)

Definition cpu_reset (s : CPU_t) : CPU_t :=
  let s := set_int_callback (fun _ => None) s in
  let s := set_wordregs (fun _ => 0) s in
  let s := set_segcache (fun _ => zero_cache) s in
  let s := set_ldtr_cache zero_cache s in
  let s := set_tr_cache zero_cache s in
  let s := set_msw 0xFFF0 s in
  let s := set_gdtr (DT.mk 0 0xFFFF) s in
  let s := set_idtr (DT.mk 0 0x03FF) s in
  let s := set_handling_fault 0 s in
  let s := set_ldtr 0 s in
  let s := set_tr 0 s in
  let s := set_protected_mode 0 s in
  let s := set_a20_enabled 0 s in
  let s := OpFinit s in
  let s := set_segreg regcs 0xF000 s in
  let s := set_ip 0xFFF0 s in
  let s := set_hltstate 0 s in
  set_trap_toggle 0 s.

(** ** Descriptor tables *)

Definition read_24bit_base (s : CPU_t) (addr : Z) : Z :=
  let addr := u32 addr in
  u32 (Z.lor (Z.lor (cpu_read s addr) (Z.shiftl (cpu_read s (addr + 1)) 8))
             (Z.shiftl (cpu_read s (addr + 2)) 16)).

(** The table a selector names: [None] when it names the local table
    and [ldtr_cache] is not valid. *)
Definition selector_table (s : CPU_t) (selector : Z) : option (Z * Z) :=
  if nz (Z.land selector 0x0004) then
    if negb (nz (valid (ldtr_cache s))) then None
    else Some (base (ldtr_cache s), limit (ldtr_cache s))
  else Some (DT.base (gdtr s), DT.limit (gdtr s)).

(** [get_descriptor_info]: [Some (base, limit, access)] for the return
    value 1, [None] for 0. *)
Definition get_descriptor_info (s : CPU_t) (selector : Z)
  : option (Z * Z * Z) :=
  let selector := u16 selector in
  if Z.land selector 0xFFFC =? 0 then None
  else
    match selector_table s selector with
    | None => None
    | Some (table_base, table_limit) =>
        let index := Z.shiftr selector 3 in
        if table_limit <? index * 8 + 7 then None
        else
          let addr := u32 (table_base + index * 8) in
          Some (read_24bit_base s (addr + 2), cpu_readw s addr,
                cpu_read s (addr + 5))
    end.

(** The 24-bit INT 15h block move: [cpu_write(dest_base + i,
    cpu_read(source_base + i))] for [i] from [i0], [n] times. *)
Fixpoint move_block (n : nat) (i0 source_base dest_base : Z) (s : CPU_t)
  : CPU_t :=
  match n with
  | O => s
  | S k =>
      move_block k (i0 + 1) source_base dest_base
        (cpu_write s (dest_base + i0) (cpu_read s (source_base + i0)))
  end.

(** The effect of [move_block] on the memory alone. *)
Fixpoint mem_move (n : nat) (i0 source_base dest_base : Z) (m : Z -> Z)
  : Z -> Z :=
  match n with
  | O => m
  | S k =>
      mem_move k (i0 + 1) source_base dest_base
        (upd m (u32 (dest_base + i0)) (u8 (u8 (m (u32 (source_base + i0))))))
  end.

(** Sign extension of a byte to a word ([signext] of cpu.h). *)
Definition signext (value : Z) : Z :=
  let value := u8 value in
  if nz (Z.land value 0x80) then u16 (value - 0x100) else value.

(** ** The interpreter *)

Definition bind {A B : Type} (m : option A) (k : A -> option B) : option B :=
  match m with
  | Some a => k a
  | None => None
  end.

Notation "x <- m ;; k" := (bind m (fun x => k))
  (at level 61, m at next level, right associativity).

Section Interpreter.

(** What the host and cpu.h contribute.  [run_callback] is the meaning of
    a registered interrupt callback.  cpu.h is not among the sources, so
    two of its macros are parameters: [flags_word] is the word
    [makeflagsword] packs the nine flags (CF, PF, AF, ZF, SF, TF, IF, DF,
    OF) into, and [seg_address] is the physical address the memory macros
    [getmem8], [getmem16], [putmem8] and [putmem16] form for a segment
    and an offset; it may depend on what segment translation depends on:
    the mode, the A20 line, the selectors and the descriptor caches. *)
Variable run_callback : callback -> CPU_t -> Z -> CPU_t.
Variable flags_word : Z -> Z -> Z -> Z -> Z -> Z -> Z -> Z -> Z -> Z.
Variable seg_address :
  Z -> Z -> (Z -> Z) -> (Z -> DESCRIPTOR_CACHE) -> Z -> Z -> Z.

Definition makeflagsword (s : CPU_t) : Z :=
  flags_word (cf s) (pf s) (af s) (zf s) (sf s) (tf s) (ifl s) (df s)
    (of_ s).

Definition mem_address (s : CPU_t) (seg off : Z) : Z :=
  seg_address (protected_mode s) (a20_enabled s) (segregs s) (segcache s)
    (u16 seg) (u16 off).

Definition getmem8 (s : CPU_t) (seg off : Z) : Z :=
  cpu_read s (mem_address s seg off).

Definition getmem16 (s : CPU_t) (seg off : Z) : Z :=
  cpu_readw s (mem_address s seg off).

Definition putmem8 (s : CPU_t) (seg off value : Z) : CPU_t :=
  cpu_write s (mem_address s seg off) value.

Definition putmem16 (s : CPU_t) (seg off value : Z) : CPU_t :=
  cpu_writew s (mem_address s seg off) value.

Definition push (s : CPU_t) (pushval : Z) : CPU_t :=
  let s := set_wordreg regsp (wordregs s regsp - 2) s in
  putmem16 s (segregs s regss) (wordregs s regsp) pushval.

Definition pop (s : CPU_t) : Z * CPU_t :=
  let tempval := getmem16 s (segregs s regss) (wordregs s regsp) in
  (tempval, set_wordreg regsp (wordregs s regsp + 2) s).

(** The vectors that carry an error code and mark a fault in flight. *)
Definition is_fault_vector (intnum : Z) : bool :=
  (intnum =? 8) || (intnum =? 10) || (intnum =? 11) || (intnum =? 12)
  || (intnum =? 13).

Section Dispatch.

(** The dispatcher calls itself, directly and through the descriptor
    loader and the address translation; [intcall] is that inner call. *)
Variable intcall : CPU_t -> Z -> option CPU_t.

Definition get_real_address (s : CPU_t) (seg off : Z)
  : option (Z * CPU_t) :=
  let seg := u16 seg in
  let off := u16 off in
  if nz (protected_mode s) then
    let '(addr, fault) := translate_address_safe s seg off in
    if nz fault then
      s <- intcall s 13 ;;
      Some (0, s)
    else Some (addr, s)
  else
    let addr := u32 (Z.shiftl seg 4 + off) in
    if negb (nz (a20_enabled s)) then Some (Z.land addr 0x000FFFFF, s)
    else Some (addr, s).

Definition load_descriptor (s : CPU_t) (seg_reg selector : Z)
  : option CPU_t :=
  let seg_reg := u8 seg_reg in
  let selector := u16 selector in
  let cpl := Z.land (segregs s regcs) 3 in
  if Z.land selector 0xFFFC =? 0 then
    if seg_reg =? regss then intcall s 13
    else
      let s := set_segcache
                 (upd (segcache s) seg_reg (set_valid 0 (segcache s seg_reg)))
                 s in
      Some (set_segreg seg_reg selector s)
  else
    match selector_table s selector with
    | None => intcall s 13
    | Some (table_base, table_limit) =>
        let index := Z.shiftr selector 3 in
        if table_limit <? index * 8 + 7 then
          s <- intcall s 13 ;;
          Some (set_segcache
                  (upd (segcache s) seg_reg
                       (set_valid 0 (segcache s seg_reg))) s)
        else
          let addr := u32 (table_base + index * 8) in
          let access_ := cpu_read s (addr + 5) in
          let limit_ := cpu_readw s addr in
          let base_ := read_24bit_base s (addr + 2) in
          let rpl := Z.land selector 3 in
          let dpl := Z.land (Z.shiftr access_ 5) 3 in
          let commit :=
            let c := segcache s seg_reg in
            let c := set_limit limit_ c in
            let c := set_base base_ c in
            let c := set_access access_ c in
            let c := set_valid 1 c in
            let s := set_segcache (upd (segcache s) seg_reg c) s in
            Some (set_segreg seg_reg selector s) in
          if negb (nz (Z.land access_ 0x80)) then intcall s 11
          else if seg_reg =? regss then
            let is_writable_data :=
              negb (nz (Z.land access_ 0x08)) && nz (Z.land access_ 0x02) in
            if negb (rpl =? cpl) || negb (dpl =? cpl)
               || negb is_writable_data
            then intcall (push s selector) 13
            else commit
          else if seg_reg =? regcs then
            if negb (nz (Z.land access_ 0x08)) then intcall s 13
            else if cpl <? dpl then intcall s 13
            else commit
          else
            let is_data := negb (nz (Z.land access_ 0x08)) in
            let is_readable_code := Z.land access_ 0x0A =? 0x0A in
            if negb is_data && negb is_readable_code then intcall s 13
            else if (dpl <? cpl) || (dpl <? rpl) then intcall s 13
            else commit
    end.

(** Entry through the interrupt descriptor table. *)
Definition intcall_protected (s : CPU_t) (intnum : Z) : option CPU_t :=
  let gate_offset := u32 (intnum * 8) in
  if DT.limit (idtr s) <? gate_offset + 7 then intcall s 8
  else
    let gate_addr := u32 (DT.base (idtr s) + gate_offset) in
    let access_ := cpu_read s (gate_addr + 5) in
    if negb (nz (Z.land access_ 0x80)) then intcall s 11
    else
      let new_ip := cpu_readw s gate_addr in
      let new_cs := cpu_readw s (gate_addr + 2) in
      let gate_type := Z.land access_ 0x1F in
      match get_descriptor_info s new_cs with
      | None => intcall s 13
      | Some (_, _, target_desc_access) =>
          let target_dpl := Z.land (Z.shiftr target_desc_access 5) 3 in
          let cpl := Z.land (segregs s regcs) 3 in
          let old_flags := u16 (makeflagsword s) in
          let old_cs := segregs s regcs in
          let old_ip := ip s in
          let error_code (s : CPU_t) : CPU_t :=
            if (intnum =? 8) || ((10 <=? intnum) && (intnum <=? 13))
            then push s 0 else s in
          let enter (s : CPU_t) : option CPU_t :=
            s <- load_descriptor s regcs new_cs ;;
            let s := set_segreg regcs new_cs s in
            let s := set_ip new_ip s in
            let s := set_tf 0 s in
            let s := if gate_type =? 0x06 then set_ifl 0 s else s in
            Some (set_handling_fault 0 s) in
          if target_dpl <? cpl then
            if negb (nz (valid (tr_cache s))) then intcall s 8
            else
              let new_sp := sp0 (tr_cache s) in
              let new_ss := ss0 (tr_cache s) in
              let old_ss := segregs s regss in
              let old_sp := wordregs s regsp in
              s <- load_descriptor s regss new_ss ;;
              let s := set_segreg regss new_ss s in
              let s := set_wordreg regsp new_sp s in
              let s := push s old_ss in
              let s := push s old_sp in
              let s := push s old_flags in
              let s := push s old_cs in
              let s := push s old_ip in
              enter (error_code s)
          else
            let s := push s old_flags in
            let s := push s old_cs in
            let s := push s old_ip in
            enter (error_code s)
      end.

(** Entry through the real-mode vector table. *)
Definition intcall_real (s : CPU_t) (intnum : Z) : CPU_t :=
  let flags_to_push := u16 (makeflagsword s) in
  let s := set_ifl 0 s in
  let s := set_tf 0 s in
  let s := push s flags_to_push in
  let s := push s (segregs s regcs) in
  let s := push s (ip s) in
  let s := set_segreg regcs (getmem16 s 0 (u16 (intnum * 4 + 2))) s in
  let s := set_ip (getmem16 s 0 (u16 (intnum * 4))) s in
  set_handling_fault 0 s.

(** One activation of [cpu_intcall]. *)
Definition cpu_intcall_body (s : CPU_t) (intnum : Z) : option CPU_t :=
  let intnum := u8 intnum in
  if nz (handling_fault s) then
    if intnum =? 8 then Some (cpu_reset s)
    else intcall s 8
  else
    let s := if is_fault_vector intnum then set_handling_fault 1 s else s in
    let ah := byteregs s regah in
    if (intnum =? 0x15) && (ah =? 0x88) then
      let s := set_wordreg regax 15360 s in
      Some (set_cf 0 s)
    else if (intnum =? 0x15) && (ah =? 0x87) then
      let count := wordregs s regcx in
      let num_bytes := u32 (count * 2) in
      r <- get_real_address s (segregs s reges) (wordregs s regsi) ;;
      let '(table_addr, s) := r in
      let source_base := read_24bit_base s (table_addr + 10) in
      let dest_base := read_24bit_base s (table_addr + 18) in
      let s := move_block (Z.to_nat num_bytes) 0 source_base dest_base s in
      let s := set_cf 0 s in
      let s := set_bytereg regah 0x00 s in
      Some (set_zf 1 s)
    else
      match int_callback s intnum with
      | Some cb => Some (set_handling_fault 0 (run_callback cb s intnum))
      | None =>
          if nz (protected_mode s) then intcall_protected s intnum
          else Some (intcall_real s intnum)
      end.

End Dispatch.

(** [cpu_intcall], its nesting bounded by [fuel]. *)
Fixpoint cpu_intcall (fuel : nat) (s : CPU_t) (intnum : Z)
  : option CPU_t :=
  match fuel with
  | O => None
  | S n => cpu_intcall_body (cpu_intcall n) s intnum
  end.

(** *** Operand access *)

(** Modelled from the spec: [StepIP], [getreg16] and [putreg16] are macros
    of cpu.h, which is not among the sources: "step IP" on the 16-bit
    instruction pointer, and the word view of the register file. *)
Definition StepIP (s : CPU_t) (x : Z) : CPU_t := set_ip (u16 (ip s + x)) s.

Definition getreg16 (s : CPU_t) (regid : Z) : Z := wordregs s regid.

Definition putreg16 (s : CPU_t) (regid writeval : Z) : CPU_t :=
  set_wordreg regid writeval s.

(** Modelled from the spec: the [modregrm] macro of cpu.h.  "ModR/M-using
    opcodes read an additional byte decomposing into (mod, reg, rm) and,
    per addressing mode, a 0-, 1-, or 2-byte displacement (sign-extended
    to 16 bits when 8-bit)"; "BP-based forms default to the stack segment
    unless a segment override is active". *)
Definition modregrm (s : CPU_t) : CPU_t :=
  let s := set_addrbyte (getmem8 s (segregs s regcs) (ip s)) s in
  let s := StepIP s 1 in
  let s := set_mode (Z.shiftr (addrbyte s) 6) s in
  let s := set_reg (Z.land (Z.shiftr (addrbyte s) 3) 7) s in
  let s := set_rm (Z.land (addrbyte s) 7) s in
  let stack_default (bp_form : bool) (s : CPU_t) : CPU_t :=
    if bp_form && negb (nz (segoverride s))
    then set_useseg (segregs s regss) s else s in
  if mode s =? 0 then
    let s := if rm s =? 6
             then StepIP (set_disp16 (getmem16 s (segregs s regcs) (ip s)) s) 2
             else s in
    stack_default ((rm s =? 2) || (rm s =? 3)) s
  else if mode s =? 1 then
    let s := set_disp16 (signext (getmem8 s (segregs s regcs) (ip s))) s in
    let s := StepIP s 1 in
    stack_default ((rm s =? 2) || (rm s =? 3) || (rm s =? 6)) s
  else if mode s =? 2 then
    let s := set_disp16 (getmem16 s (segregs s regcs) (ip s)) s in
    let s := StepIP s 2 in
    stack_default ((rm s =? 2) || (rm s =? 3) || (rm s =? 6)) s
  else set_disp16 0 s.

Definition readrm16 (s : CPU_t) (rmval : Z) : Z * CPU_t :=
  if mode s <? 3 then
    let s := getea s rmval in
    (u16 (Z.lor (cpu_read s (ea s))
                (Z.shiftl (u16 (cpu_read s (ea s + 1))) 8)), s)
  else (getreg16 s (u8 rmval), s).

Definition writerm16 (s : CPU_t) (rmval value : Z) : CPU_t :=
  let value := u16 value in
  if mode s <? 3 then
    let s := getea s rmval in
    let s := cpu_write s (ea s) (Z.land value 0xFF) in
    cpu_write s (ea s + 1) (Z.shiftr value 8)
  else putreg16 s (u8 rmval) value.

(** *** One iteration of the loop of [cpu_exec] *)

(** What one turn of the prefix-collection loop does before it looks at
    the byte: fetch it from CS:IP into [opcode] and step IP. *)
Definition fetched (s : CPU_t) : CPU_t :=
  let s := set_segreg regcs (Z.land (segregs s regcs) 0xFFFF) s in
  let s := set_ip (Z.land (ip s) 0xFFFF) s in
  let s := set_savecs (segregs s regcs) s in
  let s := set_saveip (ip s) s in
  let s := set_opcode (getmem8 s (segregs s regcs) (ip s)) s in
  StepIP s 1.

(** The prefix-collection loop [while (!docontinue)].  [fuel] bounds the
    dispatcher's nesting, [n] the iterations; the result tells whether the
    loop was left through the prefix-count guard. *)
Fixpoint collect_prefixes (fuel n : nat) (prefix_count : Z) (s : CPU_t)
  : option (CPU_t * bool) :=
  match n with
  | O => None
  | S n' =>
      let s := set_segreg regcs (Z.land (segregs s regcs) 0xFFFF) s in
      let s := set_ip (Z.land (ip s) 0xFFFF) s in
      let s := set_savecs (segregs s regcs) s in
      let s := set_saveip (ip s) s in
      let s := set_opcode (getmem8 s (segregs s regcs) (ip s)) s in
      let s := StepIP s 1 in
      let prefix_count := u8 (prefix_count + 1) in
      if 10 <? prefix_count then
        s <- cpu_intcall fuel s 13 ;;
        Some (s, true)
      else if opcode s =? 0x2E then
        let s := set_useseg (segregs s regcs) s in
        collect_prefixes fuel n' prefix_count (set_segoverride 1 s)
      else if opcode s =? 0x3E then
        let s := set_useseg (segregs s regds) s in
        collect_prefixes fuel n' prefix_count (set_segoverride 1 s)
      else if opcode s =? 0x26 then
        let s := set_useseg (segregs s reges) s in
        collect_prefixes fuel n' prefix_count (set_segoverride 1 s)
      else if opcode s =? 0x36 then
        let s := set_useseg (segregs s regss) s in
        collect_prefixes fuel n' prefix_count (set_segoverride 1 s)
      else if opcode s =? 0xF0 then
        collect_prefixes fuel n' prefix_count s
      else if opcode s =? 0xF3 then
        collect_prefixes fuel n' prefix_count (set_reptype 1 s)
      else if opcode s =? 0xF2 then
        collect_prefixes fuel n' prefix_count (set_reptype 2 s)
      else Some (s, false)
  end.

(** One turn of the loop on a prefix byte: the state the next turn
    starts from, [None] when the byte fetched is not a prefix. *)
Definition prefix_turn (s : CPU_t) : option CPU_t :=
  let s := fetched s in
  if opcode s =? 0x2E then
    Some (set_segoverride 1 (set_useseg (segregs s regcs) s))
  else if opcode s =? 0x3E then
    Some (set_segoverride 1 (set_useseg (segregs s regds) s))
  else if opcode s =? 0x26 then
    Some (set_segoverride 1 (set_useseg (segregs s reges) s))
  else if opcode s =? 0x36 then
    Some (set_segoverride 1 (set_useseg (segregs s regss) s))
  else if opcode s =? 0xF0 then Some s
  else if opcode s =? 0xF3 then Some (set_reptype 1 s)
  else if opcode s =? 0xF2 then Some (set_reptype 2 s)
  else None.

(** [k] turns on [k] prefix bytes in a row. *)
Fixpoint prefix_turns (k : nat) (s : CPU_t) : option CPU_t :=
  match k with
  | O => Some s
  | S k' =>
      match prefix_turn s with
      | Some s' => prefix_turns k' s'
      | None => None
      end
  end.

(** The byte values the opcode switch has no case for. *)
Definition no_case (op : Z) : bool :=
  existsb (Z.eqb op)
    [0x26; 0x2E; 0x36; 0x3E; 0x64; 0x65; 0x66; 0x67; 0xF0; 0xF1; 0xF2; 0xF3].

(** [switch (cpu->opcode)]: the cases for ADD Ev Gv, ADD Gv Ev, NOP and
    MOVSB, and the [default] case.  The result carries the increment the
    case applies to [loopcount]; [None] for the cases not embedded. *)
Definition exec_opcode (fuel : nat) (firstip : Z) (s : CPU_t)
  : option (CPU_t * Z) :=
  if opcode s =? 0x01 then
    let s := modregrm s in
    let '(v, s) := readrm16 s (rm s) in
    let s := set_oper1 v s in
    let s := set_oper2 (getreg16 s (reg s)) s in
    let s := op_add16 s in
    Some (writerm16 s (rm s) (res16 s), 0)
  else if opcode s =? 0x03 then
    let s := modregrm s in
    let s := set_oper1 (getreg16 s (reg s)) s in
    let '(v, s) := readrm16 s (rm s) in
    let s := set_oper2 v s in
    let s := op_add16 s in
    Some (putreg16 s (reg s) (res16 s), 0)
  else if opcode s =? 0x90 then Some (s, 0)
  else if opcode s =? 0xA4 then
    if nz (reptype s) && (wordregs s regcx =? 0) then Some (s, 0)
    else
      let s := putmem8 s (segregs s reges) (wordregs s regdi)
                 (getmem8 s (useseg s) (wordregs s regsi)) in
      let s :=
        if nz (df s) then
          let s := set_wordreg regsi (wordregs s regsi - 1) s in
          set_wordreg regdi (wordregs s regdi - 1) s
        else
          let s := set_wordreg regsi (wordregs s regsi + 1) s in
          set_wordreg regdi (wordregs s regdi + 1) s in
      let s := if nz (reptype s)
               then set_wordreg regcx (wordregs s regcx - 1) s else s in
      if negb (nz (reptype s)) then Some (s, 1)
      else Some (set_ip firstip s, 1)
  else if no_case (opcode s) then
    s <- cpu_intcall fuel s 6 ;;
    Some (s, 0)
  else None.

(** The body of [for (loopcount = 0; loopcount < execloops; loopcount++)]. *)
Definition cpu_exec_iteration (fuel : nat) (s : CPU_t)
  : option (CPU_t * Z) :=
  s <- (if nz (trap_toggle s) then cpu_intcall fuel s 1 else Some s) ;;
  let s := if nz (tf s) then set_trap_toggle 1 s else set_trap_toggle 0 s in
  if nz (hltstate s) then Some (s, 0)
  else
    let s := set_reptype 0 s in
    let s := set_segoverride 0 s in
    let s := set_useseg (segregs s regds) s in
    let firstip := ip s in
    r <- collect_prefixes fuel 11 0 s ;;
    let s := set_totalexec (totalexec (fst r) + 1) (fst r) in
    exec_opcode fuel firstip s.

(** [cpu_exec]: [n] bounds the iterations still to run. *)
Fixpoint cpu_exec_from (fuel n : nat) (loopcount execloops : Z) (s : CPU_t)
  : option CPU_t :=
  if loopcount <? execloops then
    match n with
    | O => None
    | S n' =>
        r <- cpu_exec_iteration fuel s ;;
        cpu_exec_from fuel n' (u32 (u32 (loopcount + snd r) + 1)) execloops
          (fst r)
    end
  else Some s.

Definition cpu_exec (fuel : nat) (s : CPU_t) (execloops : Z)
  : option CPU_t :=
  let execloops := u32 execloops in
  cpu_exec_from fuel (Z.to_nat execloops) 0 execloops s.

End Interpreter.

(** Modelled from the spec: an address formation for the memory macros
    of cpu.h, used where the interpreter is run on concrete machines.
    "In real mode physical = (selector << 4) + offset, masked to 20 bits
    when the external A20 line is disabled.  In protected mode physical =
    cache.base + offset using the descriptor cache for the currently
    selected segment register; if no cache matches, the effective address
    is 0." *)
Definition spec_address (pm a20 : Z) (sregs : Z -> Z)
  (caches : Z -> DESCRIPTOR_CACHE) (seg off : Z) : Z :=
  if nz pm then
    let seg_reg_index :=
      if seg =? sregs regss then regss
      else if seg =? sregs regds then regds
      else if seg =? sregs reges then reges
      else if seg =? sregs regcs then regcs
      else -1 in
    if negb (seg_reg_index =? -1) && nz (valid (caches seg_reg_index))
    then u32 (base (caches seg_reg_index) + off)
    else 0
  else
    let addr := u32 (Z.shiftl seg 4 + off) in
    if negb (nz a20) then Z.land addr 0x000FFFFF else addr.

(** Modelled from the spec: the flags word [makeflagsword] of cpu.h
    builds, in the architectural layout of the 80286 (CF 0, PF 2, AF 4,
    ZF 6, SF 7, TF 8, IF 9, DF 10, OF 11; bit 1 reads as one). *)
Definition flagsword (c p a z s t i d o : Z) : Z :=
  Z.lor 2
    (Z.lor c
    (Z.lor (Z.shiftl p 2)
    (Z.lor (Z.shiftl a 4)
    (Z.lor (Z.shiftl z 6)
    (Z.lor (Z.shiftl s 7)
    (Z.lor (Z.shiftl t 8)
    (Z.lor (Z.shiftl i 9)
    (Z.lor (Z.shiftl d 10) (Z.shiftl o 11))))))))).

(** A host without callbacks. *)
Definition no_callback (cb : callback) (s : CPU_t) (intnum : Z) : CPU_t := s.

(** The facts about the status word that are checked by enumeration. *)
Definition sw_check (sw : Z) : bool :=
  (0 <=? top_of sw) && (top_of sw <? 8) &&
  (top_of (sw_dec sw) =? (top_of sw - 1) mod 8) &&
  (top_of (sw_inc sw) =? (top_of sw + 1) mod 8) &&
  (sw_inc (sw_dec sw) =? sw) &&
  (Z.land (sw_dec sw) (Z.lnot kFpuSwSp) =? Z.land sw (Z.lnot kFpuSwSp)) &&
  (Z.land (sw_inc sw) (Z.lnot kFpuSwSp) =? Z.land sw (Z.lnot kFpuSwSp)).

(** Bounded quantification by enumeration: [p] holds of the [n] integers
    from [z] on. *)
Fixpoint all_from (n : nat) (z : Z) (p : Z -> bool) : bool :=
  match n with
  | O => true
  | S k => p z && all_from k (z + 1) p
  end.

Definition all_below (n : nat) (p : Z -> bool) : bool := all_from n 0 p.

(** ** Concrete machines *)

(** A machine with every register and flag zero, no callbacks, an
    initialised coprocessor and the given memory. *)
Definition blank_fpu : FPU_t :=
  FPU.mk (fun _ => 0) 0x037F 0 0xFFFF 0 0 0 0 0.

Definition blank_machine (m : Z -> Z) : CPU_t :=
  mkCPU (fun _ => 0) (fun _ => 0) (fun _ => zero_cache) 0
    0 0 0 0 0 0 0 0 0
    0 0 0xFFF0 0 0
    (DT.mk 0 0xFFFF) (DT.mk 0 0x03FF) 0 0 zero_cache zero_cache
    (fun _ => None)
    0 0 0 0 0 0 0 0 0 0 0 0
    0 0 0 0 0 0
    0 blank_fpu m 0.

(** Memory holding each block of bytes at its address, zero elsewhere. *)
Fixpoint place (blocks : list (Z * list Z)) : Z -> Z :=
  match blocks with
  | [] => fun _ => 0
  | (a, l) :: rest =>
      fun i => if (a <=? i) && (i <? a + Z.of_nat (length l))
               then nth (Z.to_nat (i - a)) l 0 else place rest i
  end.

(** A real-mode machine about to execute ADD AX,BX (01 D8) at
    0000:0100, with AX = 0x7FFF and BX = 0x0001. *)
Definition add_ax_bx_machine : CPU_t :=
  let s := blank_machine (place [(0x100, [0x01; 0xD8])]) in
  let s := set_ip 0x100 s in
  let s := set_wordreg regax 0x7FFF s in
  set_wordreg regbx 0x0001 s.

(** The same machine after the opcode byte has been fetched. *)
Definition add_ax_bx_fetched : CPU_t :=
  set_opcode 0x01 (set_ip 0x101 add_ax_bx_machine).

(** A real-mode machine at 0000:0100 in front of [k] LOCK prefixes and a
    NOP, with its stack at 0000:1000, vector 13 at 0000:0200 and vector 6
    at 0000:0300. *)
Definition prefix_machine (k : nat) : CPU_t :=
  let m := place [(0x18, [0x00; 0x03; 0x00; 0x00]);
                  (0x34, [0x00; 0x02; 0x00; 0x00]);
                  (0x100, repeat 0xF0 k ++ [0x90])] in
  let s := blank_machine m in
  let s := set_ip 0x100 s in
  set_wordreg regsp 0x1000 s.

(** A real-mode machine with AL = 0x10 in front of SBB AL,0xFF with the
    carry flag set: the operands as the opcode case hands them to
    [op_sbb8]. *)
Definition sbb_machine : CPU_t :=
  let s := blank_machine (fun _ => 0) in
  let s := set_oper1b 0x10 s in
  let s := set_oper2b 0xFF s in
  set_cf 1 s.

(** A real-mode machine in the middle of REP MOVSB: the prefix and the
    opcode at 0000:0100 have been fetched, CX = 3, DS:SI = 0000:2000,
    ES:DI = 0000:3000. *)
Definition movsb_machine : CPU_t :=
  let m := place [(0x100, [0xF3; 0xA4]); (0x2000, [0x11; 0x22; 0x33])] in
  let s := blank_machine m in
  let s := set_ip 0x102 s in
  let s := set_opcode 0xA4 s in
  let s := set_reptype 1 s in
  let s := set_wordreg regcx 3 s in
  let s := set_wordreg regsi 0x2000 s in
  set_wordreg regdi 0x3000 s.

(** A real-mode machine with its stack at 0000:1000 and the vector of
    interrupt 0x21 at 0000:0400. *)
Definition int21_machine : CPU_t :=
  let m := place [(0x84, [0x00; 0x04; 0x00; 0x00])] in
  let s := blank_machine m in
  let s := set_ip 0x100 s in
  let s := set_ifl 1 s in
  set_wordreg regsp 0x1000 s.

(** A protected-mode machine at privilege level 0 calling INT 15h with
    AH = 0x87 while ES holds selector 0x0008 and its descriptor cache is
    not valid; no interrupt gate is present in its table. *)
Definition int15_protected_machine : CPU_t :=
  let s := blank_machine (fun _ => 0) in
  let s := set_protected_mode 1 s in
  let s := set_ip 0x100 s in
  let s := set_segreg regcs 0x0010 s in
  let s := set_segreg regds 0x0018 s in
  let s := set_segreg regss 0x0020 s in
  let s := set_segreg reges 0x0008 s in
  set_wordreg regax 0x8700 s.

(** The same machine with a host callback registered for vector 13;
    [halting_callback] is what that callback does. *)
Definition int15_callback_machine : CPU_t :=
  set_int_callback (upd (fun _ => None) 13 (Some 0%nat))
    int15_protected_machine.

Definition halting_callback (cb : callback) (s : CPU_t) (intnum : Z)
  : CPU_t := set_hltstate 1 s.

(** A protected-mode machine at privilege level 0 whose gate for vector
    13 is present and names code selector 0x0008, the descriptor of which
    is not present (access byte 0x1A); the gate for vector 8 is present
    and names the valid code selector 0x0010.  The interrupt table is at
    0x1000, the global table at 0x2000, the stack segment has base
    0x8000. *)
Definition absent_handler_machine : CPU_t :=
  let gate (off sel : Z) := [off; 0x00; sel; 0x00; 0x00; 0x86; 0x00; 0x00] in
  let desc (acc : Z) := [0xFF; 0xFF; 0x00; 0x00; 0x00; acc; 0x00; 0x00] in
  let m := place [(0x1000 + 8 * 8, gate 0x80 0x10);
                  (0x1000 + 13 * 8, gate 0x40 0x08);
                  (0x2000 + 0x08, desc 0x1A);
                  (0x2000 + 0x10, desc 0x9A)] in
  let s := blank_machine m in
  let s := set_protected_mode 1 s in
  let s := set_idtr (DT.mk 0x1000 0x03FF) s in
  let s := set_gdtr (DT.mk 0x2000 0x00FF) s in
  let s := set_segreg regcs 0x0010 s in
  let s := set_segreg regss 0x0018 s in
  let s := set_segcache
             (upd (upd (segcache s) regcs (mkCache 0 0xFFFF 0x9A 1 0 0))
                  regss (mkCache 0x8000 0xFFFF 0x92 1 0 0)) s in
  let s := set_ip 0x100 s in
  set_wordreg regsp 0x1000 s.

(** A real-mode machine at 0000:0100 in front of REP MOVSB (F3 A4) with
    CX = 3, DS:SI = 0000:2000 and ES:DI = 0000:3000. *)
Definition rep_movsb_machine : CPU_t :=
  let m := place [(0x100, [0xF3; 0xA4]); (0x2000, [0x11; 0x22; 0x33])] in
  let s := blank_machine m in
  let s := set_ip 0x100 s in
  let s := set_wordreg regcx 3 s in
  let s := set_wordreg regsi 0x2000 s in
  set_wordreg regdi 0x3000 s.

(** A real-mode machine calling INT 15h with AH = 0x88. *)
Definition int15_size_machine : CPU_t :=
  let s := blank_machine (fun _ => 0) in
  let s := set_ip 0x100 s in
  set_wordreg regax 0x8800 s.

(** A real-mode machine with the A20 line disabled and the current data
    segment 0xFFFF. *)
Definition a20_off_machine : CPU_t :=
  let s := blank_machine (fun _ => 0) in
  let s := set_useseg 0xFFFF s in
  set_wordreg regbx 0x0010 s.

(** The double 1.0. *)
Definition double_one : double := 0x3FF0000000000000.

(** [absent_handler_machine] with a gate for vector 13 that is in order
    (code selector 0x0010, offset 0x0040), calling INT 15h with AH = 0x87
    while ES holds selector 0x0008 and its descriptor cache is not
    valid. *)
Definition int15_gate_machine : CPU_t :=
  let gate (off sel : Z) := [off; 0x00; sel; 0x00; 0x00; 0x86; 0x00; 0x00] in
  let desc (acc : Z) := [0xFF; 0xFF; 0x00; 0x00; 0x00; acc; 0x00; 0x00] in
  let m := place [(0x1000 + 13 * 8, gate 0x40 0x10);
                  (0x2000 + 0x10, desc 0x9A)] in
  let s := set_mem m absent_handler_machine in
  let s := set_segreg reges 0x0008 s in
  set_wordreg regax 0x8700 s.
(** * The interrupt controller (chipset/i8259.c, i8259.h) *)

Module I8259.
Record t : Type := mk {
  imr : Z; irr : Z; isr : Z; icwstep : Z;
  icw : Z -> Z; ocw : Z -> Z;
  intoffset : Z; priority : Z; autoeoi : Z; readmode : Z; vector : Z;
  lastintr : Z; enabled : Z; is_slave : Z;
  partner : option Z
}.
Definition set_imr (v : Z) (c : t) : t :=
  mk v (irr c) (isr c) (icwstep c) (icw c) (ocw c) (intoffset c)
     (priority c) (autoeoi c) (readmode c) (vector c) (lastintr c)
     (enabled c) (is_slave c) (partner c).
Definition set_irr (v : Z) (c : t) : t :=
  mk (imr c) v (isr c) (icwstep c) (icw c) (ocw c) (intoffset c)
     (priority c) (autoeoi c) (readmode c) (vector c) (lastintr c)
     (enabled c) (is_slave c) (partner c).
Definition set_isr (v : Z) (c : t) : t :=
  mk (imr c) (irr c) v (icwstep c) (icw c) (ocw c) (intoffset c)
     (priority c) (autoeoi c) (readmode c) (vector c) (lastintr c)
     (enabled c) (is_slave c) (partner c).
Definition set_icwstep (v : Z) (c : t) : t :=
  mk (imr c) (irr c) (isr c) v (icw c) (ocw c) (intoffset c)
     (priority c) (autoeoi c) (readmode c) (vector c) (lastintr c)
     (enabled c) (is_slave c) (partner c).
Definition set_icw (v : Z -> Z) (c : t) : t :=
  mk (imr c) (irr c) (isr c) (icwstep c) v (ocw c) (intoffset c)
     (priority c) (autoeoi c) (readmode c) (vector c) (lastintr c)
     (enabled c) (is_slave c) (partner c).
Definition set_ocw (v : Z -> Z) (c : t) : t :=
  mk (imr c) (irr c) (isr c) (icwstep c) (icw c) v (intoffset c)
     (priority c) (autoeoi c) (readmode c) (vector c) (lastintr c)
     (enabled c) (is_slave c) (partner c).
Definition set_intoffset (v : Z) (c : t) : t :=
  mk (imr c) (irr c) (isr c) (icwstep c) (icw c) (ocw c) v
     (priority c) (autoeoi c) (readmode c) (vector c) (lastintr c)
     (enabled c) (is_slave c) (partner c).
Definition set_readmode (v : Z) (c : t) : t :=
  mk (imr c) (irr c) (isr c) (icwstep c) (icw c) (ocw c) (intoffset c)
     (priority c) (autoeoi c) v (vector c) (lastintr c)
     (enabled c) (is_slave c) (partner c).
End I8259.
Definition I8259_t : Type := I8259.t.

(** The controllers live in a store; an [I8259_t*] is an address in it,
    and [partner] is such a pointer, [None] for [NULL]. *)
Definition i8259_store : Type := Z -> I8259_t.

Definition i8259_read (c : I8259_t) (portnum : Z) : Z :=
  if Z.land (u16 portnum) 1 =? 0 then
    if I8259.readmode c =? 0 then I8259.irr c else I8259.isr c
  else I8259.imr c.

Definition i8259_write (c : I8259_t) (portnum value : Z) : I8259_t :=
  let value := u8 value in
  if Z.land (u16 portnum) 1 =? 0 then
    if nz (Z.land value 0x10) then
      let c := I8259.set_imr 0x00 c in
      let c := I8259.set_icw (upd (I8259.icw c) 1 value) c in
      let c := I8259.set_icwstep 2 c in
      I8259.set_readmode 0 c
    else if Z.land value 0x08 =? 0 then
      let c := I8259.set_ocw (upd (I8259.ocw c) 2 value) c in
      if Z.land value 0xE0 =? 0x60 then
        let c := I8259.set_irr
                   (u8 (Z.land (I8259.irr c)
                          (Z.lnot (Z.shiftl 1 (Z.land value 0x07))))) c in
        I8259.set_isr
          (u8 (Z.land (I8259.isr c)
                 (Z.lnot (Z.shiftl 1 (Z.land value 0x07))))) c
      else if Z.land value 0xE0 =? 0x40 then c
      else if Z.land value 0xE0 =? 0x20 then
        let c := I8259.set_irr
                   (u8 (Z.land (I8259.irr c) (Z.lnot (I8259.isr c)))) c in
        I8259.set_isr 0x00 c
      else c
    else
      let c := I8259.set_ocw (upd (I8259.ocw c) 3 value) c in
      if nz (Z.land value 0x02)
      then I8259.set_readmode (Z.land value 1) c else c
  else
    if I8259.icwstep c =? 2 then
      let c := I8259.set_icw (upd (I8259.icw c) 2 value) c in
      let c := I8259.set_intoffset value c in
      if nz (Z.land (I8259.icw c 1) 0x02)
      then I8259.set_icwstep 5 c else I8259.set_icwstep 3 c
    else if I8259.icwstep c =? 3 then
      let c := I8259.set_icw (upd (I8259.icw c) 3 value) c in
      if nz (Z.land (I8259.icw c 1) 0x01)
      then I8259.set_icwstep 4 c else I8259.set_icwstep 5 c
    else if I8259.icwstep c =? 4 then
      let c := I8259.set_icw (upd (I8259.icw c) 4 value) c in
      I8259.set_icwstep 5 c
    else if I8259.icwstep c =? 5 then I8259.set_imr value c
    else c.

(** The scan [for (i = 0; i < 8; i++) if ((tmpirr >> i) & 1)] of
    [i8259_nextintr]: the first line at or after [i] whose bit is set,
    with [n] lines left to look at. *)
Fixpoint first_request (n : nat) (i tmpirr : Z) : option Z :=
  match n with
  | O => None
  | S n' =>
      if nz (Z.land (Z.shiftr tmpirr i) 1) then Some i
      else first_request n' (i + 1) tmpirr
  end.

(** [i8259_nextintr]; the master hands line 2 to its partner, and [fuel]
    bounds that chain of calls.  [None] when the fuel runs out or the
    partner is [NULL]. *)
Fixpoint i8259_nextintr (fuel : nat) (st : i8259_store) (p : Z)
  : option (Z * i8259_store) :=
  match fuel with
  | O => None
  | S fuel' =>
      let c := st p in
      let tmpirr := u8 (Z.land (I8259.irr c) (Z.lnot (I8259.imr c))) in
      match first_request 8 0 tmpirr with
      | Some i =>
          if negb (nz (I8259.is_slave c)) && (i =? 2) then
            match I8259.partner c with
            | Some q => i8259_nextintr fuel' st q
            | None => None
            end
          else
            let c := I8259.set_irr
                       (u8 (Z.land (I8259.irr c) (Z.lnot (Z.shiftl 1 i))))
                       c in
            let c := I8259.set_isr
                       (u8 (Z.lor (I8259.isr c) (Z.shiftl 1 i))) c in
            Some (u8 (Z.land (I8259.icw c 2) 0xF8 + i), upd st p c)
      | None => Some (0, st)
      end
  end.

(** [i8259_doirq]; a slave forwards the request to line 2 of its
    partner.  [1 << irqnum] is a shift of an [int]: C defines it for
    [irqnum] up to 30, and its callers pass a line number below 8. *)
Fixpoint i8259_doirq (fuel : nat) (st : i8259_store) (p irqnum : Z)
  : option i8259_store :=
  match fuel with
  | O => None
  | S fuel' =>
      let irqnum := u8 irqnum in
      let c := st p in
      let c := I8259.set_irr
                 (u8 (Z.lor (I8259.irr c)
                        (Z.land (Z.shiftl 1 irqnum)
                           (Z.lnot (I8259.imr c))))) c in
      let st := upd st p c in
      if nz (I8259.is_slave c) then
        match I8259.partner c with
        | Some q => i8259_doirq fuel' st q 2
        | None => None
        end
      else Some st
  end.

(** [memset(i8259, 0, sizeof(I8259_t))]. *)
Definition zero_i8259 : I8259_t :=
  I8259.mk 0 0 0 0 (fun _ => 0) (fun _ => 0) 0 0 0 0 0 0 0 0 None.

(** [i8259_init], as far as the controller goes: the registration of its
    two ports is with ports.c. *)
Definition i8259_init (st : i8259_store) (p is_slave : Z)
  (partner : option Z) : i8259_store :=
  let is_slave := u8 is_slave in
  upd st p
    (I8259.mk 0 0 0 0 (fun _ => 0) (fun _ => 0)
       (if nz is_slave then 0x70 else 0x08) 0 0 0 0 0 0 is_slave partner).

(** * The keyboard controller and the A20 gate (chipset/i8042.c, i8042.h) *)

Definition KBC_BUFFER_SIZE : Z := 16.

Module I8042.
Record t : Type := mk {
  status : Z;
  command : Z;
  output_port : Z;
  output_buffer : Z;
  command_byte : Z;
  input_port : Z;
  buffer : Z -> Z;
  head : Z;
  tail : Z;
  keystate : Z;
  i8259 : Z
}.
Definition set_status (v : Z) (k : t) : t :=
  mk v (command k) (output_port k) (output_buffer k) (command_byte k)
    (input_port k) (buffer k) (head k) (tail k) (keystate k) (i8259 k).
Definition set_command (v : Z) (k : t) : t :=
  mk (status k) v (output_port k) (output_buffer k) (command_byte k)
    (input_port k) (buffer k) (head k) (tail k) (keystate k) (i8259 k).
Definition set_output_port (v : Z) (k : t) : t :=
  mk (status k) (command k) v (output_buffer k) (command_byte k)
    (input_port k) (buffer k) (head k) (tail k) (keystate k) (i8259 k).
Definition set_output_buffer (v : Z) (k : t) : t :=
  mk (status k) (command k) (output_port k) v (command_byte k)
    (input_port k) (buffer k) (head k) (tail k) (keystate k) (i8259 k).
Definition set_command_byte (v : Z) (k : t) : t :=
  mk (status k) (command k) (output_port k) (output_buffer k) v
    (input_port k) (buffer k) (head k) (tail k) (keystate k) (i8259 k).
Definition set_buffer (v : Z -> Z) (k : t) : t :=
  mk (status k) (command k) (output_port k) (output_buffer k)
    (command_byte k) (input_port k) v (head k) (tail k) (keystate k)
    (i8259 k).
Definition set_head (v : Z) (k : t) : t :=
  mk (status k) (command k) (output_port k) (output_buffer k)
    (command_byte k) (input_port k) (buffer k) v (tail k) (keystate k)
    (i8259 k).
Definition set_tail (v : Z) (k : t) : t :=
  mk (status k) (command k) (output_port k) (output_buffer k)
    (command_byte k) (input_port k) (buffer k) (head k) v (keystate k)
    (i8259 k).
End I8042.
Definition I8042_t : Type := I8042.t.

(** The controller points at the processor and at an interrupt
    controller.  A board holds what those pointers reach: the one
    processor ([kbc->cpu], with the global [a20_enabled] that the model of
    the processor carries), the store of interrupt controllers
    ([kbc->i8259] is an address in it) and the file-scope
    [port92_data]. *)
Module Board.
Record t : Type := mk {
  kbc : I8042.t;
  pics : i8259_store;
  cpu : CPU_t;
  port92_data : Z
}.
Definition set_kbc (v : I8042.t) (b : t) : t :=
  mk v (pics b) (cpu b) (port92_data b).
Definition set_pics (v : i8259_store) (b : t) : t :=
  mk (kbc b) v (cpu b) (port92_data b).
Definition set_cpu (v : CPU_t) (b : t) : t :=
  mk (kbc b) (pics b) v (port92_data b).
Definition set_port92_data (v : Z) (b : t) : t :=
  mk (kbc b) (pics b) (cpu b) v.
End Board.

Definition i8042_send_scancode (fuel : nat) (b : Board.t) (scancode : Z)
  : option Board.t :=
  let scancode := u8 scancode in
  let k := Board.kbc b in
  let next_head := u8 ((I8042.head k + 1) mod KBC_BUFFER_SIZE) in
  if next_head =? I8042.tail k then Some b
  else
    let k := I8042.set_buffer (upd (I8042.buffer k) (I8042.head k) scancode)
               k in
    let k := I8042.set_head next_head k in
    if negb (nz (Z.land (I8042.status k) 1)) then
      let k := I8042.set_output_buffer scancode k in
      let k := I8042.set_status (u8 (Z.lor (I8042.status k) 1)) k in
      let b := Board.set_kbc k b in
      if nz (Z.land (I8042.command_byte k) 1) then
        st <- i8259_doirq fuel (Board.pics b) (I8042.i8259 k) 1 ;;
        Some (Board.set_pics st b)
      else Some b
    else Some (Board.set_kbc k b).

Definition kbc_update (f : I8042_t -> I8042_t) (b : Board.t) : Board.t :=
  Board.set_kbc (f (Board.kbc b)) b.

Definition i8042_write (fuel : nat) (b : Board.t) (port value : Z)
  : option Board.t :=
  let port := u32 port in
  let value := u8 value in
  if port =? 0x64 then
    let b := kbc_update
               (fun k => I8042.set_status (u8 (Z.lor (I8042.status k) 2)) k)
               b in
    let b := kbc_update (I8042.set_command value) b in
    b <- (if value =? 0x20 then
            i8042_send_scancode fuel b (I8042.command_byte (Board.kbc b))
          else if value =? 0xAA then i8042_send_scancode fuel b 0x55
          else if value =? 0xAD then
            Some (kbc_update
                    (fun k => I8042.set_command_byte
                                (u8 (Z.lor (I8042.command_byte k) 0x10)) k)
                    b)
          else if value =? 0xAE then
            Some (kbc_update
                    (fun k => I8042.set_command_byte
                                (u8 (Z.land (I8042.command_byte k)
                                       (Z.lnot 0x10))) k)
                    b)
          else if value =? 0xA7 then
            Some (kbc_update
                    (fun k => I8042.set_command_byte
                                (u8 (Z.lor (I8042.command_byte k) 0x20)) k)
                    b)
          else if value =? 0xA8 then
            Some (kbc_update
                    (fun k => I8042.set_command_byte
                                (u8 (Z.land (I8042.command_byte k)
                                       (Z.lnot 0x20))) k)
                    b)
          else if value =? 0xC0 then i8042_send_scancode fuel b 0x00
          else if value =? 0xD0 then
            i8042_send_scancode fuel b (I8042.output_port (Board.kbc b))
          else if value =? 0xE0 then i8042_send_scancode fuel b 0x00
          else if value =? 0xFE then
            Some (Board.set_cpu (cpu_reset (Board.cpu b)) b)
          else Some b) ;;
    if negb (value =? 0x60) && negb (value =? 0xD1) && negb (value =? 0xD3)
       && negb (value =? 0xD4)
    then Some (kbc_update
                 (fun k => I8042.set_status
                             (u8 (Z.land (I8042.status k) (Z.lnot 2))) k)
                 b)
    else Some b
  else if port =? 0x60 then
    if nz (I8042.command (Board.kbc b)) then
      let command := I8042.command (Board.kbc b) in
      b <- (if command =? 0x60 then
              Some (kbc_update (I8042.set_command_byte value) b)
            else if command =? 0xD1 then
              let b := kbc_update (I8042.set_output_port value) b in
              Some (Board.set_cpu
                      (set_a20_enabled (Z.land (Z.shiftr value 1) 1)
                         (Board.cpu b)) b)
            else if command =? 0xD3 then Some b
            else if command =? 0xD4 then
              b <- i8042_send_scancode fuel b 0xFA ;;
              if value =? 0xFF then
                b <- i8042_send_scancode fuel b 0xAA ;;
                i8042_send_scancode fuel b 0x00
              else Some b
            else Some b) ;;
      let b := kbc_update (I8042.set_command 0) b in
      Some (kbc_update
              (fun k => I8042.set_status
                          (u8 (Z.land (I8042.status k) (Z.lnot 2))) k)
              b)
    else i8042_send_scancode fuel b 0xFA
  else Some b.

Definition i8042_read (fuel : nat) (b : Board.t) (port : Z)
  : option (Z * Board.t) :=
  let port := u32 port in
  if port =? 0x64 then Some (I8042.status (Board.kbc b), b)
  else if port =? 0x60 then
    let k := Board.kbc b in
    let data := I8042.output_buffer k in
    let k :=
      if negb (I8042.head k =? I8042.tail k) then
        let k := I8042.set_output_buffer (I8042.buffer k (I8042.tail k)) k in
        I8042.set_tail (u8 ((I8042.tail k + 1) mod KBC_BUFFER_SIZE)) k
      else I8042.set_status (u8 (Z.land (I8042.status k) (Z.lnot 1))) k in
    let b := Board.set_kbc k b in
    b <- (if negb (I8042.head k =? I8042.tail k)
             && nz (Z.land (I8042.command_byte k) 1)
          then
            st <- i8259_doirq fuel (Board.pics b) (I8042.i8259 k) 1 ;;
            Some (Board.set_pics st b)
          else Some b) ;;
    Some (data,
          kbc_update
            (fun k => I8042.set_status
                        (u8 (Z.land (I8042.status k) (Z.lnot 1))) k)
            b)
  else Some (0xFF, b).

Definition port92_write (b : Board.t) (port value : Z) : Board.t :=
  let b := Board.set_port92_data (u8 value) b in
  Board.set_cpu
    (set_a20_enabled (Z.land (Z.shiftr (Board.port92_data b) 1) 1)
       (Board.cpu b)) b.

Definition port92_read (b : Board.t) (port : Z) : Z := Board.port92_data b.

(** [i8042_init], as far as the board goes: the registration of the two
    ports is with ports.c. *)
Definition i8042_init (b : Board.t) (i8259 keystate : Z) : Board.t :=
  let b := Board.set_cpu (set_a20_enabled 0 (Board.cpu b)) b in
  Board.set_kbc
    (I8042.mk 0x14 0 0xDD 0 0x45 0x01 (fun _ => 0) 0 0 keystate i8259) b.

(** The ring indices are in bounds. *)
Definition ring_ok (b : Board.t) : Prop :=
  0 <= I8042.head (Board.kbc b) < KBC_BUFFER_SIZE /\
  0 <= I8042.tail (Board.kbc b) < KBC_BUFFER_SIZE.

(** The controller's interrupt controller is not a slave, so that a
    request raised on it goes no further. *)
Definition board_ok (b : Board.t) : Prop :=
  ring_ok b /\
  I8259.is_slave (Board.pics b (I8042.i8259 (Board.kbc b))) = 0.

(** * More of cpu.c *)

(** ** Logic operations *)

Definition flag_log8 (s : CPU_t) (value : Z) : CPU_t :=
  let s := flag_szp8 s value in
  let s := set_cf 0 s in
  set_of_ 0 s.

Definition flag_log16 (s : CPU_t) (value : Z) : CPU_t :=
  let s := flag_szp16 s value in
  let s := set_cf 0 s in
  set_of_ 0 s.

Definition op_and8 (s : CPU_t) : CPU_t :=
  let s := set_res8 (u8 (Z.land (oper1b s) (oper2b s))) s in
  flag_log8 s (res8 s).

Definition op_and16 (s : CPU_t) : CPU_t :=
  let s := set_res16 (u16 (Z.land (oper1 s) (oper2 s))) s in
  flag_log16 s (res16 s).

Definition op_or8 (s : CPU_t) : CPU_t :=
  let s := set_res8 (u8 (Z.lor (oper1b s) (oper2b s))) s in
  flag_log8 s (res8 s).

Definition op_or16 (s : CPU_t) : CPU_t :=
  let s := set_res16 (u16 (Z.lor (oper1 s) (oper2 s))) s in
  flag_log16 s (res16 s).

Definition op_xor8 (s : CPU_t) : CPU_t :=
  let s := set_res8 (u8 (Z.lxor (oper1b s) (oper2b s))) s in
  flag_log8 s (res8 s).

Definition op_xor16 (s : CPU_t) : CPU_t :=
  let s := set_res16 (u16 (Z.lxor (oper1 s) (oper2 s))) s in
  flag_log16 s (res16 s).

(** ** Shifts and rotates

    [op_grp2_8] and [op_grp2_16].  The local [s] is a [uint16_t] in the
    byte form and a [uint32_t] in the word form; a loop
    [for (shift = 1; shift <= cnt; shift++)] is [cnt] applications of
    its body to the pair of [s] and the processor state. *)

Definition grp2_loop (cnt : Z) (body : Z * CPU_t -> Z * CPU_t)
  (s : Z) (st : CPU_t) : Z * CPU_t :=
  Nat.iter (Z.to_nat cnt) body (s, st).

Definition op_grp2_8 (st : CPU_t) (cnt : Z) : Z * CPU_t :=
  let s := u16 (oper1b st) in
  let cnt := Z.land (u8 cnt) 0x1F in
  if reg st =? 0 then
    let '(s, st) :=
      grp2_loop cnt
        (fun '(s, st) =>
           let st := if nz (Z.land s 0x80) then set_cf 1 st
                     else set_cf 0 st in
           let s := u16 (Z.shiftl s 1) in
           (u16 (Z.lor s (cf st)), st)) s st in
    let st := if cnt =? 1 then
                if nz (Z.land s 0x80) && nz (cf st) then set_of_ 1 st
                else set_of_ 0 st
              else set_of_ 0 st in
    (Z.land s 0xFF, st)
  else if reg st =? 1 then
    let '(s, st) :=
      grp2_loop cnt
        (fun '(s, st) =>
           let st := set_cf (Z.land s 1) st in
           (u16 (Z.lor (Z.shiftr s 1) (Z.shiftl (cf st) 7)), st)) s st in
    let st := if cnt =? 1
              then set_of_ (Z.lxor (Z.shiftr s 7)
                              (Z.land (Z.shiftr s 6) 1)) st
              else st in
    (Z.land s 0xFF, st)
  else if reg st =? 2 then
    let '(s, st) :=
      grp2_loop cnt
        (fun '(s, st) =>
           let oldcf := u16 (cf st) in
           let st := if nz (Z.land s 0x80) then set_cf 1 st
                     else set_cf 0 st in
           let s := u16 (Z.shiftl s 1) in
           (u16 (Z.lor s oldcf), st)) s st in
    let st := if cnt =? 1
              then set_of_ (Z.lxor (cf st) (Z.land (Z.shiftr s 7) 1)) st
              else st in
    (Z.land s 0xFF, st)
  else if reg st =? 3 then
    let '(s, st) :=
      grp2_loop cnt
        (fun '(s, st) =>
           let oldcf := u16 (cf st) in
           let st := set_cf (Z.land s 1) st in
           (u16 (Z.lor (Z.shiftr s 1) (Z.shiftl oldcf 7)), st)) s st in
    let st := if cnt =? 1
              then set_of_ (Z.lxor (Z.shiftr s 7)
                              (Z.land (Z.shiftr s 6) 1)) st
              else st in
    (Z.land s 0xFF, st)
  else if (reg st =? 4) || (reg st =? 6) then
    let '(s, st) :=
      grp2_loop cnt
        (fun '(s, st) =>
           let st := if nz (Z.land s 0x80) then set_cf 1 st
                     else set_cf 0 st in
           (u16 (Z.land (Z.shiftl s 1) 0xFF), st)) s st in
    let st := if (cnt =? 1) && (cf st =? Z.shiftr s 7) then set_of_ 0 st
              else set_of_ 1 st in
    let st := flag_szp8 st (u8 s) in
    (Z.land s 0xFF, st)
  else if reg st =? 5 then
    let st := if (cnt =? 1) && nz (Z.land s 0x80) then set_of_ 1 st
              else set_of_ 0 st in
    let '(s, st) :=
      grp2_loop cnt
        (fun '(s, st) =>
           let st := set_cf (Z.land s 1) st in
           (Z.shiftr s 1, st)) s st in
    let st := flag_szp8 st (u8 s) in
    (Z.land s 0xFF, st)
  else if reg st =? 7 then
    let '(s, st) :=
      grp2_loop cnt
        (fun '(s, st) =>
           let msb := Z.land s 0x80 in
           let st := set_cf (Z.land s 1) st in
           (u16 (Z.lor (Z.shiftr s 1) msb), st)) s st in
    let st := set_of_ 0 st in
    let st := flag_szp8 st (u8 s) in
    (Z.land s 0xFF, st)
  else (Z.land s 0xFF, st).

Definition op_grp2_16 (st : CPU_t) (cnt : Z) : Z * CPU_t :=
  let s := u32 (oper1 st) in
  let cnt := Z.land (u8 cnt) 0x1F in
  if reg st =? 0 then
    let '(s, st) :=
      grp2_loop cnt
        (fun '(s, st) =>
           let st := if nz (Z.land s 0x8000) then set_cf 1 st
                     else set_cf 0 st in
           let s := u32 (Z.shiftl s 1) in
           (u32 (Z.lor s (cf st)), st)) s st in
    let st := if cnt =? 1
              then set_of_ (Z.lxor (cf st) (Z.land (Z.shiftr s 15) 1)) st
              else st in
    (Z.land (u16 s) 0xFFFF, st)
  else if reg st =? 1 then
    let '(s, st) :=
      grp2_loop cnt
        (fun '(s, st) =>
           let st := set_cf (Z.land s 1) st in
           (u32 (Z.lor (Z.shiftr s 1) (Z.shiftl (cf st) 15)), st)) s st in
    let st := if cnt =? 1
              then set_of_ (Z.lxor (Z.shiftr s 15)
                              (Z.land (Z.shiftr s 14) 1)) st
              else st in
    (Z.land (u16 s) 0xFFFF, st)
  else if reg st =? 2 then
    let '(s, st) :=
      grp2_loop cnt
        (fun '(s, st) =>
           let oldcf := u32 (cf st) in
           let st := if nz (Z.land s 0x8000) then set_cf 1 st
                     else set_cf 0 st in
           let s := u32 (Z.shiftl s 1) in
           (u32 (Z.lor s oldcf), st)) s st in
    let st := if cnt =? 1
              then set_of_ (Z.lxor (cf st) (Z.land (Z.shiftr s 15) 1)) st
              else st in
    (Z.land (u16 s) 0xFFFF, st)
  else if reg st =? 3 then
    let '(s, st) :=
      grp2_loop cnt
        (fun '(s, st) =>
           let oldcf := u32 (cf st) in
           let st := set_cf (Z.land s 1) st in
           (u32 (Z.lor (Z.shiftr s 1) (u32 (Z.shiftl oldcf 15))), st))
        s st in
    let st := if cnt =? 1
              then set_of_ (Z.lxor (Z.shiftr s 15)
                              (Z.land (Z.shiftr s 14) 1)) st
              else st in
    (Z.land (u16 s) 0xFFFF, st)
  else if (reg st =? 4) || (reg st =? 6) then
    let '(s, st) :=
      grp2_loop cnt
        (fun '(s, st) =>
           let st := if nz (Z.land s 0x8000) then set_cf 1 st
                     else set_cf 0 st in
           (Z.land (u32 (Z.shiftl s 1)) 0xFFFF, st)) s st in
    let st := if (cnt =? 1) && (cf st =? Z.shiftr s 15) then set_of_ 0 st
              else set_of_ 1 st in
    let st := flag_szp16 st (u16 s) in
    (Z.land (u16 s) 0xFFFF, st)
  else if reg st =? 5 then
    let st := if (cnt =? 1) && nz (Z.land s 0x8000) then set_of_ 1 st
              else set_of_ 0 st in
    let '(s, st) :=
      grp2_loop cnt
        (fun '(s, st) =>
           let st := set_cf (Z.land s 1) st in
           (Z.shiftr s 1, st)) s st in
    let st := flag_szp16 st (u16 s) in
    (Z.land (u16 s) 0xFFFF, st)
  else if reg st =? 7 then
    let '(s, st) :=
      grp2_loop cnt
        (fun '(s, st) =>
           let msb := Z.land s 0x8000 in
           let st := set_cf (Z.land s 1) st in
           (Z.lor (Z.shiftr s 1) msb, st)) s st in
    let st := set_of_ 0 st in
    let st := flag_szp16 st (u16 s) in
    (Z.land (u16 s) 0xFFFF, st)
  else (Z.land (u16 s) 0xFFFF, st).

Definition set_sp0 (v : Z) (c : DESCRIPTOR_CACHE) : DESCRIPTOR_CACHE :=
  mkCache (base c) (limit c) (access c) (valid c) v (ss0 c).
Definition set_ss0 (v : Z) (c : DESCRIPTOR_CACHE) : DESCRIPTOR_CACHE :=
  mkCache (base c) (limit c) (access c) (valid c) (sp0 c) v.

Section Faulting.

(** The functions below raise their faults through the dispatcher;
    [intcall] is that call. *)
Variable intcall : CPU_t -> Z -> option CPU_t.

(** ** Division *)

Definition op_div8 (s : CPU_t) (valdiv divisor : Z) : option CPU_t :=
  let valdiv := u16 valdiv in
  let divisor := u8 divisor in
  if divisor =? 0 then intcall s 0
  else if 0xFF <? valdiv / u16 divisor then intcall s 0
  else
    let s := set_bytereg regah (valdiv mod u16 divisor) s in
    Some (set_bytereg regal (valdiv / u16 divisor) s).

Definition op_idiv8 (s : CPU_t) (valdiv divisor : Z) : option CPU_t :=
  let valdiv := u16 valdiv in
  let divisor := u8 divisor in
  if divisor =? 0 then intcall s 0
  else
    let s1 := valdiv in
    let s2 := u16 divisor in
    let sign := nz (Z.land (Z.lxor s1 s2) 0x8000) in
    let s1 := u16 (if s1 <? 0x8000 then s1
                   else Z.land (Z.lnot s1 + 1) 0xffff) in
    let s2 := u16 (if s2 <? 0x8000 then s2
                   else Z.land (Z.lnot s2 + 1) 0xffff) in
    let d1 := u16 (s1 / s2) in
    let d2 := u16 (s1 mod s2) in
    if nz (Z.land d1 0xFF00) then intcall s 0
    else
      let d1 := if sign then u16 (Z.land (Z.lnot d1 + 1) 0xff) else d1 in
      let d2 := if sign then u16 (Z.land (Z.lnot d2 + 1) 0xff) else d2 in
      let s := set_bytereg regah (u8 d2) s in
      Some (set_bytereg regal (u8 d1) s).

Definition op_div16 (s : CPU_t) (valdiv divisor : Z) : option CPU_t :=
  let valdiv := u32 valdiv in
  let divisor := u16 divisor in
  if divisor =? 0 then intcall s 0
  else if 0xFFFF <? valdiv / u32 divisor then intcall s 0
  else
    let s := set_wordreg regdx (valdiv mod u32 divisor) s in
    Some (set_wordreg regax (valdiv / u32 divisor) s).

Definition op_idiv16 (s : CPU_t) (valdiv divisor : Z) : option CPU_t :=
  let valdiv := u32 valdiv in
  let divisor := u16 divisor in
  if divisor =? 0 then intcall s 0
  else
    let s1 := valdiv in
    let s2 := u32 divisor in
    let s2 := if nz (Z.land s2 0x8000) then u32 (Z.lor s2 0xffff0000)
              else s2 in
    let sign := nz (Z.land (Z.lxor s1 s2) 0x80000000) in
    let s1 := if s1 <? 0x80000000 then s1
              else Z.land (u32 (u32 (Z.lnot s1) + 1)) 0xffffffff in
    let s2 := if s2 <? 0x80000000 then s2
              else Z.land (u32 (u32 (Z.lnot s2) + 1)) 0xffffffff in
    let d1 := s1 / s2 in
    let d2 := s1 mod s2 in
    if nz (Z.land d1 0xFFFF0000) then intcall s 0
    else
      let d1 := if sign then Z.land (u32 (u32 (Z.lnot d1) + 1)) 0xffff
                else d1 in
      let d2 := if sign then Z.land (u32 (u32 (Z.lnot d2) + 1)) 0xffff
                else d2 in
      let s := set_wordreg regax d1 s in
      Some (set_wordreg regdx d2 s).

(** ** The task register and the local descriptor table register

    [load_tr] and [load_ldtr] read the three bytes of the base at
    [addr + 2], [addr + 3] and [addr + 4]; that is [read_24bit_base]
    at [addr + 2]. *)

Definition load_tr (s : CPU_t) (selector : Z) : option CPU_t :=
  let selector := u16 selector in
  if Z.land selector 0xFFFC =? 0 then intcall s 0
  else
    match selector_table s selector with
    | None => intcall s 13
    | Some (table_base, table_limit) =>
        let index := Z.shiftr selector 3 in
        if table_limit <? index * 8 + 7 then intcall s 13
        else
          let addr := u32 (table_base + index * 8) in
          let access_ := cpu_read s (addr + 5) in
          let type := Z.land access_ 0x0F in
          if negb (type =? 0x01) && negb (type =? 0x03) then intcall s 13
          else if negb (nz (Z.land access_ 0x80)) then intcall s 11
          else
            let c := tr_cache s in
            let c := set_limit (cpu_readw s addr) c in
            let c := set_base (read_24bit_base s (addr + 2)) c in
            let c := set_access (u8 (Z.lor access_ 0x02)) c in
            let c := set_valid 1 c in
            let s := set_tr_cache c s in
            let s := set_tr selector s in
            let s := set_tr_cache
                       (set_sp0 (cpu_readw s (base (tr_cache s) + 2))
                          (tr_cache s)) s in
            let s := set_tr_cache
                       (set_ss0 (cpu_readw s (base (tr_cache s) + 4))
                          (tr_cache s)) s in
            Some (cpu_write s (addr + 5) (Z.lor access_ 0x02))
    end.

Definition load_ldtr (s : CPU_t) (selector : Z) : option CPU_t :=
  let selector := u16 selector in
  if Z.land selector 0xFFFC =? 0 then
    Some (set_ldtr_cache (set_valid 0 (ldtr_cache s)) s)
  else
    let cpl := Z.land (segregs s regcs) 3 in
    if negb (cpl =? 0) then intcall s 0
    else if DT.limit (gdtr s) <? Z.land selector 0xFFFC then intcall s 13
    else
      let index := Z.shiftr selector 3 in
      let addr := u32 (DT.base (gdtr s) + index * 8) in
      let access_ := cpu_read s (addr + 5) in
      if negb (Z.land access_ 0x1F =? 0x02) then intcall s 13
      else if negb (nz (Z.land access_ 0x80)) then intcall s 11
      else
        let c := ldtr_cache s in
        let c := set_limit (cpu_readw s addr) c in
        let c := set_base (read_24bit_base s (addr + 2)) c in
        let c := set_access access_ c in
        let c := set_valid 1 c in
        Some (set_ldtr_cache c s).

End Faulting.

Section Callers.

Variable run_callback : callback -> CPU_t -> Z -> CPU_t.
Variable flags_word : Z -> Z -> Z -> Z -> Z -> Z -> Z -> Z -> Z -> Z.
Variable seg_address :
  Z -> Z -> (Z -> Z) -> (Z -> DESCRIPTOR_CACHE) -> Z -> Z -> Z.

(** [cpu_interruptCheck]: [fuel] bounds the dispatcher's nesting and
    [pfuel] the chain of interrupt controllers. *)
Definition cpu_interruptCheck (fuel pfuel : nat) (s : CPU_t)
  (st : i8259_store) (p : Z) : option (CPU_t * i8259_store) :=
  let c := st p in
  if negb (nz (trap_toggle s))
     && (nz (ifl s) && nz (Z.land (I8259.irr c) (Z.lnot (I8259.imr c))))
  then
    let s := set_hltstate 0 s in
    r <- i8259_nextintr pfuel st p ;;
    s <- cpu_intcall run_callback flags_word seg_address fuel s (fst r) ;;
    Some (s, snd r)
  else Some (s, st).

(** [cpu_registerIntCallback]. *)
Definition cpu_registerIntCallback (s : CPU_t) (interrupt : Z)
  (cb : callback) : CPU_t :=
  set_int_callback (upd (int_callback s) (u8 interrupt) (Some cb)) s.

(** The cases 0x50 to 0x5F of the opcode switch: PUSH and POP of a
    general register.  [None] for any other opcode. *)
Definition exec_push_pop (s : CPU_t) : option CPU_t :=
  if opcode s =? 0x50 then Some (push seg_address s (wordregs s regax))
  else if opcode s =? 0x51 then Some (push seg_address s (wordregs s regcx))
  else if opcode s =? 0x52 then Some (push seg_address s (wordregs s regdx))
  else if opcode s =? 0x53 then Some (push seg_address s (wordregs s regbx))
  else if opcode s =? 0x54 then Some (push seg_address s (wordregs s regsp))
  else if opcode s =? 0x55 then Some (push seg_address s (wordregs s regbp))
  else if opcode s =? 0x56 then Some (push seg_address s (wordregs s regsi))
  else if opcode s =? 0x57 then Some (push seg_address s (wordregs s regdi))
  else if opcode s =? 0x58 then
    let '(v, s) := pop seg_address s in Some (set_wordreg regax v s)
  else if opcode s =? 0x59 then
    let '(v, s) := pop seg_address s in Some (set_wordreg regcx v s)
  else if opcode s =? 0x5A then
    let '(v, s) := pop seg_address s in Some (set_wordreg regdx v s)
  else if opcode s =? 0x5B then
    let '(v, s) := pop seg_address s in Some (set_wordreg regbx v s)
  else if opcode s =? 0x5C then
    let '(v, s) := pop seg_address s in Some (set_wordreg regsp v s)
  else if opcode s =? 0x5D then
    let '(v, s) := pop seg_address s in Some (set_wordreg regbp v s)
  else if opcode s =? 0x5E then
    let '(v, s) := pop seg_address s in Some (set_wordreg regsi v s)
  else if opcode s =? 0x5F then
    let '(v, s) := pop seg_address s in Some (set_wordreg regdi v s)
  else None.

End Callers.

(** ** More of the coprocessor *)

Definition kFpuSwDe : Z := 0x0002.
Definition kFpuSwZe : Z := 0x0004.
Definition kFpuSwOe : Z := 0x0008.
Definition kFpuSwUe : Z := 0x0010.
Definition kFpuSwPe : Z := 0x0020.
Definition kFpuSwEs : Z := 0x0080.
Definition kFpuSwBf : Z := 0x8000.

Definition St0 (s : CPU_t) : double * CPU_t := St s 0.
Definition StRm (s : CPU_t) : double * CPU_t := St s (rm s).

Definition FpuSetSt0 (s : CPU_t) (x : double) : CPU_t := set_FpuSt s 0 x.
Definition FpuSetStRm (s : CPU_t) (x : double) : CPU_t :=
  set_FpuSt s (rm s) x.

(** [OpFxch]: the argument [St0(cpu)] is evaluated before
    [FpuSetStRm] is entered. *)
Definition OpFxch (s : CPU_t) : CPU_t :=
  let '(t, s) := StRm s in
  let '(x, s) := St0 s in
  let s := FpuSetStRm s x in
  FpuSetSt0 s t.

Definition OpFst (s : CPU_t) : CPU_t :=
  let '(x, s) := St0 s in
  FpuSetStRm s x.

Definition OpFdecstp (s : CPU_t) : CPU_t :=
  let sw := FPU.sw (fpu s) in
  set_fpu_sw (Z.lor (Z.land sw (Z.lnot kFpuSwSp))
                    (Z.land (sw - Z.shiftl 1 11) kFpuSwSp)) s.

Definition OpFincstp (s : CPU_t) : CPU_t :=
  let sw := FPU.sw (fpu s) in
  set_fpu_sw (Z.lor (Z.land sw (Z.lnot kFpuSwSp))
                    (Z.land (sw + Z.shiftl 1 11) kFpuSwSp)) s.

Definition OpFnclex (s : CPU_t) : CPU_t :=
  set_fpu_sw
    (Z.land (FPU.sw (fpu s))
       (Z.lnot
          (Z.lor (Z.lor (Z.lor (Z.lor (Z.lor (Z.lor (Z.lor (Z.lor
             kFpuSwIe kFpuSwDe) kFpuSwZe) kFpuSwOe) kFpuSwUe) kFpuSwPe)
             kFpuSwEs) kFpuSwSf) kFpuSwBf))) s.

Definition OpFstswAx (s : CPU_t) : CPU_t :=
  set_wordreg regax (FPU.sw (fpu s)) s.

Definition OpFfree (s : CPU_t) : CPU_t := FpuSetTag s (rm s) kFpuTagEmpty.

(** ** Concrete boards *)

(** The initialisation words a BIOS writes to a controller: ICW1 0x11
    (cascade, ICW4 follows), the vector base, ICW3 and ICW4. *)
Definition program_pic (c : I8259_t) (vector_base icw3 : Z) : I8259_t :=
  i8259_write
    (i8259_write (i8259_write (i8259_write c 0 0x11) 1 vector_base) 1 icw3)
    1 0x01.

(** A master at address 0x20 and a slave at address 0xA0, each the
    other's partner, programmed for the vector bases 0x08 and 0x70. *)
Definition pic_pair : i8259_store :=
  let st := i8259_init (fun _ => zero_i8259) 0x20 0 (Some 0xA0) in
  let st := i8259_init st 0xA0 1 (Some 0x20) in
  let st := upd st 0x20 (program_pic (st 0x20) 0x08 0x04) in
  upd st 0xA0 (program_pic (st 0xA0) 0x70 0x02).

(** The same pair with line 1 of the master requested. *)
Definition keyboard_request : i8259_store :=
  upd pic_pair 0x20 (I8259.set_irr 0x02 (pic_pair 0x20)).

(** The same pair with line 1 of the master masked. *)
Definition keyboard_masked : i8259_store :=
  upd pic_pair 0x20 (i8259_write (pic_pair 0x20) 1 0x02).

(** A board with that pair, a blank processor and the keyboard
    controller as [i8042_init] leaves it, attached to the master. *)
Definition blank_board : Board.t :=
  Board.mk (I8042.mk 0 0 0 0 0 0 (fun _ => 0) 0 0 0 0) pic_pair
    (blank_machine (fun _ => 0)) 0.

Definition kbd_board : Board.t := i8042_init blank_board 0x20 0.

(** The same board with the keyboard interrupt disabled in the command
    byte (0x60 written to port 0x64, then 0x44 to port 0x60). *)
Definition polled_board : Board.t :=
  Board.set_kbc (I8042.set_command_byte 0x44 (Board.kbc kbd_board))
    kbd_board.

(** ** Concrete machines for the descriptor-table registers *)

(** Protected-mode tables in memory: at selector 0x08 of the global
    table the descriptor of a task state segment at 0x2000 (limit 0x2B,
    access 0x81), at selector 0x10 the descriptor of a local table at
    0x3000 (limit 0x17, access 0x82); in the task state segment SP0 is
    0x1234 and SS0 is 0x0010. *)
Definition tables_machine : CPU_t :=
  blank_machine
    (place [(0x08, [0x2B; 0x00; 0x00; 0x20; 0x00; 0x81; 0x00; 0x00]);
            (0x10, [0x17; 0x00; 0x00; 0x30; 0x00; 0x82; 0x00; 0x00]);
            (0x2002, [0x34; 0x12; 0x10; 0x00])]).

(** A machine with interrupts enabled, halted. *)
Definition halted_machine : CPU_t :=
  set_hltstate 1 (set_ifl 1 int21_machine).

(** ** A coprocessor with two registers in use *)

Definition fpu_two_machine : CPU_t :=
  set_rm 1 (FpuPush (FpuPush (blank_machine (fun _ => 0)) double_one)
              neg_nan).

(** ** XLAT *)

(** The case 0xD7 of the opcode switch.  The table byte is read with
    [cpu_read] at the sum the case forms itself, not at an address
    formed by [getea] or by the memory macros.  [None] for any other
    opcode. *)
Definition exec_xlat (s : CPU_t) : option CPU_t :=
  if opcode s =? 0xD7 then
    Some (set_bytereg regal
            (cpu_read s
               (useseg s * 16 + wordregs s regbx + byteregs s regal)) s)
  else None.

(** A real-mode machine with the A20 line disabled about to execute
    XLAT with DS = 0xFFFF, BX = 0x0010 and AL = 0; the byte at physical
    0 is 0x11 and the byte at physical 0x100000 is 0x22. *)
Definition xlat_machine : CPU_t :=
  let s := blank_machine (place [(0, [0x11]); (0x100000, [0x22])]) in
  let s := set_segreg regds 0xFFFF s in
  let s := set_useseg 0xFFFF s in
  let s := set_wordreg regbx 0x0010 s in
  set_opcode 0xD7 s.

(** * Properties *)

(** ** Arithmetic on machine words *)

Ltac zlia := Z.div_mod_to_equations; lia.

Lemma u8_range (x : Z) : 0 <= u8 x < 0x100.
Proof. unfold u8. zlia. Qed.

Lemma u16_range (x : Z) : 0 <= u16 x < 0x10000.
Proof. unfold u16. zlia. Qed.

Lemma u32_range (x : Z) : 0 <= u32 x < 0x100000000.
Proof. unfold u32. zlia. Qed.

Lemma u8_small (x : Z) : 0 <= x < 0x100 -> u8 x = x.
Proof. unfold u8. intros. now apply Z.mod_small. Qed.

Lemma u16_small (x : Z) : 0 <= x < 0x10000 -> u16 x = x.
Proof. unfold u16. intros. now apply Z.mod_small. Qed.

Lemma u32_small (x : Z) : 0 <= x < 0x100000000 -> u32 x = x.
Proof. unfold u32. intros. now apply Z.mod_small. Qed.

Lemma all_from_spec (n : nat) (p : Z -> bool) :
  forall z, all_from n z p = true ->
  forall x, z <= x < z + Z.of_nat n -> p x = true.
Proof.
  induction n as [|k IH]; intros z H x Hx; [lia|].
  simpl in H. apply andb_prop in H. destruct H as [Hz Hrest].
  destruct (Z.eq_dec x z) as [->|Hne]; [assumption|].
  apply (IH (z + 1)); [assumption|lia].
Qed.

Lemma all_below_spec (n : nat) (p : Z -> bool) :
  all_below n p = true ->
  forall x, 0 <= x < Z.of_nat n -> p x = true.
Proof.
  intros H x Hx. apply (all_from_spec n p 0); [exact H|lia].
Qed.

(** ** Symbolic evaluation of states *)

(** Reads of a field through a chain of assignments, without touching
    the arithmetic. *)
Ltac fields :=
  cbn [
    wordregs segregs segcache ip cf pf af zf sf tf ifl df of_ trap_toggle
    hltstate msw protected_mode handling_fault gdtr idtr ldtr tr ldtr_cache
    tr_cache int_callback reptype segoverride useseg opcode savecs saveip
    addrbyte mode reg rm disp16 ea oper1 oper2 res16 oper1b oper2b res8
    totalexec fpu mem a20_enabled
    set_wordregs set_segregs set_segcache set_ip set_cf set_pf set_af
    set_zf set_sf set_tf set_ifl set_df set_of_ set_trap_toggle
    set_hltstate set_msw set_protected_mode set_handling_fault set_gdtr
    set_idtr set_ldtr set_tr set_ldtr_cache set_tr_cache set_int_callback
    set_reptype set_segoverride set_useseg set_opcode set_savecs set_saveip
    set_addrbyte set_mode set_reg set_rm set_disp16 set_ea set_oper1
    set_oper2 set_res16 set_oper1b set_oper2b set_res8 set_totalexec
    set_fpu set_mem set_a20_enabled
    base limit access valid sp0 ss0 set_valid set_base set_limit set_access
    DT.base DT.limit FPU.st FPU.cw FPU.sw FPU.tw FPU.set_st FPU.set_cw
    FPU.set_sw FPU.set_tw fst snd bind].

(** The bits of a 16-bit value above its low byte, and of a 32-bit value
    above its low word. *)
Lemma land_high_byte (x : Z) :
  0 <= x < 0x10000 -> Z.land x 0xFF00 = (x / 0x100) * 0x100.
Proof.
  intros Hx. change 0xFF00 with (Z.ldiff (Z.ones 16) (Z.ones 8)).
  rewrite Z.ldiff_land, Z.land_assoc, Z.land_ones by lia.
  rewrite Z.mod_small by (change (2 ^ 16) with 0x10000; lia).
  rewrite <- Z.ldiff_land, Z.ldiff_ones_r by lia.
  rewrite Z.shiftl_mul_pow2, Z.shiftr_div_pow2 by lia. reflexivity.
Qed.

Lemma land_high_word (x : Z) :
  0 <= x < 0x100000000 -> Z.land x 0xFFFF0000 = (x / 0x10000) * 0x10000.
Proof.
  intros Hx. change 0xFFFF0000 with (Z.ldiff (Z.ones 32) (Z.ones 16)).
  rewrite Z.ldiff_land, Z.land_assoc, Z.land_ones by lia.
  rewrite Z.mod_small by (change (2 ^ 32) with 0x100000000; lia).
  rewrite <- Z.ldiff_land, Z.ldiff_ones_r by lia.
  rewrite Z.shiftl_mul_pow2, Z.shiftr_div_pow2 by lia. reflexivity.
Qed.

Lemma nz_true (x : Z) : nz x = true <-> x <> 0.
Proof.
  unfold nz. destruct (Z.eqb_spec x 0); simpl; split; congruence.
Qed.

Lemma nz_false (x : Z) : nz x = false <-> x = 0.
Proof.
  unfold nz. destruct (Z.eqb_spec x 0); simpl; split; congruence.
Qed.

(** ** The flag engine: the carry flag of subtraction *)

(** The carry flag each routine leaves, as a function of its operands. *)
Lemma cf_flag_sub8 (s : CPU_t) (v1 v2 : Z) :
  cf (flag_sub8 s v1 v2) =
  if nz (Z.land (u16 (u8 v1 - u8 v2)) 0xFF00) then 1 else 0.
Proof.
  unfold flag_sub8.
  repeat match goal with
         | |- context [if ?b then _ else _] => destruct b
         end; reflexivity.
Qed.

Lemma cf_flag_sbb8 (s : CPU_t) (v1 v2 v3 : Z) :
  cf (flag_sbb8 s v1 v2 v3) =
  if nz (Z.land (u16 (u8 v1 - u8 (u8 v2 + u8 v3))) 0xFF00) then 1 else 0.
Proof.
  unfold flag_sbb8.
  repeat match goal with
         | |- context [if ?b then _ else _] => destruct b
         end; reflexivity.
Qed.

Lemma cf_flag_sub16 (s : CPU_t) (v1 v2 : Z) :
  cf (flag_sub16 s v1 v2) =
  if nz (Z.land (u32 (u16 v1 - u16 v2)) 0xFFFF0000) then 1 else 0.
Proof.
  unfold flag_sub16.
  repeat match goal with
         | |- context [if ?b then _ else _] => destruct b
         end; reflexivity.
Qed.

Lemma cf_flag_sbb16 (s : CPU_t) (v1 v2 v3 : Z) :
  cf (flag_sbb16 s v1 v2 v3) =
  if nz (Z.land (u32 (u16 v1 - u16 (u16 v2 + u16 v3))) 0xFFFF0000)
  then 1 else 0.
Proof.
  unfold flag_sbb16.
  repeat match goal with
         | |- context [if ?b then _ else _] => destruct b
         end; reflexivity.
Qed.

(** A 16-bit difference of two bytes has a bit above the low byte exactly
    when the subtraction borrows; likewise for words in 32 bits. *)
Lemma borrow8 (a b : Z) :
  0 <= a < 0x100 -> 0 <= b < 0x100 ->
  (if nz (Z.land (u16 (a - b)) 0xFF00) then 1 else 0) = 1 <-> a < b.
Proof.
  intros Ha Hb. rewrite land_high_byte by apply u16_range.
  unfold u16. destruct (nz _) eqn:E.
  - apply nz_true in E. split; [intros _|reflexivity]. zlia.
  - apply nz_false in E. split; [discriminate|]. zlia.
Qed.

Lemma borrow16 (a b : Z) :
  0 <= a < 0x10000 -> 0 <= b < 0x10000 ->
  (if nz (Z.land (u32 (a - b)) 0xFFFF0000) then 1 else 0) = 1 <-> a < b.
Proof.
  intros Ha Hb. rewrite land_high_word by apply u32_range.
  unfold u32. destruct (nz _) eqn:E.
  - apply nz_true in E. split; [intros _|reflexivity]. zlia.
  - apply nz_false in E. split; [discriminate|]. zlia.
Qed.

(** SUB: the carry flag is the borrow, at both widths. *)
Lemma flag_sub8_borrow (s : CPU_t) (a b : Z) :
  0 <= a < 0x100 -> 0 <= b < 0x100 ->
  cf (flag_sub8 s a b) = 1 <-> a < b.
Proof.
  intros Ha Hb. rewrite cf_flag_sub8, (u8_small a), (u8_small b) by lia.
  now apply borrow8.
Qed.

Lemma flag_sub16_borrow (s : CPU_t) (a b : Z) :
  0 <= a < 0x10000 -> 0 <= b < 0x10000 ->
  cf (flag_sub16 s a b) = 1 <-> a < b.
Proof.
  intros Ha Hb. rewrite cf_flag_sub16, (u16_small a), (u16_small b) by lia.
  now apply borrow16.
Qed.

(** SBB: the source operand and the incoming carry are added in the
    operand's own width first, so the carry flag is the borrow against
    the wrapped sum. *)
Lemma flag_sbb8_borrow (s : CPU_t) (a b c : Z) :
  0 <= a < 0x100 -> 0 <= b < 0x100 -> 0 <= c <= 1 ->
  cf (flag_sbb8 s a b c) = 1 <-> a < (b + c) mod 0x100.
Proof.
  intros Ha Hb Hc.
  rewrite cf_flag_sbb8, (u8_small a), (u8_small b), (u8_small c) by lia.
  apply borrow8; [assumption|apply u8_range].
Qed.

Lemma flag_sbb16_borrow (s : CPU_t) (a b c : Z) :
  0 <= a < 0x10000 -> 0 <= b < 0x10000 -> 0 <= c <= 1 ->
  cf (flag_sbb16 s a b c) = 1 <-> a < (b + c) mod 0x10000.
Proof.
  intros Ha Hb Hc.
  rewrite cf_flag_sbb16, (u16_small a), (u16_small b), (u16_small c) by lia.
  apply borrow16; [assumption|apply u16_range].
Qed.

(** Away from the wrap (the sum of source and carry fits the width) the
    carry flag of SBB is the borrow out above the width. *)
Lemma flag_sbb8_borrow_no_wrap (s : CPU_t) (a b c : Z) :
  0 <= a < 0x100 -> 0 <= b < 0x100 -> 0 <= c <= 1 -> b + c < 0x100 ->
  cf (flag_sbb8 s a b c) = 1 <-> a < b + c.
Proof.
  intros Ha Hb Hc Hw. rewrite flag_sbb8_borrow by assumption.
  rewrite Z.mod_small by lia. reflexivity.
Qed.

Lemma flag_sbb16_borrow_no_wrap (s : CPU_t) (a b c : Z) :
  0 <= a < 0x10000 -> 0 <= b < 0x10000 -> 0 <= c <= 1 -> b + c < 0x10000 ->
  cf (flag_sbb16 s a b c) = 1 <-> a < b + c.
Proof.
  intros Ha Hb Hc Hw. rewrite flag_sbb16_borrow by assumption.
  rewrite Z.mod_small by lia. reflexivity.
Qed.

(** C6.  SBB with source operand 0xFF and incoming carry 1: the sum wraps
    to 0 in [uint8_t], so [op_sbb8] leaves the carry flag clear for every
    destination operand, although the subtraction borrows (a < 0x100);
    the result byte is the destination operand itself. *)
Theorem op_sbb8_ff_carry_lost (s : CPU_t) :
  0 <= oper1b s < 0x100 -> oper2b s = 0xFF -> cf s = 1 ->
  cf (op_sbb8 s) = 0 /\ res8 (op_sbb8 s) = oper1b s /\
  oper1b s < oper2b s + cf s.
Proof.
  intros Ha Hb Hc. unfold op_sbb8. rewrite Hb, Hc.
  split; [|split; [|lia]].
  - rewrite cf_flag_sbb8. change (u8 (u8 0xFF + u8 1)) with 0.
    rewrite Z.sub_0_r. pose proof (u8_range (oper1b s)) as Hr.
    rewrite u16_small, land_high_byte by lia.
    replace (u8 (oper1b s) / 0x100) with 0 by zlia. reflexivity.
  - unfold flag_sbb8, flag_szp8.
    repeat match goal with
           | |- context [if ?b then _ else _] => destruct b
           end; cbn; unfold u8; zlia.
Qed.

(** The 16-bit form loses the borrow in the same way: with source operand
    0xFFFF and incoming carry 1 the sum wraps to 0 in [uint16_t]. *)
Lemma op_sbb16_ffff_carry_lost (s : CPU_t) :
  0 <= oper1 s < 0x10000 -> oper2 s = 0xFFFF -> cf s = 1 ->
  cf (op_sbb16 s) = 0 /\ oper1 s < oper2 s + cf s.
Proof.
  intros Ha Hb Hc. unfold op_sbb16. rewrite Hb, Hc. split; [|lia].
  rewrite cf_flag_sbb16. change (u16 (u16 0xFFFF + u16 1)) with 0.
  rewrite Z.sub_0_r. pose proof (u16_range (oper1 s)) as Hr.
  rewrite u32_small, land_high_word by lia.
  replace (u16 (oper1 s) / 0x10000) with 0 by zlia. reflexivity.
Qed.

(** ** The coprocessor's register stack *)

Lemma sw_all : all_below 65536 sw_check = true.
Proof. vm_compute. reflexivity. Qed.

Lemma tag_mask_full (tw i : Z) :
  0 <= i ->
  Z.shiftr (Z.land tw (Z.shiftl 3 i)) i = 3 ->
  Z.land tw (Z.shiftl 3 i) = Z.shiftl 3 i.
Proof.
  intros Hi H. rewrite <- H at 2.
  apply Z.bits_inj'. intros k Hk.
  rewrite Z.shiftl_spec by assumption.
  destruct (Z.ltb_spec k i) as [Hlt|Hge].
  - rewrite Z.land_spec, Z.shiftl_spec by assumption.
    rewrite (Z.testbit_neg_r 3), (Z.testbit_neg_r (Z.shiftr _ _)) by lia.
    apply andb_false_r.
  - rewrite Z.shiftr_spec by lia. replace (k - i + i) with k by lia.
    reflexivity.
Qed.

Lemma mask_clear_then_set (tw m : Z) :
  Z.land tw m = m -> Z.lor (Z.land tw (Z.lnot m)) m = tw.
Proof.
  intros H. apply Z.bits_inj'. intros k Hk.
  rewrite Z.lor_spec, Z.land_spec, Z.lnot_spec by assumption.
  assert (Hb : Z.testbit (Z.land tw m) k = Z.testbit m k) by now rewrite H.
  rewrite Z.land_spec in Hb.
  destruct (Z.testbit tw k), (Z.testbit m k); simpl in *; congruence.
Qed.

Lemma mask_clear_reads_zero (tw m : Z) :
  Z.land (Z.land tw (Z.lnot m)) m = 0.
Proof.
  apply Z.bits_inj'. intros k Hk.
  rewrite !Z.land_spec, Z.lnot_spec, Z.bits_0 by assumption.
  destruct (Z.testbit tw k), (Z.testbit m k); reflexivity.
Qed.

Lemma u16_land_l (tw y : Z) :
  0 <= tw < 0x10000 -> u16 (Z.land tw y) = Z.land tw y.
Proof.
  intros Ht. unfold u16. change 0x10000 with (2 ^ 16).
  rewrite <- Z.land_ones by lia.
  rewrite <- Z.land_assoc, (Z.land_comm y), Z.land_assoc.
  rewrite Z.land_ones, Z.mod_small by (change (2 ^ 16) with 0x10000; lia).
  reflexivity.
Qed.

Lemma slot_below_top (t : Z) :
  0 <= t < 8 -> Z.land (u32 (u32 (-1) + t)) 7 = (t - 1) mod 8.
Proof.
  intros Ht.
  assert (H : all_below 8 (fun t =>
            Z.land (u32 (u32 (-1) + t)) 7 =? (t - 1) mod 8) = true)
    by reflexivity.
  apply Z.eqb_eq. exact (all_below_spec 8 _ H t Ht).
Qed.

Lemma slot_at_top (t : Z) :
  0 <= t < 8 -> Z.land (u32 (u32 0 + t)) 7 = t /\ Z.land (0 + t) 7 = t.
Proof.
  intros Ht.
  assert (H : all_below 8 (fun t =>
            (Z.land (u32 (u32 0 + t)) 7 =? t) && (Z.land (0 + t) 7 =? t))
            = true) by reflexivity.
  pose proof (all_below_spec 8 _ H t Ht) as E. cbv beta in E.
  apply andb_prop in E. destruct E as [E1 E2].
  split; now apply Z.eqb_eq.
Qed.

Lemma sw_facts (sw : Z) :
  0 <= sw < 0x10000 ->
  0 <= top_of sw < 8 /\
  top_of (sw_dec sw) = (top_of sw - 1) mod 8 /\
  top_of (sw_inc sw) = (top_of sw + 1) mod 8 /\
  sw_inc (sw_dec sw) = sw /\
  Z.land (sw_dec sw) (Z.lnot kFpuSwSp) = Z.land sw (Z.lnot kFpuSwSp) /\
  Z.land (sw_inc sw) (Z.lnot kFpuSwSp) = Z.land sw (Z.lnot kFpuSwSp).
Proof.
  intros Hsw. pose proof (all_below_spec 65536 _ sw_all sw Hsw) as E.
  unfold sw_check in E.
  repeat (apply andb_prop in E; destruct E as [E ?]).
  repeat match goal with
         | H : (_ =? _) = true |- _ => apply Z.eqb_eq in H
         | H : (_ <=? _) = true |- _ => apply Z.leb_le in H
         | H : (_ <? _) = true |- _ => apply Z.ltb_lt in H
         end.
  repeat split; assumption.
Qed.

(** C8.  On a slot below the top that is empty, [FpuPush x] followed by
    [FpuPop] returns the bit pattern [x] (finite or not), and restores
    the tag word and the whole status word, so the top-of-stack field is
    back and neither stack fault nor invalid operation is set.  The push
    leaves every status bit outside the top field alone, moves the top
    to [(top - 1) mod 8] and stores [x] there with tag valid; the pop
    marks that slot empty again and moves the top up by one, mod 8. *)
Theorem fpu_push_pop_roundtrip (s : CPU_t) (x : double) :
  0 <= FPU.sw (fpu s) < 0x10000 -> 0 <= FPU.tw (fpu s) < 0x10000 ->
  FpuGetTag s (-1) = kFpuTagEmpty ->
  let s1 := FpuPush s x in
  let s2 := snd (FpuPop s1) in
  let slot := (fpu_top s - 1) mod 8 in
  fst (FpuPop s1) = x /\
  FPU.tw (fpu s2) = FPU.tw (fpu s) /\
  FPU.sw (fpu s2) = FPU.sw (fpu s) /\
  fpu_top s1 = slot /\
  FPU.st (fpu s1) slot = x /\
  FpuGetTag s1 0 = kFpuTagValid /\
  Z.land (FPU.sw (fpu s1)) (Z.lnot kFpuSwSp)
  = Z.land (FPU.sw (fpu s)) (Z.lnot kFpuSwSp) /\
  fpu_top s2 = (fpu_top s1 + 1) mod 8 /\
  FpuGetTag s2 (-1) = kFpuTagEmpty.
Proof.
  intros Hsw Htw Hempty.
  destruct (sw_facts _ Hsw) as (Htop & Hdec & Hinc & Hround & Hkeep & _).
  assert (Hj : 0 <= (top_of (FPU.sw (fpu s)) - 1) mod 8 < 8) by zlia.
  pose proof Hempty as Hmask.
  unfold FpuGetTag, fpu_top in Hmask. fold (top_of (FPU.sw (fpu s))) in Hmask.
  rewrite slot_below_top in Hmask by assumption.
  apply tag_mask_full in Hmask; [|lia].
  set (j := (top_of (FPU.sw (fpu s)) - 1) mod 8) in *.
  (* the state after the push *)
  assert (Hpush :
    FPU.sw (fpu (FpuPush s x)) = sw_dec (FPU.sw (fpu s)) /\
    FPU.tw (fpu (FpuPush s x)) =
      Z.land (FPU.tw (fpu s)) (Z.lnot (Z.shiftl 3 (j * 2))) /\
    FPU.st (fpu (FpuPush s x)) = upd (FPU.st (fpu s)) j x).
  { unfold FpuPush. rewrite Hempty. change (negb (_ =? _)) with false.
    cbv iota.
    unfold FpuSetTag, set_FpuSt, set_fpu_sw, set_fpu_tw, FpuSt, fpu_top.
    fields. fold (sw_dec (FPU.sw (fpu s))).
    fold (top_of (sw_dec (FPU.sw (fpu s)))). rewrite Hdec. fold j.
    destruct (slot_at_top j Hj) as [-> ->].
    split; [reflexivity|]. split; [|reflexivity].
    change (Z.shiftl (Z.land (u32 kFpuTagValid) 3) (j * 2)) with
      (Z.shiftl 0 (j * 2)).
    rewrite Z.shiftl_0_l, Z.lor_0_r.
    rewrite !u16_land_l; try assumption. reflexivity. }
  destruct Hpush as (Hsw1 & Htw1 & Hst1).
  assert (Htag1 : FpuGetTag (FpuPush s x) 0 = kFpuTagValid).
  { unfold FpuGetTag, fpu_top. rewrite Hsw1, Htw1.
    fold (top_of (sw_dec (FPU.sw (fpu s)))). rewrite Hdec.
    destruct (slot_at_top j Hj) as [-> _].
    rewrite mask_clear_reads_zero. apply Z.shiftr_0_l. }
  assert (Htop1 : fpu_top (FpuPush s x) = j).
  { unfold fpu_top. rewrite Hsw1. exact Hdec. }
  (* the state after the pop *)
  assert (Hpop :
    fst (FpuPop (FpuPush s x)) = x /\
    FPU.sw (fpu (snd (FpuPop (FpuPush s x)))) = FPU.sw (fpu s) /\
    FPU.tw (fpu (snd (FpuPop (FpuPush s x)))) = FPU.tw (fpu s)).
  { unfold FpuPop. rewrite Htag1. change (negb (_ =? _)) with true.
    cbv iota beta.
    unfold FpuSetTag, set_fpu_sw, set_fpu_tw, FpuSt. rewrite Htop1.
    fields. rewrite Hsw1, Htw1, Hst1.
    fold (sw_inc (sw_dec (FPU.sw (fpu s)))). rewrite Hround.
    destruct (slot_at_top j Hj) as [-> ->].
    split; [unfold upd; now rewrite Z.eqb_refl|]. split; [reflexivity|].
    change (Z.shiftl (Z.land (u32 kFpuTagEmpty) 3) (j * 2)) with
      (Z.shiftl 3 (j * 2)).
    rewrite <- Z.land_assoc, Z.land_diag.
    rewrite (u16_land_l (FPU.tw (fpu s))) by assumption.
    rewrite mask_clear_then_set by assumption.
    now apply u16_small. }
  destruct Hpop as (Hx & Hsw2 & Htw2).
  cbv zeta. repeat split.
  - exact Hx.
  - exact Htw2.
  - exact Hsw2.
  - exact Htop1.
  - rewrite Hst1. unfold upd, fpu_top. fold (top_of (FPU.sw (fpu s))).
    fold j. now rewrite Z.eqb_refl.
  - exact Htag1.
  - rewrite Hsw1. exact Hkeep.
  - rewrite Htop1. unfold fpu_top. rewrite Hsw2.
    fold (top_of (FPU.sw (fpu s))). subst j. zlia.
  - unfold FpuGetTag, fpu_top. rewrite Htw2, Hsw2. exact Hempty.
Qed.

(** ** ADD AX,BX *)

(** The 16-bit addition 0x7FFF + 0x0001: the result and the six flags.
    The low byte of the result is 0x00, whose parity is even. *)
Lemma op_add16_7fff_0001 (s : CPU_t) :
  oper1 s = 0x7FFF -> oper2 s = 0x0001 ->
  op_add16 s =
  set_af 1 (set_of_ 1 (set_cf 0 (set_pf 1 (set_sf 1 (set_zf 0
    (set_res16 0x8000 s)))))).
Proof.
  intros H1 H2. unfold op_add16. rewrite H1, H2. reflexivity.
Qed.

Section Instructions.

Variable run_callback : callback -> CPU_t -> Z -> CPU_t.
Variable flags_word : Z -> Z -> Z -> Z -> Z -> Z -> Z -> Z -> Z -> Z.
Variable seg_address :
  Z -> Z -> (Z -> Z) -> (Z -> DESCRIPTOR_CACHE) -> Z -> Z -> Z.

(** C5, as the code has it.  ADD AX,BX is opcode 0x01 with ModR/M byte
    0xD8.  With AX = 0x7FFF and BX = 0x0001 it leaves AX = 0x8000, ZF = 0,
    SF = 1, OF = 1, CF = 0, AF = 1 and PF = 1. *)
Theorem add_ax_bx_flags (fuel : nat) (firstip : Z) (s : CPU_t) :
  opcode s = 0x01 ->
  getmem8 seg_address s (segregs s regcs) (ip s) = 0xD8 ->
  wordregs s regax = 0x7FFF -> wordregs s regbx = 0x0001 ->
  exists s',
    exec_opcode run_callback flags_word seg_address fuel firstip s
    = Some (s', 0) /\
    wordregs s' regax = 0x8000 /\ zf s' = 0 /\ sf s' = 1 /\ of_ s' = 1 /\
    cf s' = 0 /\ af s' = 1 /\ pf s' = 1.
Proof.
  intros Hop Hmodrm Hax Hbx.
  unfold exec_opcode. rewrite Hop. cbn [Z.eqb Pos.eqb].
  unfold modregrm, StepIP. fields. rewrite Hmodrm.
  change (Z.shiftr 0xD8 6 =? 0) with false.
  change (Z.shiftr 0xD8 6 =? 1) with false.
  change (Z.shiftr 0xD8 6 =? 2) with false. cbv iota.
  unfold readrm16. fields.
  change (Z.shiftr 0xD8 6 <? 3) with false. cbv iota. fields.
  unfold getreg16. fields.
  change (Z.land (Z.shiftr 0xD8 3) 7) with regbx.
  change (u8 (Z.land 0xD8 7)) with regax. rewrite Hax, Hbx.
  rewrite op_add16_7fff_0001 by reflexivity.
  unfold writerm16. fields.
  change (Z.shiftr 0xD8 6 <? 3) with false. cbv iota.
  eexists. split; [reflexivity|].
  unfold putreg16, set_wordreg. fields. repeat split; reflexivity.
Qed.

End Instructions.

(** C5, as the specification has it, fails: one iteration of [cpu_exec]
    on the machine [add_ax_bx_machine] executes ADD AX,BX and leaves
    PF = 1, not 0; the other five flags and AX are as stated. *)
Lemma add_ax_bx_parity_flag_is_set :
  exists s',
    cpu_exec_iteration no_callback flagsword spec_address 1
      add_ax_bx_machine = Some (s', 0) /\
    wordregs s' regax = 0x8000 /\ zf s' = 0 /\ sf s' = 1 /\ of_ s' = 1 /\
    cf s' = 0 /\ af s' = 1 /\ pf s' = 1 /\ pf s' <> 0.
Proof.
  eexists. split; [vm_compute; reflexivity|].
  vm_compute. repeat split; discriminate.
Qed.

(** ** Real-mode address formation: arithmetic *)

Lemma land_ffff_range (x : Z) : 0 <= Z.land x 0xFFFF < 0x10000.
Proof.
  change 0xFFFF with (Z.ones 16). rewrite Z.land_ones by lia.
  change (2 ^ 16) with 0x10000. zlia.
Qed.

Lemma land_fffff_mod (x : Z) : Z.land x 0x000FFFFF = x mod 2 ^ 20.
Proof. change 0x000FFFFF with (Z.ones 20). apply Z.land_ones. lia. Qed.

(** ** Real-mode address formation *)

(** The two functions that read the A20 line.  In real mode
    [get_real_address] and [getea] form [(seg << 4) + off] when the A20
    line is enabled and that value mod 2^20 when it is disabled; with
    A20 disabled FFFF:0010 is physical 0, not 0x100000. *)
Theorem real_mode_address_formation
  (intcall : CPU_t -> Z -> option CPU_t) (s : CPU_t) (seg off rmval : Z) :
  protected_mode s = 0 ->
  0 <= seg < 0x10000 -> 0 <= off < 0x10000 -> 0 <= useseg s < 0x10000 ->
  get_real_address intcall s seg off =
    Some (if a20_enabled s =? 0 then (Z.shiftl seg 4 + off) mod 2 ^ 20
          else Z.shiftl seg 4 + off, s) /\
  ea (getea s rmval) =
    (if a20_enabled s =? 0
     then (Z.shiftl (useseg s) 4 + getea_offset s rmval) mod 2 ^ 20
     else Z.shiftl (useseg s) 4 + getea_offset s rmval) /\
  (a20_enabled s = 0 ->
   get_real_address intcall s 0xFFFF 0x10 = Some (0, s) /\
   Z.shiftl 0xFFFF 4 + 0x10 = 0x100000).
Proof.
  intros Hpm Hseg Hoff Huse.
  assert (Hsh : forall x, Z.shiftl x 4 = x * 16)
    by (intros; now rewrite Z.shiftl_mul_pow2 by lia).
  repeat split.
  - unfold get_real_address. rewrite Hpm. cbn [nz Z.eqb negb].
    rewrite (u16_small seg), (u16_small off) by assumption.
    rewrite u32_small by (rewrite Hsh; lia).
    unfold nz. destruct (a20_enabled s =? 0); cbn [negb].
    + now rewrite land_fffff_mod.
    + reflexivity.
  - unfold getea. rewrite Hpm. cbn [nz Z.eqb negb]. 
    pose proof (land_ffff_range (getea_offset s rmval)) as Hr.
    assert (Ho : 0 <= getea_offset s rmval < 0x10000).
    { unfold getea_offset. apply land_ffff_range. }
    rewrite u32_small by (rewrite Hsh; lia).
    unfold nz. destruct (a20_enabled s =? 0); cbn [negb]; fields.
    + now rewrite land_fffff_mod.
    + reflexivity.
  - unfold get_real_address. rewrite Hpm, H. reflexivity.
Qed.

(** ** The interrupt dispatcher and the instructions *)

Section Dispatcher.

Variable run_callback : callback -> CPU_t -> Z -> CPU_t.
Variable flags_word : Z -> Z -> Z -> Z -> Z -> Z -> Z -> Z -> Z -> Z.
Variable seg_address :
  Z -> Z -> (Z -> Z) -> (Z -> DESCRIPTOR_CACHE) -> Z -> Z -> Z.

Abbreviation intcall := (cpu_intcall run_callback flags_word seg_address).


(** What a registered callback sees: for a fault vector the latch is set
    when the callback runs, and it is cleared when the callback is done. *)
Lemma callback_runs_with_latch (fuel : nat) (s : CPU_t) (v : Z)
  (cb : callback) :
  handling_fault s = 0 -> 0 <= v < 0x100 -> v <> 0x15 ->
  int_callback s v = Some cb ->
  intcall (S fuel) s v =
  Some (set_handling_fault 0
          (run_callback cb
             (if is_fault_vector v then set_handling_fault 1 s else s) v)).
Proof.
  intros Hlatch Hv Hne Hcb. cbn [cpu_intcall]. unfold cpu_intcall_body.
  rewrite Hlatch, (u8_small v) by assumption. cbn [nz Z.eqb negb].
  destruct (Z.eqb_spec v 0x15) as [E|_]; [contradiction|]. cbn [andb].
  assert (E : int_callback
                (if is_fault_vector v then set_handling_fault 1 s else s) v
              = Some cb) by (destruct (is_fault_vector v); exact Hcb).
  rewrite E. reflexivity.
Qed.

(** With the latch set, vector 8 resets the machine at once. *)
Lemma latched_double_fault_resets (fuel : nat) (s : CPU_t) :
  handling_fault s <> 0 -> intcall (S fuel) s 8 = Some (cpu_reset s).
Proof.
  intros H. apply nz_true in H. cbn [cpu_intcall].
  unfold cpu_intcall_body. rewrite H. reflexivity.
Qed.

(** With the latch set, any other vector is handed to [cpu_intcall]
    again as vector 8, on the same machine state: the latch is not
    cleared in between. *)
Lemma latched_fault_reenters_as_8 (fuel : nat) (s : CPU_t) (v : Z) :
  handling_fault s <> 0 -> u8 v <> 8 ->
  intcall (S fuel) s v = intcall fuel s 8.
Proof.
  intros H Hv. apply nz_true in H. cbn [cpu_intcall].
  unfold cpu_intcall_body. rewrite H.
  destruct (Z.eqb_spec (u8 v) 8); [contradiction|reflexivity].
Qed.

(** C1.  With the fault-in-flight latch set, [cpu_intcall] resets the
    machine for every vector: for vector 8 at once, and for any other
    vector through its call of itself with vector 8, which finds the
    latch still set.  A fault raised while a fault is being delivered is
    therefore never delivered as a double fault. *)
Theorem fault_in_flight_always_resets (fuel : nat) (s : CPU_t) (v : Z) :
  handling_fault s <> 0 ->
  intcall (S (S fuel)) s v = Some (cpu_reset s).
Proof.
  intros H. apply nz_true in H.
  cbn [cpu_intcall]. unfold cpu_intcall_body at 1. rewrite H.
  destruct (u8 v =? 8); [reflexivity|].
  unfold cpu_intcall_body. rewrite H. reflexivity.
Qed.


(** Marking a fault in flight is an assignment to [handling_fault]. *)
Lemma mark_fault (s : CPU_t) (v : Z) :
  (if is_fault_vector v then set_handling_fault 1 s else s) =
  set_handling_fault (if is_fault_vector v then 1 else handling_fault s) s.
Proof. destruct (is_fault_vector v); [reflexivity|]. now destruct s. Qed.

(** [push] as two assignments: the stack pointer, then the word at the
    address the memory macro forms for SS and the new SP. *)
Lemma push_eq (s : CPU_t) (pushval : Z) :
  push seg_address s pushval =
  set_mem
    (mem (cpu_writew s
            (seg_address (protected_mode s) (a20_enabled s) (segregs s)
               (segcache s) (u16 (segregs s regss))
               (u16 (u16 (wordregs s regsp - 2))))
            pushval))
    (set_wordregs (upd (wordregs s) regsp (u16 (wordregs s regsp - 2))) s).
Proof.
  unfold push, putmem16, mem_address, set_wordreg, cpu_writew, cpu_write.
  fields. unfold upd at 3. rewrite Z.eqb_refl. reflexivity.
Qed.

Lemma mem_cpu_writew (s : CPU_t) (addr32 value : Z) :
  mem (cpu_writew s addr32 value) = mem_writew (mem s) addr32 value.
Proof. reflexivity. Qed.

Lemma cpu_readw_mem (s : CPU_t) (addr32 : Z) :
  cpu_readw s addr32 = mem_readw (mem s) addr32.
Proof. reflexivity. Qed.

Lemma upd_same {A : Type} (a : Z -> A) (k : Z) (x : A) : upd a k x k = x.
Proof. unfold upd. now rewrite Z.eqb_refl. Qed.

Lemma upd_other {A : Type} (a : Z -> A) (k i : Z) (x : A) :
  i <> k -> upd a k x i = a i.
Proof. intros H. unfold upd. destruct (Z.eqb_spec i k); congruence. Qed.

Lemma u16_idem (x : Z) : u16 (u16 x) = u16 x.
Proof. unfold u16. apply Z.mod_mod. lia. Qed.

Lemma mem_writew_u16 (m : Z -> Z) (a x : Z) :
  mem_writew m a (u16 x) = mem_writew m a x.
Proof. unfold mem_writew. now rewrite u16_idem. Qed.

Lemma u16_mem_readw (m : Z -> Z) (a : Z) :
  u16 (mem_readw m a) = mem_readw m a.
Proof. unfold mem_readw. apply u16_idem. Qed.

Lemma u16_sub_sub (x a b : Z) : u16 (u16 (x - a) - b) = u16 (x - (a + b)).
Proof. unfold u16. zlia. Qed.

(** The real-mode entry in closed form: three words pushed, TF and IF
    cleared, CS and IP loaded from the vector, the latch cleared. *)
Lemma intcall_real_eq (s : CPU_t) (v : Z) :
  intcall_real flags_word seg_address s v =
  let sp1 := u16 (wordregs s regsp - 2) in
  let sp2 := u16 (sp1 - 2) in
  let sp3 := u16 (sp2 - 2) in
  let A sregs seg off :=
    seg_address (protected_mode s) (a20_enabled s) sregs (segcache s)
      (u16 seg) (u16 off) in
  let M :=
    mem_writew
      (mem_writew
         (mem_writew (mem s) (A (segregs s) (segregs s regss) sp1)
            (u16 (makeflagsword flags_word s)))
         (A (segregs s) (segregs s regss) sp2) (segregs s regcs))
      (A (segregs s) (segregs s regss) sp3) (ip s) in
  let W := upd (upd (upd (wordregs s) regsp sp1) regsp sp2) regsp sp3 in
  let SR :=
    upd (segregs s) regcs
      (u16 (mem_readw M (A (segregs s) 0 (u16 (v * 4 + 2))))) in
  let IP := mem_readw M (A SR 0 (u16 (v * 4))) in
  set_handling_fault 0
    (set_ip IP
       (set_segregs SR
          (set_mem M (set_wordregs W (set_tf 0 (set_ifl 0 s)))))).
Proof. reflexivity. Qed.

(** The block move changes the memory and nothing else. *)
Lemma move_block_eq (n : nat) :
  forall (i0 source_base dest_base : Z) (s : CPU_t),
    move_block n i0 source_base dest_base s =
    set_mem (mem_move n i0 source_base dest_base (mem s)) s.
Proof.
  induction n as [|k IH]; intros i0 src dst s.
  - now destruct s.
  - cbn [move_block mem_move]. rewrite IH. reflexivity.
Qed.

Lemma in_range_iff (lo hi a : Z) :
  (lo <=? a) && (a <? hi) = true <-> lo <= a < hi.
Proof. rewrite andb_true_iff, Z.leb_le, Z.ltb_lt. reflexivity. Qed.

(** On disjoint blocks that do not wrap the address space, the block
    move is a copy. *)
Lemma mem_move_copies (n : nat) :
  forall (i0 src dst : Z) (m : Z -> Z),
    0 <= i0 -> 0 <= src -> 0 <= dst ->
    src + i0 + Z.of_nat n <= 0x100000000 ->
    dst + i0 + Z.of_nat n <= 0x100000000 ->
    (dst + i0 + Z.of_nat n <= src + i0 \/ src + i0 + Z.of_nat n <= dst + i0) ->
    forall a,
      mem_move n i0 src dst m a =
      if (dst + i0 <=? a) && (a <? dst + i0 + Z.of_nat n)
      then u8 (m (src + (a - dst))) else m a.
Proof.
  induction n as [|k IH]; intros i0 src dst m Hi Hs Hd Hsn Hdn Hdis a.
  - cbn [mem_move]. 
    destruct (Z.leb_spec (dst + i0) a), (Z.ltb_spec a (dst + i0 + Z.of_nat 0));
      cbn [andb]; try reflexivity; lia.
  - cbn [mem_move]. rewrite IH by lia.
    rewrite !u32_small by lia.
    destruct (Z.eq_dec a (dst + i0)) as [->|Hne].
    + replace (dst + (i0 + 1) <=? dst + i0) with false
        by (symmetry; apply Z.leb_gt; lia).
      replace ((dst + i0 <=? dst + i0)
               && (dst + i0 <? dst + i0 + Z.of_nat (S k))) with true
        by (symmetry; apply in_range_iff; lia).
      cbn [andb]. rewrite upd_same.
      replace (src + (dst + i0 - dst)) with (src + i0) by lia.
      unfold u8. now rewrite Z.mod_mod by lia.
    + replace ((dst + i0 <=? a) && (a <? dst + i0 + Z.of_nat (S k)))
        with ((dst + (i0 + 1) <=? a) && (a <? dst + (i0 + 1) + Z.of_nat k))
        by (apply eq_true_iff_eq; rewrite !in_range_iff; lia).
      destruct ((dst + (i0 + 1) <=? a) && (a <? dst + (i0 + 1) + Z.of_nat k))
        eqn:E.
      * apply in_range_iff in E. rewrite upd_other by lia. reflexivity.
      * now rewrite upd_other by assumption.
Qed.

Lemma translate_address_safe_u16 (s : CPU_t) (seg off : Z) :
  translate_address_safe s (u16 seg) (u16 off) =
  translate_address_safe s seg off.
Proof. unfold translate_address_safe. now rewrite !u16_idem. Qed.

Lemma get_real_address_no_fault
  (inner : CPU_t -> Z -> option CPU_t) (s : CPU_t) (seg off : Z) :
  translation_faults s seg off = false ->
  get_real_address inner s seg off = Some (translated_address s seg off, s).
Proof.
  unfold translation_faults, translated_address, get_real_address.
  rewrite translate_address_safe_u16.
  destruct (nz (protected_mode s)); cbn [andb].
  - destruct (translate_address_safe s seg off) as [addr fault].
    cbn [fst snd]. intros ->. reflexivity.
  - intros _. destruct (negb (nz (a20_enabled s))); reflexivity.
Qed.

(** Writing AH replaces the high byte of AX and keeps AL. *)
Lemma set_ah_wordregs (v : Z) (s : CPU_t) :
  wordregs (set_bytereg regah v s) =
  upd (wordregs s) regax
    (Z.lor (Z.land (wordregs s regax) 0x00FF) (Z.shiftl (u8 v) 8)).
Proof. reflexivity. Qed.

Lemma byte_halves (w v : Z) :
  Z.land (Z.shiftr (Z.lor (Z.land w 0x00FF) (Z.shiftl (u8 v) 8)) 8) 0xFF
  = u8 v /\
  Z.land (Z.lor (Z.land w 0x00FF) (Z.shiftl (u8 v) 8)) 0xFF
  = Z.land w 0xFF.
Proof.
  change 0x00FF with (Z.ones 8). change 0xFF with (Z.ones 8). split.
  - rewrite Z.shiftr_lor, Z.shiftr_shiftl_l by lia.
    change (8 - 8) with 0. rewrite Z.shiftl_0_r.
    rewrite !Z.land_ones, Z.shiftr_div_pow2 by lia.
    rewrite Z.div_small by (apply Z.mod_pos_bound; lia).
    rewrite Z.lor_0_l. unfold u8. change (2 ^ 8) with 0x100.
    apply Z.mod_mod. lia.
  - rewrite Z.land_lor_distr_l, <- Z.land_assoc, Z.land_diag.
    rewrite (Z.land_ones (Z.shiftl _ _)), Z.shiftl_mul_pow2 by lia.
    rewrite Z.mod_mul by lia. apply Z.lor_0_r.
Qed.

(** C10, as the code has it.  INT 15h with no fault in flight.  AH = 0x88
    returns with AX = 15360 and CF = 0 and nothing else changed.  AH =
    0x87, when the translation of ES:SI does not fault (it never does in
    real mode), moves CX*2 bytes from the 24-bit source base to the
    24-bit destination base read from the table at ES:SI and returns with
    AH = 0, CF = 0 and ZF = 1; AL, the other registers, the segment
    registers, IP, TF and IF are as before, so nothing was pushed and no
    handler entered. *)
Theorem int15_intercept (fuel : nat) (s : CPU_t) :
  handling_fault s = 0 ->
  (byteregs s regah = 0x88 ->
   intcall (S fuel) s 0x15 = Some (set_cf 0 (set_wordreg regax 15360 s))) /\
  (byteregs s regah = 0x87 ->
   translation_faults s (segregs s reges) (wordregs s regsi) = false ->
   let table_addr :=
     translated_address s (segregs s reges) (wordregs s regsi) in
   let source_base := read_24bit_base s (table_addr + 10) in
   let dest_base := read_24bit_base s (table_addr + 18) in
   let num_bytes := u32 (wordregs s regcx * 2) in
   exists s',
     intcall (S fuel) s 0x15 = Some s' /\
     mem s' = mem_move (Z.to_nat num_bytes) 0 source_base dest_base (mem s) /\
     byteregs s' regah = 0 /\ cf s' = 0 /\ zf s' = 1 /\
     byteregs s' regal = byteregs s regal /\
     (forall r, r <> regax -> wordregs s' r = wordregs s r) /\
     segregs s' = segregs s /\ ip s' = ip s /\
     tf s' = tf s /\ ifl s' = ifl s /\
     handling_fault s' = 0 /\ protected_mode s' = protected_mode s /\
     int_callback s' = int_callback s).
Proof.
  intros Hlatch. split.
  - intros Hah. cbn [cpu_intcall]. unfold cpu_intcall_body.
    rewrite Hlatch. cbn [nz Z.eqb negb u8 Z.modulo].
    change (u8 0x15) with 0x15. change (is_fault_vector 0x15) with false.
    cbv iota. rewrite Hah. reflexivity.
  - intros Hah Hnf table_addr source_base dest_base num_bytes.
    cbn [cpu_intcall]. unfold cpu_intcall_body.
    rewrite Hlatch. cbn [nz Z.eqb negb].
    change (u8 0x15) with 0x15. change (is_fault_vector 0x15) with false.
    cbv iota. rewrite Hah. cbn [Z.eqb Pos.eqb andb].
    rewrite get_real_address_no_fault by assumption. cbn [bind].
    fold table_addr. fold source_base. fold dest_base. fold num_bytes.
    rewrite move_block_eq.
    eexists. split; [reflexivity|].
    unfold byteregs. fields. rewrite !set_ah_wordregs. fields.
    change (regah / 2) with regax. change (regal / 2) with regax.
    change (Z.odd regah) with true. change (Z.odd regal) with false.
    cbv iota. rewrite !upd_same.
    destruct (byte_halves (wordregs s regax) 0) as [Hhi Hlo].
    rewrite Hhi, Hlo.
    repeat split; try reflexivity.
    + intros r Hr. now rewrite upd_other by assumption.
    + exact Hlatch.
Qed.

Lemma u8_idem (x : Z) : u8 (u8 x) = u8 x.
Proof. unfold u8. apply Z.mod_mod. lia. Qed.

Lemma u8_cpu_read (s : CPU_t) (a : Z) : u8 (cpu_read s a) = cpu_read s a.
Proof. unfold cpu_read. apply u8_idem. Qed.

(** C2.  The case of opcode 0xA4.  With a repetition prefix active and
    CX = 0 the state is returned as it is.  Otherwise one byte is copied
    from useseg:SI to ES:DI and no other byte of memory changes, SI and
    DI move by +1 (DF = 0) or -1 (DF = 1) mod 2^16, CX is decremented
    exactly when a repetition prefix is active, and with one active IP is
    set back to [firstip], the address of the first byte of the
    instruction, so the next iteration of the loop fetches it again. *)
Theorem movsb_step (fuel : nat) (firstip : Z) (s : CPU_t) :
  opcode s = 0xA4 ->
  let rep := nz (reptype s) in
  let delta := if nz (df s) then -1 else 1 in
  let src := mem_address seg_address s (useseg s) (wordregs s regsi) in
  let dst := mem_address seg_address s (segregs s reges) (wordregs s regdi) in
  (rep = true -> wordregs s regcx = 0 ->
   exec_opcode run_callback flags_word seg_address fuel firstip s
   = Some (s, 0)) /\
  (rep = false \/ wordregs s regcx <> 0 ->
   exists s',
     exec_opcode run_callback flags_word seg_address fuel firstip s
     = Some (s', 1) /\
     mem s' = upd (mem s) (u32 dst) (cpu_read s src) /\
     wordregs s' regsi = u16 (wordregs s regsi + delta) /\
     wordregs s' regdi = u16 (wordregs s regdi + delta) /\
     wordregs s' regcx =
       (if rep then u16 (wordregs s regcx - 1) else wordregs s regcx) /\
     (forall r, r <> regsi -> r <> regdi -> r <> regcx ->
                wordregs s' r = wordregs s r) /\
     ip s' = (if rep then firstip else ip s) /\
     segregs s' = segregs s /\
     cf s' = cf s /\ pf s' = pf s /\ af s' = af s /\ zf s' = zf s /\
     sf s' = sf s /\ tf s' = tf s /\ ifl s' = ifl s /\ df s' = df s /\
     of_ s' = of_ s /\ reptype s' = reptype s).
Proof.
  intros Hop rep delta src dst. subst rep delta.
  unfold exec_opcode. rewrite Hop. cbn [Z.eqb Pos.eqb].
  split.
  - intros Hrep Hcx. rewrite Hrep, Hcx. reflexivity.
  - intros Hgo.
    assert (Hc : nz (reptype s) && (wordregs s regcx =? 0) = false).
    { apply andb_false_iff. destruct Hgo as [->|Hcx]; [now left|right].
      now apply Z.eqb_neq. }
    rewrite Hc. unfold putmem8, getmem8, cpu_write, set_wordreg. fields.
    fold src dst. rewrite u8_cpu_read.
    destruct (nz (df s)); fields.
    all: destruct (nz (reptype s)) eqn:Hrep; fields; rewrite ?Hrep;
      cbn [negb].
    all: eexists; split; [reflexivity|]; fields.
    all: rewrite ?upd_same, ?(upd_other _ regsi regdi),
           ?(upd_other _ regsi regcx), ?(upd_other _ regdi regcx),
           ?(upd_other _ regcx regdi), ?(upd_other _ regdi regsi),
           ?(upd_other _ regcx regsi), ?upd_same by discriminate.
    all: repeat split; try reflexivity.
    all: intros r H1 H2 H3; now rewrite ?upd_other by assumption.
Qed.


End Dispatcher.

(** ** The prefix guard *)

Section PrefixGuard.

Variable run_callback : callback -> CPU_t -> Z -> CPU_t.
Variable flags_word : Z -> Z -> Z -> Z -> Z -> Z -> Z -> Z -> Z -> Z.
Variable seg_address :
  Z -> Z -> (Z -> Z) -> (Z -> DESCRIPTOR_CACHE) -> Z -> Z -> Z.

(** Once ten bytes have been fetched, the eleventh raises interrupt 13
    whatever it is, prefix or opcode. *)
Lemma eleventh_byte_faults (fuel n : nat) (s : CPU_t) :
  collect_prefixes run_callback flags_word seg_address fuel (S n) 10 s =
  bind (cpu_intcall run_callback flags_word seg_address fuel (fetched seg_address s) 13)
       (fun s' => Some (s', true)).
Proof. reflexivity. Qed.

(** A turn of the loop below the guard: a prefix byte is recorded and the
    loop goes on with one more byte counted, any other byte ends it. *)
Lemma collect_prefixes_turn (fuel n : nat) (c : Z) (s : CPU_t) :
  0 <= c < 10 ->
  collect_prefixes run_callback flags_word seg_address fuel (S n) c s =
  match prefix_turn seg_address s with
  | Some s' =>
      collect_prefixes run_callback flags_word seg_address fuel n (c + 1) s'
  | None => Some (fetched seg_address s, false)
  end.
Proof.
  intros Hc. cbn [collect_prefixes]. fold (fetched seg_address s).
  rewrite u8_small by lia.
  replace (10 <? c + 1) with false by (symmetry; apply Z.ltb_ge; lia).
  cbv iota. unfold prefix_turn.
  destruct (opcode (fetched seg_address s) =? 0x2E); [reflexivity|].
  destruct (opcode (fetched seg_address s) =? 0x3E); [reflexivity|].
  destruct (opcode (fetched seg_address s) =? 0x26); [reflexivity|].
  destruct (opcode (fetched seg_address s) =? 0x36); [reflexivity|].
  destruct (opcode (fetched seg_address s) =? 0xF0); [reflexivity|].
  destruct (opcode (fetched seg_address s) =? 0xF3); [reflexivity|].
  destruct (opcode (fetched seg_address s) =? 0xF2); reflexivity.
Qed.

Lemma prefix_turns_S (k : nat) (s : CPU_t) :
  prefix_turns seg_address (S k) s =
  match prefix_turn seg_address s with
  | Some s' => prefix_turns seg_address k s'
  | None => None
  end.
Proof. cbn [prefix_turns]. apply eq_refl. Qed.

(** [k] prefix bytes in a row are [k] turns of the loop, as long as the
    count stays within the guard. *)
Lemma collect_prefixes_run (fuel : nat) (k : nat) :
  forall (n : nat) (c : Z) (s sk : CPU_t),
    0 <= c -> c + Z.of_nat k <= 10 ->
    prefix_turns seg_address k s = Some sk ->
    collect_prefixes run_callback flags_word seg_address fuel (k + n) c s =
    collect_prefixes run_callback flags_word seg_address fuel n
      (c + Z.of_nat k) sk.
Proof.
  induction k as [|k IH]; intros n c s sk Hc Hk Hrun.
  - injection Hrun as <-.
    change (Z.of_nat 0) with 0. rewrite Z.add_0_r. apply eq_refl.
  - rewrite prefix_turns_S in Hrun. change (S k + n)%nat with (S (k + n)).
    rewrite collect_prefixes_turn by lia.
    destruct (prefix_turn seg_address s) as [s1|]; [|congruence].
    rewrite (IH n (c + 1) s1 sk); [|lia|lia|exact Hrun].
    replace (c + 1 + Z.of_nat k) with (c + Z.of_nat (S k)) by lia.
    apply eq_refl.
Qed.

(** Ten prefix bytes in a row: whatever byte follows, the loop ends by
    raising interrupt 13 on it. *)
Lemma ten_prefixes_fault (fuel : nat) (s s10 : CPU_t) :
  prefix_turns seg_address 10 s = Some s10 ->
  collect_prefixes run_callback flags_word seg_address fuel 11 0 s =
  bind (cpu_intcall run_callback flags_word seg_address fuel
          (fetched seg_address s10) 13)
       (fun s' => Some (s', true)).
Proof.
  intros Hrun.
  change 11%nat with (10 + 1)%nat.
  rewrite (collect_prefixes_run fuel 10 1 0 s s10); [|lia|lia|exact Hrun].
  apply eleventh_byte_faults.
Qed.

(** At most nine prefix bytes and then a byte that is not a prefix: the
    loop ends on that byte without raising anything. *)
Lemma up_to_nine_prefixes_decode (fuel : nat) (k : nat) (s sk : CPU_t) :
  (k <= 9)%nat ->
  prefix_turns seg_address k s = Some sk ->
  prefix_turn seg_address sk = None ->
  collect_prefixes run_callback flags_word seg_address fuel 11 0 s =
  Some (fetched seg_address sk, false).
Proof.
  intros Hk Hrun Hstop.
  replace 11%nat with (k + S (10 - k))%nat by lia.
  rewrite (collect_prefixes_run fuel k (S (10 - k)) 0 s sk);
    [|lia|lia|exact Hrun].
  rewrite collect_prefixes_turn by lia. now rewrite Hstop.
Qed.

End PrefixGuard.

(** C7.  An instruction with exactly ten prefix bytes.  The eleventh
    byte the loop fetches is the opcode, NOP, and the guard
    [prefix_count > 10] trips on it: interrupt 13 is delivered (CS:IP is
    the vector 0000:0200, the return address 0x010B is on the stack)
    instead of the NOP being executed normally at 0000:010B. *)
Theorem ten_prefixes_raise_interrupt_13 :
  exists s',
    cpu_exec_iteration no_callback flagsword spec_address 1
      (prefix_machine 10) = Some (s', 0) /\
    ip s' = 0x0200 /\ segregs s' regcs = 0 /\
    wordregs s' regsp = 0x1000 - 6 /\
    cpu_readw s' (wordregs s' regsp) = 0x010B /\
    opcode s' = 0x90.
Proof.
  eexists. split; [vm_compute; reflexivity|].
  vm_compute. repeat split.
Qed.

Lemma nine_prefixes_execute_normally :
  exists s',
    cpu_exec_iteration no_callback flagsword spec_address 1
      (prefix_machine 9) = Some (s', 0) /\
    ip s' = 0x010A /\ wordregs s' regsp = 0x1000 /\ opcode s' = 0x90 /\
    mem s' = mem (prefix_machine 9).
Proof.
  eexists. split; [vm_compute; reflexivity|].
  vm_compute. repeat split.
Qed.

Lemma eleven_prefixes_raise_two_interrupts :
  exists s',
    cpu_exec_iteration no_callback flagsword spec_address 1
      (prefix_machine 11) = Some (s', 0) /\
    ip s' = 0x0300 /\
    wordregs s' regsp = 0x1000 - 12 /\
    cpu_readw s' (wordregs s' regsp) = 0x0200 /\
    cpu_readw s' (wordregs s' regsp + 6) = 0x010B /\
    opcode s' = 0xF0.
Proof.
  eexists. split; [vm_compute; reflexivity|].
  vm_compute. repeat split.
Qed.

(** C10, as the specification has it, fails.  In protected mode with
    the descriptor cache of ES not valid, the translation of ES:SI faults
    and the intercept itself raises vector 13.  On [int15_gate_machine]
    the interrupt table is consulted and its gate 13 is entered: control
    is at 0010:0040 with the flags word, CS and IP of the interrupted
    program and the error code on the stack.  On
    [int15_callback_machine] the callback registered for vector 13 is
    looked up and run. *)
Lemma int15_block_move_faults_in_protected_mode :
  handling_fault int15_gate_machine = 0 /\
  byteregs int15_gate_machine regah = 0x87 /\
  (segregs int15_gate_machine regcs, ip int15_gate_machine,
   wordregs int15_gate_machine regsp) = (0x0010, 0x0100, 0x1000) /\
  option_map
    (fun s' => (segregs s' regcs, ip s', wordregs s' regsp,
                [cpu_readw s' 0x8FF8; cpu_readw s' 0x8FFA;
                 cpu_readw s' 0x8FFC; cpu_readw s' 0x8FFE]))
    (cpu_intcall no_callback flagsword spec_address 2
       int15_gate_machine 0x15)
  = Some (0x0010, 0x0040, 0x1000 - 8, [0; 0x0100; 0x0010; 0x0002]) /\
  hltstate int15_callback_machine = 0 /\
  option_map hltstate
    (cpu_intcall halting_callback flagsword spec_address 2
       int15_callback_machine 0x15)
  = Some 1.
Proof. vm_compute. repeat split. Qed.

(** Where the interrupt table holds no gate for vector 13 the nested
    faults reset the machine: control ends at F000:FFF0 in real mode. *)
Lemma int15_block_move_can_reset_the_machine :
  handling_fault int15_protected_machine = 0 /\
  byteregs int15_protected_machine regah = 0x87 /\
  (ip int15_protected_machine, segregs int15_protected_machine regcs,
   protected_mode int15_protected_machine) = (0x0100, 0x0010, 1) /\
  option_map (fun s' => (ip s', segregs s' regcs, protected_mode s'))
    (cpu_intcall no_callback flagsword spec_address 4
       int15_protected_machine 0x15)
  = Some (0xFFF0, 0xF000, 0).
Proof. vm_compute. repeat split. Qed.

(** The same on a whole delivery.  General protection is raised on a
    machine whose gate 13 names a code segment that is not present, and
    whose gate 8 is in order (delivered on its own, vector 8 enters
    0010:0080).  Loading the handler's CS faults with vector 11 while the
    latch is set, and the machine is reset instead of entering the
    double-fault handler; the interrupted delivery then still stores the
    gate's CS:IP. *)
Lemma general_protection_with_absent_handler_segment :
  handling_fault absent_handler_machine = 0 /\
  option_map (fun s' => (protected_mode s', segregs s' regcs, ip s'))
    (cpu_intcall no_callback flagsword spec_address 3
       absent_handler_machine 8)
  = Some (1, 0x0010, 0x0080) /\
  option_map
    (fun s' => (protected_mode s', segregs s' regcs, ip s',
                wordregs s' regsp, DT.limit (idtr s')))
    (cpu_intcall no_callback flagsword spec_address 3
       absent_handler_machine 13)
  = Some (0, 0x0008, 0x0040, 0, 0x03FF).
Proof. vm_compute. repeat split. Qed.

(** ** Runs on concrete machines *)

(** One iteration on REP MOVSB copies one byte and leaves IP on the
    prefix; seven loop counts complete the three transfers. *)
Lemma rep_movsb_iteration :
  option_map
    (fun r => (ip (fst r), wordregs (fst r) regcx, wordregs (fst r) regsi,
               wordregs (fst r) regdi, mem (fst r) 0x3000, snd r))
    (cpu_exec_iteration no_callback flagsword spec_address 1
       rep_movsb_machine)
  = Some (0x0100, 2, 0x2001, 0x3001, 0x11, 1).
Proof. vm_compute. reflexivity. Qed.

Lemma rep_movsb_runs_to_completion :
  option_map
    (fun s => (ip s, wordregs s regcx, wordregs s regsi, wordregs s regdi,
               [mem s 0x3000; mem s 0x3001; mem s 0x3002; mem s 0x3003]))
    (cpu_exec no_callback flagsword spec_address 1 rep_movsb_machine 7)
  = Some (0x0102, 0, 0x2003, 0x3003, [0x11; 0x22; 0x33; 0x00]).
Proof. vm_compute. reflexivity. Qed.

Lemma spec_address_vector (a20 : Z) (sregs : Z -> Z)
  (caches : Z -> DESCRIPTOR_CACHE) (off : Z) :
  0 <= off < 0x10000 -> spec_address 0 a20 sregs caches 0 off = off.
Proof.
  intros Hoff. unfold spec_address. cbn [nz Z.eqb negb].
  rewrite Z.shiftl_0_l, Z.add_0_l, u32_small by lia.
  destruct (negb (nz a20)); [|reflexivity].
  rewrite land_fffff_mod. apply Z.mod_small.
  change (2 ^ 20) with 0x100000. lia.
Qed.

Lemma fault_in_flight_always_resets_witness :
  cpu_intcall no_callback flagsword spec_address 2
    (set_handling_fault 1 int21_machine) 13
  = Some (cpu_reset (set_handling_fault 1 int21_machine)).
Proof.
  apply (fault_in_flight_always_resets no_callback flagsword spec_address 0).
  vm_compute. discriminate.
Defined.

Lemma movsb_step_witness :
  exists s',
    exec_opcode no_callback flagsword spec_address 1 0x100 movsb_machine
    = Some (s', 1) /\
    wordregs s' regcx = u16 (3 - 1) /\ ip s' = 0x100.
Proof.
  pose proof (movsb_step no_callback flagsword spec_address 1 0x100
                movsb_machine eq_refl) as H.
  cbv zeta in H. destruct H as [_ H].
  destruct H as (s' & Hrun & _ & _ & _ & Hcx & _ & Hip & _).
  - right. vm_compute. discriminate.
  - exists s'. split; [exact Hrun|]. split; [exact Hcx|exact Hip].
Defined.


Lemma add_ax_bx_flags_witness :
  exists s',
    exec_opcode no_callback flagsword spec_address 1 0x100 add_ax_bx_fetched
    = Some (s', 0) /\
    wordregs s' regax = 0x8000 /\ zf s' = 0 /\ sf s' = 1 /\ of_ s' = 1 /\
    cf s' = 0 /\ af s' = 1 /\ pf s' = 1.
Proof.
  apply add_ax_bx_flags; reflexivity.
Defined.

Lemma op_sbb8_ff_carry_lost_witness :
  cf (op_sbb8 sbb_machine) = 0 /\ res8 (op_sbb8 sbb_machine) = oper1b sbb_machine /\
  oper1b sbb_machine < oper2b sbb_machine + cf sbb_machine.
Proof.
  apply op_sbb8_ff_carry_lost; [vm_compute; split; [discriminate|reflexivity] | reflexivity | reflexivity].
Defined.

Lemma fpu_push_pop_roundtrip_witness :
  fst (FpuPop (FpuPush (blank_machine (fun _ => 0)) double_one)) = double_one /\
  FPU.tw (fpu (snd (FpuPop (FpuPush (blank_machine (fun _ => 0)) double_one))))
  = 0xFFFF.
Proof.
  pose proof (fpu_push_pop_roundtrip (blank_machine (fun _ => 0)) double_one)
    as H.
  cbv zeta in H. destruct H as (Hx & Htw & _).
  - vm_compute. split; [discriminate|reflexivity].
  - vm_compute. split; [discriminate|reflexivity].
  - reflexivity.
  - split; [exact Hx|exact Htw].
Defined.

Lemma real_mode_address_formation_witness :
  get_real_address (cpu_intcall no_callback flagsword spec_address 1)
    a20_off_machine 0xFFFF 0x10 = Some (0, a20_off_machine) /\
  ea (getea a20_off_machine 7) = 0.
Proof.
  pose proof (real_mode_address_formation
                (cpu_intcall no_callback flagsword spec_address 1)
                a20_off_machine 0xFFFF 0x10 7 eq_refl) as H.
  destruct H as (H1 & H2 & _); try (vm_compute; split; [discriminate|reflexivity]).
  split; [exact H1|exact H2].
Defined.

Lemma int15_intercept_witness :
  cpu_intcall no_callback flagsword spec_address 1 int15_size_machine 0x15
  = Some (set_cf 0 (set_wordreg regax 15360 int15_size_machine)).
Proof.
  apply (int15_intercept no_callback flagsword spec_address 0
           int15_size_machine eq_refl). reflexivity.
Defined.

(** * The interrupt controller *)

Lemma land1_testbit (t i : Z) :
  0 <= i -> Z.land (Z.shiftr t i) 1 = Z.b2z (Z.testbit t i).
Proof.
  intros Hi. change 1 with (Z.ones 1). rewrite Z.land_ones by lia.
  change (2 ^ 1) with 2. rewrite <- Z.bit0_mod, Z.shiftr_spec by lia.
  reflexivity.
Qed.

Lemma nz_b2z (b : bool) : nz (Z.b2z b) = b.
Proof. now destruct b. Qed.

Lemma u8_testbit (x j : Z) :
  0 <= j < 8 -> Z.testbit (u8 x) j = Z.testbit x j.
Proof.
  intros Hj. unfold u8. change 0x100 with (2 ^ 8).
  apply Z.mod_pow2_bits_low. lia.
Qed.

Lemma u8_testbit_high (x j : Z) : 8 <= j -> Z.testbit (u8 x) j = false.
Proof.
  intros Hj. unfold u8. change 0x100 with (2 ^ 8).
  apply Z.mod_pow2_bits_high. lia.
Qed.

Lemma range8_testbit_high (x j : Z) :
  0 <= x < 0x100 -> 8 <= j -> Z.testbit x j = false.
Proof.
  intros Hx Hj. rewrite <- (u8_small x Hx). now apply u8_testbit_high.
Qed.

(** Two bytes with the same eight bits are equal. *)
Lemma byte_eq_bits (x y : Z) :
  0 <= x < 0x100 -> 0 <= y < 0x100 ->
  (forall j, 0 <= j < 8 -> Z.testbit x j = Z.testbit y j) -> x = y.
Proof.
  intros Hx Hy H. apply Z.bits_inj'. intros j Hj.
  destruct (Z.lt_ge_cases j 8) as [Hlt|Hge].
  - apply H. lia.
  - now rewrite !range8_testbit_high.
Qed.

Lemma u8_eq_bits (x y : Z) :
  0 <= y < 0x100 ->
  (forall j, 0 <= j < 8 -> Z.testbit x j = Z.testbit y j) -> u8 x = y.
Proof.
  intros Hy H. apply byte_eq_bits; [apply u8_range|exact Hy|].
  intros j Hj. rewrite u8_testbit by exact Hj. now apply H.
Qed.

Lemma shiftl1_testbit (i j : Z) :
  0 <= i -> 0 <= j -> Z.testbit (Z.shiftl 1 i) j = (j =? i).
Proof.
  intros Hi Hj. rewrite Z.shiftl_1_l. destruct (Z.eqb_spec j i) as [->|Hne].
  - now apply Z.pow2_bits_true.
  - apply Z.pow2_bits_false. congruence.
Qed.

Lemma range8_of_bits (x : Z) :
  (forall j, 8 <= j -> Z.testbit x j = false) -> 0 <= x < 0x100.
Proof.
  intros H. assert (E : x = u8 x).
  { apply Z.bits_inj'. intros j Hj.
    destruct (Z.lt_ge_cases j 8) as [Hlt|Hge].
    - now rewrite u8_testbit by lia.
    - rewrite u8_testbit_high by lia. now apply H. }
  rewrite E. apply u8_range.
Qed.

Lemma setbit_range8 (x i : Z) :
  0 <= x < 0x100 -> 0 <= i < 8 -> 0 <= Z.setbit x i < 0x100.
Proof.
  intros Hx Hi. apply range8_of_bits. intros j Hj.
  rewrite Z.setbit_eqb by lia. rewrite range8_testbit_high by lia.
  destruct (Z.eqb_spec i j); [lia|reflexivity].
Qed.

Lemma clearbit_range8 (x i : Z) :
  0 <= x < 0x100 -> 0 <= i -> 0 <= Z.clearbit x i < 0x100.
Proof.
  intros Hx Hi. apply range8_of_bits. intros j Hj.
  rewrite Z.clearbit_eqb. now rewrite range8_testbit_high by lia.
Qed.

(** The scan finds the lowest set bit. *)
Lemma first_request_found (n : nat) :
  forall i0 t i,
    0 <= i0 <= i -> i < i0 + Z.of_nat n ->
    Z.testbit t i = true ->
    (forall j, i0 <= j < i -> Z.testbit t j = false) ->
    first_request n i0 t = Some i.
Proof.
  induction n as [|n IH]; intros i0 t i Hi Hn Hb Hlow; [lia|].
  cbn [first_request]. rewrite land1_testbit, nz_b2z by lia.
  destruct (Z.eq_dec i0 i) as [->|Hne].
  - now rewrite Hb.
  - rewrite (Hlow i0) by lia. apply IH; [lia|lia|exact Hb|].
    intros j Hj. apply Hlow. lia.
Qed.

Lemma first_request_none (n : nat) :
  forall i0 t,
    0 <= i0 ->
    (forall j, i0 <= j < i0 + Z.of_nat n -> Z.testbit t j = false) ->
    first_request n i0 t = None.
Proof.
  induction n as [|n IH]; intros i0 t Hi H; [reflexivity|].
  cbn [first_request]. rewrite land1_testbit, nz_b2z by lia.
  rewrite (H i0) by lia. apply IH; [lia|]. intros j Hj. apply H. lia.
Qed.

(** The requests that can be delivered: [irr & ~imr]. *)
Lemma pending_testbit (irr imr j : Z) :
  0 <= j < 8 ->
  Z.testbit (u8 (Z.land irr (Z.lnot imr))) j =
  Z.testbit irr j && negb (Z.testbit imr j).
Proof.
  intros Hj. rewrite u8_testbit, Z.land_spec, Z.lnot_spec by lia.
  reflexivity.
Qed.

Lemma ack_irr (irr i : Z) :
  0 <= irr < 0x100 -> 0 <= i ->
  u8 (Z.land irr (Z.lnot (Z.shiftl 1 i))) = Z.clearbit irr i.
Proof.
  intros Hr Hi. rewrite <- Z.ldiff_land, Z.shiftl_1_l, <- Z.clearbit_spec'.
  apply u8_small. now apply clearbit_range8.
Qed.

Lemma ack_isr (isr i : Z) :
  0 <= isr < 0x100 -> 0 <= i < 8 ->
  u8 (Z.lor isr (Z.shiftl 1 i)) = Z.setbit isr i.
Proof.
  intros Hr Hi. rewrite Z.shiftl_1_l, <- Z.setbit_spec'.
  apply u8_small. now apply setbit_range8.
Qed.

(** The acknowledgement of the lowest requested and unmasked line. *)
Lemma nextintr_lowest_request
  (fuel : nat) (st : i8259_store) (p i : Z) :
  let c := st p in
  0 <= I8259.irr c < 0x100 -> 0 <= I8259.isr c < 0x100 ->
  0 <= i < 8 ->
  Z.testbit (I8259.irr c) i = true -> Z.testbit (I8259.imr c) i = false ->
  (forall j, 0 <= j < i ->
     Z.testbit (I8259.irr c) j = true -> Z.testbit (I8259.imr c) j = true) ->
  I8259.is_slave c <> 0 \/ i <> 2 ->
  i8259_nextintr (S fuel) st p =
  Some (u8 (Z.land (I8259.icw c 2) 0xF8 + i),
        upd st p
          (I8259.set_isr (Z.setbit (I8259.isr c) i)
             (I8259.set_irr (Z.clearbit (I8259.irr c) i) c))).
Proof.
  intros c Hirr Hisr Hi Hreq Hmask Hlow Hcas. cbn [i8259_nextintr].
  fold c.
  rewrite (first_request_found 8 0 _ i); cycle 1.
  - lia.
  - lia.
  - rewrite pending_testbit by lia. now rewrite Hreq, Hmask.
  - intros j Hj. rewrite pending_testbit by lia.
    destruct (Z.testbit (I8259.irr c) j) eqn:E; [|reflexivity].
    now rewrite (Hlow j) by (lia || assumption).
  - assert (Hc : negb (nz (I8259.is_slave c)) && (i =? 2) = false).
    { destruct Hcas as [Hs|Hs].
      - apply nz_true in Hs. now rewrite Hs.
      - apply Z.eqb_neq in Hs. rewrite Hs. apply andb_false_r. }
    rewrite Hc. cbn [I8259.irr I8259.isr I8259.icw I8259.set_irr
                       I8259.set_isr].
    rewrite ack_irr, ack_isr by lia. reflexivity.
Qed.

(** X1.  [i8259_nextintr] on a controller whose lowest requested and
    unmasked line is [i], where the line is not the master's cascade
    line 2: the vector is the base programmed in ICW2 (its low three bits
    dropped) plus [i], the request bit of the line is cleared and its
    in-service bit set; nothing else changes. *)
Theorem i8259_nextintr_acknowledges_lowest
  (fuel : nat) (st : i8259_store) (p i : Z) :
  let c := st p in
  0 <= I8259.irr c < 0x100 -> 0 <= I8259.isr c < 0x100 ->
  0 <= i < 8 ->
  Z.testbit (I8259.irr c) i = true -> Z.testbit (I8259.imr c) i = false ->
  (forall j, 0 <= j < i ->
     Z.testbit (I8259.irr c) j = true -> Z.testbit (I8259.imr c) j = true) ->
  I8259.is_slave c <> 0 \/ i <> 2 ->
  i8259_nextintr (S fuel) st p =
  Some (u8 (Z.land (I8259.icw c 2) 0xF8 + i),
        upd st p
          (I8259.set_isr (Z.setbit (I8259.isr c) i)
             (I8259.set_irr (Z.clearbit (I8259.irr c) i) c))).
Proof. exact (nextintr_lowest_request fuel st p i). Qed.

(** X2.  A request raised on a master while its line is masked is not
    latched: [i8259_doirq] leaves every controller as it was, so the
    request is lost rather than held until the line is unmasked. *)
Theorem i8259_doirq_masked_is_lost
  (fuel : nat) (st : i8259_store) (p n : Z) :
  let c := st p in
  0 <= I8259.irr c < 0x100 -> 0 <= n < 8 ->
  Z.testbit (I8259.imr c) n = true -> I8259.is_slave c = 0 ->
  exists st', i8259_doirq (S fuel) st p n = Some st' /\
              forall q, st' q = st q.
Proof.
  intros c Hirr Hn Hm Hs. cbn [i8259_doirq]. fold c.
  cbn [I8259.is_slave I8259.set_irr]. rewrite Hs. cbn [nz Z.eqb negb].
  eexists. split; [reflexivity|]. intros q. unfold upd.
  destruct (Z.eqb_spec q p) as [->|_]; [|reflexivity]. fold c.
  rewrite (u8_small n) by lia.
  replace (u8 (Z.lor (I8259.irr c)
                 (Z.land (Z.shiftl 1 n) (Z.lnot (I8259.imr c)))))
    with (I8259.irr c); [now destruct c|].
  symmetry. apply u8_eq_bits; [exact Hirr|]. intros j Hj.
  rewrite Z.lor_spec, Z.land_spec, Z.lnot_spec, shiftl1_testbit by lia.
  destruct (Z.eqb_spec j n) as [->|_].
  - rewrite Hm. now rewrite andb_false_r, orb_false_r.
  - now rewrite orb_false_r.
Qed.

(** What [i8259_doirq] leaves in a controller that is not a slave. *)
Lemma i8259_doirq_master (fuel : nat) (st : i8259_store) (p n : Z) :
  let c := st p in
  0 <= I8259.irr c < 0x100 -> 0 <= n < 8 ->
  Z.testbit (I8259.imr c) n = false -> I8259.is_slave c = 0 ->
  i8259_doirq (S fuel) st p n =
  Some (upd st p (I8259.set_irr (Z.setbit (I8259.irr c) n) c)).
Proof.
  intros c Hirr Hn Hm Hs. cbn [i8259_doirq]. fold c.
  cbn [I8259.is_slave I8259.set_irr]. rewrite Hs. cbn [nz Z.eqb negb].
  rewrite (u8_small n) by lia.
  replace (u8 (Z.lor (I8259.irr c)
                 (Z.land (Z.shiftl 1 n) (Z.lnot (I8259.imr c)))))
    with (Z.setbit (I8259.irr c) n); [reflexivity|].
  symmetry. apply u8_eq_bits; [now apply setbit_range8|]. intros j Hj.
  rewrite Z.lor_spec, Z.land_spec, Z.lnot_spec, shiftl1_testbit,
    Z.setbit_eqb by lia.
  rewrite (Z.eqb_sym n j). destruct (Z.eqb_spec j n) as [->|_].
  - rewrite Hm. now rewrite orb_comm.
  - now rewrite orb_false_r.
Qed.

Lemma clearbit_setbit_clear (x n : Z) :
  0 <= n -> Z.testbit x n = false -> Z.clearbit (Z.setbit x n) n = x.
Proof.
  intros Hn Hb. apply Z.bits_inj'. intros j Hj.
  rewrite Z.clearbit_eqb, Z.setbit_eqb by lia.
  destruct (Z.eqb_spec n j) as [->|_]; [now rewrite Hb|].
  now rewrite orb_false_l, andb_true_r.
Qed.

(** X3.  A request, its acknowledgement and the end of interrupt, on an
    idle master (nothing in service, every requested line masked) and a
    line [n] that is unmasked and not the cascade line: [i8259_doirq]
    latches the request, [i8259_nextintr] answers with the vector of the
    line and puts the line in service, and the non-specific EOI (0x20
    written to port 0) brings the request, in-service and mask registers
    back to what they were. *)
Theorem i8259_request_cycle (fuel : nat) (st : i8259_store) (p n : Z) :
  let c := st p in
  I8259.is_slave c = 0 -> n <> 2 -> 0 <= n < 8 ->
  0 <= I8259.irr c < 0x100 -> I8259.isr c = 0 ->
  Z.testbit (I8259.imr c) n = false ->
  (forall j, 0 <= j < 8 ->
     Z.testbit (I8259.irr c) j = true -> Z.testbit (I8259.imr c) j = true) ->
  exists st1 st2,
    i8259_doirq (S fuel) st p n = Some st1 /\
    Z.testbit (I8259.irr (st1 p)) n = true /\
    i8259_nextintr (S fuel) st1 p =
      Some (u8 (Z.land (I8259.icw c 2) 0xF8 + n), st2) /\
    I8259.isr (st2 p) = Z.shiftl 1 n /\
    i8259_write (st2 p) 0 0x20 =
      I8259.set_ocw (upd (I8259.ocw c) 2 0x20) c.
Proof.
  intros c Hs Hn2 Hn Hirr Hisr Hm Hidle.
  assert (Hclear : Z.testbit (I8259.irr c) n = false).
  { destruct (Z.testbit (I8259.irr c) n) eqn:E; [|reflexivity].
    rewrite (Hidle n Hn E) in Hm. discriminate. }
  pose (c1 := I8259.set_irr (Z.setbit (I8259.irr c) n) c).
  pose (c2 := I8259.set_isr (Z.setbit (I8259.isr c1) n)
                (I8259.set_irr (Z.clearbit (I8259.irr c1) n) c1)).
  exists (upd st p c1), (upd (upd st p c1) p c2).
  split; [now apply i8259_doirq_master|].
  rewrite !upd_same.
  split; [cbn [c1 I8259.irr I8259.set_irr]; apply Z.setbit_eq; lia|].
  split.
  - pose proof (nextintr_lowest_request fuel (upd st p c1) p n)
      as H.
    cbv zeta in H. rewrite !upd_same in H. apply H; clear H.
    + cbn [c1 I8259.irr I8259.set_irr]. now apply setbit_range8.
    + cbn [c1 I8259.isr I8259.set_irr]. rewrite Hisr. lia.
    + exact Hn.
    + cbn [c1 I8259.irr I8259.set_irr]. apply Z.setbit_eq. lia.
    + exact Hm.
    + intros j Hj. cbn [c1 I8259.irr I8259.imr I8259.set_irr].
      rewrite Z.setbit_neq by lia. apply Hidle. lia.
    + now right.
  - split.
    + cbn [c2 c1 I8259.isr I8259.set_isr I8259.set_irr]. rewrite Hisr.
      rewrite Z.setbit_spec', Z.lor_0_l. symmetry. apply Z.shiftl_1_l.
    + unfold i8259_write.
      change (Z.land (u16 0) 1 =? 0) with true.
      change (u8 0x20) with 0x20.
      change (nz (Z.land 0x20 0x10)) with false.
      change (Z.land 0x20 0x08 =? 0) with true.
      change (Z.land 0x20 0xE0 =? 0x60) with false.
      change (Z.land 0x20 0xE0 =? 0x40) with false.
      change (Z.land 0x20 0xE0 =? 0x20) with true.
      cbv iota zeta.
      cbn [c2 c1 I8259.imr I8259.irr I8259.isr I8259.icwstep I8259.icw
             I8259.ocw I8259.intoffset I8259.priority I8259.autoeoi
             I8259.readmode I8259.vector I8259.lastintr I8259.enabled
             I8259.is_slave I8259.partner I8259.set_isr I8259.set_irr
             I8259.set_ocw].
      rewrite Hisr, clearbit_setbit_clear by (lia || assumption).
      replace (u8 (Z.land (I8259.irr c) (Z.lnot (Z.setbit 0 n))))
        with (I8259.irr c).
      * rewrite <- Hisr. now destruct c.
      * symmetry. apply u8_eq_bits; [exact Hirr|]. intros j Hj.
        rewrite Z.land_spec, Z.lnot_spec, Z.setbit_eqb, Z.bits_0 by lia.
        destruct (Z.eqb_spec n j) as [<-|_].
        -- now rewrite Hclear.
        -- now rewrite andb_true_r.
Qed.

Lemma latch_irr (irr imr n : Z) :
  0 <= irr < 0x100 -> 0 <= n < 8 -> Z.testbit imr n = false ->
  u8 (Z.lor irr (Z.land (Z.shiftl 1 n) (Z.lnot imr))) = Z.setbit irr n.
Proof.
  intros Hirr Hn Hm. apply u8_eq_bits; [now apply setbit_range8|].
  intros j Hj.
  rewrite Z.lor_spec, Z.land_spec, Z.lnot_spec, shiftl1_testbit,
    Z.setbit_eqb by lia.
  rewrite (Z.eqb_sym n j). destruct (Z.eqb_spec j n) as [->|_].
  - rewrite Hm. now rewrite orb_comm.
  - now rewrite orb_false_r.
Qed.

(** With no request that can be delivered the answer is vector 0 and
    nothing changes. *)
Lemma nextintr_idle (fuel : nat) (st : i8259_store) (p : Z) :
  (forall j, 0 <= j < 8 ->
     Z.testbit (I8259.irr (st p)) j = true ->
     Z.testbit (I8259.imr (st p)) j = true) ->
  i8259_nextintr (S fuel) st p = Some (0, st).
Proof.
  intros Hidle. cbn [i8259_nextintr].
  rewrite first_request_none; [reflexivity|lia|].
  intros j Hj. rewrite pending_testbit by lia.
  destruct (Z.testbit (I8259.irr (st p)) j) eqn:E; [|reflexivity].
  now rewrite (Hidle j) by (lia || assumption).
Qed.

(** The master hands its line 2 to the partner and does not touch its
    own registers. *)
Lemma nextintr_cascade (fuel : nat) (st : i8259_store) (m sl : Z) :
  I8259.is_slave (st m) = 0 -> I8259.partner (st m) = Some sl ->
  Z.testbit (I8259.irr (st m)) 2 = true ->
  Z.testbit (I8259.imr (st m)) 2 = false ->
  (forall j, 0 <= j < 2 ->
     Z.testbit (I8259.irr (st m)) j = true ->
     Z.testbit (I8259.imr (st m)) j = true) ->
  i8259_nextintr (S fuel) st m = i8259_nextintr fuel st sl.
Proof.
  intros Hs Hp Hreq Hm Hlow. cbn [i8259_nextintr].
  rewrite (first_request_found 8 0 _ 2); cycle 1.
  - lia.
  - lia.
  - rewrite pending_testbit by lia. now rewrite Hreq, Hm.
  - intros j Hj. rewrite pending_testbit by lia.
    destruct (Z.testbit (I8259.irr (st m)) j) eqn:E; [|reflexivity].
    now rewrite (Hlow j) by (lia || assumption).
  - rewrite Hs, Hp. reflexivity.
Qed.

(** X4.  The cascade.  On a master and a slave that point at each other,
    both idle, a request on the unmasked slave line [k] is latched in the
    slave and raises line 2 of the master.  [i8259_nextintr] on the
    master answers with the slave's vector for [k] and puts the line in
    service in the slave, but it neither clears nor puts in service the
    master's own line 2: that line stays requested, and the next
    [i8259_nextintr] on the master, with nothing left in the slave,
    answers vector 0. *)
Theorem i8259_cascade_leaves_line_2_requested
  (fuel : nat) (st : i8259_store) (m sl k : Z) :
  let cm := st m in
  let cs := st sl in
  m <> sl ->
  I8259.is_slave cm = 0 -> I8259.partner cm = Some sl ->
  I8259.is_slave cs <> 0 -> I8259.partner cs = Some m ->
  0 <= I8259.irr cm < 0x100 ->
  0 <= I8259.irr cs < 0x100 -> 0 <= I8259.isr cs < 0x100 ->
  0 <= k < 8 ->
  Z.testbit (I8259.imr cs) k = false -> Z.testbit (I8259.imr cm) 2 = false ->
  (forall j, 0 <= j < 8 ->
     Z.testbit (I8259.irr cm) j = true -> Z.testbit (I8259.imr cm) j = true) ->
  (forall j, 0 <= j < 8 ->
     Z.testbit (I8259.irr cs) j = true -> Z.testbit (I8259.imr cs) j = true) ->
  exists st1 st2,
    i8259_doirq (S (S fuel)) st sl k = Some st1 /\
    i8259_nextintr (S (S fuel)) st1 m =
      Some (u8 (Z.land (I8259.icw cs 2) 0xF8 + k), st2) /\
    st2 sl = I8259.set_isr (Z.setbit (I8259.isr cs) k) cs /\
    st2 m = I8259.set_irr (Z.setbit (I8259.irr cm) 2) cm /\
    i8259_nextintr (S (S fuel)) st2 m = Some (0, st2).
Proof.
  intros cm cs Hne Hms Hmp Hss Hsp Hirrm Hirrs Hisrs Hk Hmk Hm2 Hidlem
    Hidles.
  assert (Hks : Z.testbit (I8259.irr cs) k = false).
  { destruct (Z.testbit (I8259.irr cs) k) eqn:E; [|reflexivity].
    rewrite (Hidles k Hk E) in Hmk. discriminate. }
  pose (cs1 := I8259.set_irr (Z.setbit (I8259.irr cs) k) cs).
  pose (cm1 := I8259.set_irr (Z.setbit (I8259.irr cm) 2) cm).
  pose (cs2 := I8259.set_isr (Z.setbit (I8259.isr cs) k) cs).
  pose (st1 := upd (upd st sl cs1) m cm1).
  pose (st2 := upd st1 sl cs2).
  assert (Em1 : st1 m = cm1) by apply upd_same.
  assert (Es1 : st1 sl = cs1).
  { unfold st1. rewrite upd_other by congruence. apply upd_same. }
  assert (Em2 : st2 m = cm1).
  { unfold st2. rewrite upd_other by congruence. exact Em1. }
  assert (Es2 : st2 sl = cs2) by apply upd_same.
  exists st1, st2. split; [|split; [|split; [exact Es2|split; [exact Em2|]]]].
  - (* the request *)
    change (i8259_doirq (S (S fuel)) st sl k) with
      (let irqnum := u8 k in
       let c := I8259.set_irr
                  (u8 (Z.lor (I8259.irr cs)
                         (Z.land (Z.shiftl 1 irqnum)
                            (Z.lnot (I8259.imr cs))))) cs in
       let st := upd st sl c in
       if nz (I8259.is_slave c) then
         match I8259.partner c with
         | Some q => i8259_doirq (S fuel) st q 2
         | None => None
         end
       else Some st).
    cbv zeta. rewrite (u8_small k) by lia.
    rewrite latch_irr by assumption. fold cs1.
    assert (Hs1 : nz (I8259.is_slave cs1) = true) by now apply nz_true.
    rewrite Hs1. change (I8259.partner cs1) with (I8259.partner cs).
    rewrite Hsp.
    pose proof (i8259_doirq_master fuel (upd st sl cs1) m 2) as H.
    cbv zeta in H. rewrite upd_other in H by congruence.
    apply H; [exact Hirrm|lia|exact Hm2|exact Hms].
  - (* the acknowledgement *)
    rewrite (nextintr_cascade (S fuel) st1 m sl); cycle 1.
    + rewrite Em1. exact Hms.
    + rewrite Em1. exact Hmp.
    + rewrite Em1. cbn [cm1 I8259.irr I8259.set_irr]. apply Z.setbit_eq. lia.
    + rewrite Em1. exact Hm2.
    + rewrite Em1. intros j Hj. cbn [cm1 I8259.irr I8259.imr I8259.set_irr].
      rewrite Z.setbit_neq by lia. apply Hidlem. lia.
    + pose proof (nextintr_lowest_request fuel st1 sl k) as H.
      cbv zeta in H. rewrite Es1 in H.
      cbn [cs1 I8259.irr I8259.isr I8259.imr I8259.icw I8259.is_slave
             I8259.set_irr I8259.set_isr] in H.
      rewrite clearbit_setbit_clear in H by (lia || assumption).
      replace cs2 with
        (I8259.mk (I8259.imr cs) (I8259.irr cs) (Z.setbit (I8259.isr cs) k)
           (I8259.icwstep cs) (I8259.icw cs) (I8259.ocw cs)
           (I8259.intoffset cs) (I8259.priority cs) (I8259.autoeoi cs)
           (I8259.readmode cs) (I8259.vector cs) (I8259.lastintr cs)
           (I8259.enabled cs) (I8259.is_slave cs) (I8259.partner cs))
        by reflexivity.
      apply H.
      * now apply setbit_range8.
      * exact Hisrs.
      * exact Hk.
      * apply Z.setbit_eq. lia.
      * exact Hmk.
      * intros j Hj. rewrite Z.setbit_neq by lia. apply Hidles. lia.
      * now left.
  - (* the line that stays requested *)
    rewrite (nextintr_cascade (S fuel) st2 m sl); cycle 1.
    + rewrite Em2. exact Hms.
    + rewrite Em2. exact Hmp.
    + rewrite Em2. cbn [cm1 I8259.irr I8259.set_irr]. apply Z.setbit_eq. lia.
    + rewrite Em2. exact Hm2.
    + rewrite Em2. intros j Hj. cbn [cm1 I8259.irr I8259.imr I8259.set_irr].
      rewrite Z.setbit_neq by lia. apply Hidlem. lia.
    + apply nextintr_idle. rewrite Es2. exact Hidles.
Qed.

Ltac pic_fields :=
  cbn [I8259.imr I8259.irr I8259.isr I8259.icwstep I8259.icw I8259.ocw
       I8259.intoffset I8259.priority I8259.autoeoi I8259.readmode
       I8259.vector I8259.lastintr I8259.enabled I8259.is_slave
       I8259.partner I8259.set_imr I8259.set_irr I8259.set_isr
       I8259.set_icwstep I8259.set_icw I8259.set_ocw I8259.set_intoffset
       I8259.set_readmode].

(** The writes of the initialisation sequence, one by one. *)
Lemma i8259_write_icw1 (c : I8259_t) (v : Z) :
  Z.land (u8 v) 0x10 <> 0 ->
  i8259_write c 0 v =
  I8259.set_readmode 0
    (I8259.set_icwstep 2
       (I8259.set_icw (upd (I8259.icw c) 1 (u8 v)) (I8259.set_imr 0 c))).
Proof.
  intros Hv. apply nz_true in Hv. unfold i8259_write.
  change (Z.land (u16 0) 1 =? 0) with true. cbv iota zeta.
  now rewrite Hv.
Qed.

Lemma i8259_write_icw2 (c : I8259_t) (w : Z) :
  I8259.icwstep c = 2 ->
  i8259_write c 1 w =
  I8259.set_icwstep (if nz (Z.land (I8259.icw c 1) 0x02) then 5 else 3)
    (I8259.set_intoffset (u8 w)
       (I8259.set_icw (upd (I8259.icw c) 2 (u8 w)) c)).
Proof.
  intros Hs. unfold i8259_write.
  change (Z.land (u16 1) 1 =? 0) with false. cbv iota zeta.
  rewrite Hs. cbn [Z.eqb Pos.eqb]. pic_fields.
  rewrite upd_other by lia.
  now destruct (nz (Z.land (I8259.icw c 1) 2)).
Qed.

Lemma i8259_write_icw3 (c : I8259_t) (w : Z) :
  I8259.icwstep c = 3 ->
  i8259_write c 1 w =
  I8259.set_icwstep (if nz (Z.land (I8259.icw c 1) 0x01) then 4 else 5)
    (I8259.set_icw (upd (I8259.icw c) 3 (u8 w)) c).
Proof.
  intros Hs. unfold i8259_write.
  change (Z.land (u16 1) 1 =? 0) with false. cbv iota zeta.
  rewrite Hs. cbn [Z.eqb Pos.eqb]. pic_fields.
  rewrite upd_other by lia.
  now destruct (nz (Z.land (I8259.icw c 1) 1)).
Qed.

Lemma i8259_write_icw4 (c : I8259_t) (w : Z) :
  I8259.icwstep c = 4 ->
  i8259_write c 1 w =
  I8259.set_icwstep 5 (I8259.set_icw (upd (I8259.icw c) 4 (u8 w)) c).
Proof.
  intros Hs. unfold i8259_write.
  change (Z.land (u16 1) 1 =? 0) with false. cbv iota zeta.
  rewrite Hs. reflexivity.
Qed.

Lemma i8259_write_mask (c : I8259_t) (w : Z) :
  I8259.icwstep c = 5 -> i8259_write c 1 w = I8259.set_imr (u8 w) c.
Proof.
  intros Hs. unfold i8259_write.
  change (Z.land (u16 1) 1 =? 0) with false. cbv iota zeta.
  rewrite Hs. reflexivity.
Qed.

(** X5.  The initialisation sequence.  A byte with bit 4 set written to
    port 0 is ICW1: it clears the mask and selects the request register
    for reading.  The next byte written to port 1 is ICW2, the vector
    base.  When ICW1 has bit 1 set the sequence ends there: neither ICW3
    nor ICW4 is taken, whatever bit 0 of ICW1 says, and the next byte
    written to port 1 is already the mask.  When bit 1 is clear ICW3
    follows, and after it ICW4 if bit 0 of ICW1 is set.  After these
    words the controller is in its operating state: a byte written to
    port 1 is the mask, and port 1 reads it back.  The request and
    in-service registers are not cleared by the sequence. *)
Theorem i8259_initialisation_sequence (c : I8259_t) (v w2 w3 w4 m : Z) :
  Z.land (u8 v) 0x10 <> 0 ->
  let c1 := i8259_write (i8259_write c 0 v) 1 w2 in
  let c2 := if nz (Z.land (u8 v) 0x02) then c1
            else if nz (Z.land (u8 v) 0x01)
                 then i8259_write (i8259_write c1 1 w3) 1 w4
                 else i8259_write c1 1 w3 in
  I8259.imr c2 = 0 /\ I8259.readmode c2 = 0 /\
  I8259.icw c2 2 = u8 w2 /\ I8259.icwstep c2 = 5 /\
  I8259.irr c2 = I8259.irr c /\ I8259.isr c2 = I8259.isr c /\
  i8259_read (i8259_write c2 1 m) 1 = u8 m /\
  I8259.icw (i8259_write c2 1 m) 2 = u8 w2 /\
  (Z.land (u8 v) 0x02 <> 0 ->
   I8259.icwstep c1 = 5 /\
   I8259.imr (i8259_write c1 1 m) = u8 m /\
   I8259.icw (i8259_write c1 1 m) 3 = I8259.icw c 3 /\
   I8259.icw (i8259_write c1 1 m) 4 = I8259.icw c 4).
Proof.
  intros Hv. cbv zeta. rewrite (i8259_write_icw1 c v Hv).
  rewrite i8259_write_icw2 by reflexivity. pic_fields. rewrite upd_same.
  destruct (nz (Z.land (u8 v) 2)) eqn:H2.
  - rewrite i8259_write_mask by reflexivity. unfold i8259_read.
    change (Z.land (u16 1) 1 =? 0) with false. pic_fields.
    rewrite upd_same, !(upd_other _ _ 3), !(upd_other _ _ 4) by lia.
    repeat split.
  - assert (Hno : ~ Z.land (u8 v) 2 <> 0)
      by (apply nz_false in H2; intros C; now apply C).
    match goal with
    | |- context [i8259_write ?x 1 w3] =>
        rewrite (i8259_write_icw3 x w3 eq_refl)
    end.
    pic_fields. rewrite (upd_other _ 2 1), upd_same by lia.
    destruct (nz (Z.land (u8 v) 1)) eqn:H1.
    + match goal with
      | |- context [i8259_write ?x 1 w4] =>
          rewrite (i8259_write_icw4 x w4 eq_refl)
      end.
      rewrite i8259_write_mask by reflexivity. unfold i8259_read.
      change (Z.land (u16 1) 1 =? 0) with false. pic_fields.
      rewrite !(upd_other _ _ 2), upd_same by lia.
      repeat split; try reflexivity; try contradiction.
    + rewrite i8259_write_mask by reflexivity. unfold i8259_read.
      change (Z.land (u16 1) 1 =? 0) with false. pic_fields.
      rewrite !(upd_other _ _ 2), upd_same by lia.
      repeat split; try reflexivity; try contradiction.
Qed.

(** X6.  Register selection for reading.  A byte with bit 4 clear and
    bits 3 and 1 set written to port 0 is OCW3 with a read command: port
    0 then reads the in-service register when bit 0 of the byte is set,
    the request register when it is clear; the registers themselves are
    not changed by the write. *)
Theorem i8259_read_register_select (c : I8259_t) (v : Z) :
  0 <= v < 0x100 ->
  Z.land v 0x10 = 0 -> Z.land v 0x08 <> 0 -> Z.land v 0x02 <> 0 ->
  i8259_read (i8259_write c 0 v) 0 =
    (if Z.land v 1 =? 0 then I8259.irr c else I8259.isr c) /\
  I8259.irr (i8259_write c 0 v) = I8259.irr c /\
  I8259.isr (i8259_write c 0 v) = I8259.isr c /\
  I8259.imr (i8259_write c 0 v) = I8259.imr c.
Proof.
  intros Hv H4 H3 H1. unfold i8259_write, i8259_read.
  change (Z.land (u16 0) 1 =? 0) with true. cbv iota.
  rewrite (u8_small v Hv). rewrite H4. cbn [nz Z.eqb negb].
  apply Z.eqb_neq in H3. rewrite H3.
  apply nz_true in H1. rewrite H1. pic_fields. repeat split.
Qed.

(** * The keyboard controller *)

Ltac kbc_fields :=
  cbn [I8042.status I8042.command I8042.output_port I8042.output_buffer
       I8042.command_byte I8042.input_port I8042.buffer I8042.head
       I8042.tail I8042.keystate I8042.i8259
       I8042.set_status I8042.set_command I8042.set_output_port
       I8042.set_output_buffer I8042.set_command_byte I8042.set_buffer
       I8042.set_head I8042.set_tail
       Board.kbc Board.pics Board.cpu Board.port92_data
       Board.set_kbc Board.set_pics Board.set_cpu Board.set_port92_data
       kbc_update].

Ltac kbc_fields_all :=
  cbn [I8042.status I8042.command I8042.output_port I8042.output_buffer
       I8042.command_byte I8042.input_port I8042.buffer I8042.head
       I8042.tail I8042.keystate I8042.i8259
       I8042.set_status I8042.set_command I8042.set_output_port
       I8042.set_output_buffer I8042.set_command_byte I8042.set_buffer
       I8042.set_head I8042.set_tail
       Board.kbc Board.pics Board.cpu Board.port92_data
       Board.set_kbc Board.set_pics Board.set_cpu Board.set_port92_data
       kbc_update] in *.

Lemma next_index (i : Z) :
  0 <= u8 ((i + 1) mod KBC_BUFFER_SIZE) < KBC_BUFFER_SIZE.
Proof.
  unfold KBC_BUFFER_SIZE.
  assert (H : 0 <= (i + 1) mod 16 < 16) by (apply Z.mod_pos_bound; lia).
  rewrite u8_small by lia. exact H.
Qed.

Lemma i8259_doirq_not_slave (fuel : nat) (st : i8259_store) (p n : Z) :
  I8259.is_slave (st p) = 0 ->
  i8259_doirq (S fuel) st p n =
  Some (upd st p
          (I8259.set_irr
             (u8 (Z.lor (I8259.irr (st p))
                    (Z.land (Z.shiftl 1 (u8 n))
                       (Z.lnot (I8259.imr (st p)))))) (st p))).
Proof.
  intros Hs. cbn [i8259_doirq]. cbn [I8259.is_slave I8259.set_irr].
  now rewrite Hs.
Qed.

Lemma land1_bit0 (t : Z) : Z.land t 1 = Z.b2z (Z.testbit t 0).
Proof. rewrite <- (land1_testbit t 0) by lia. now rewrite Z.shiftr_0_r. Qed.

Lemma status_set_bit0 (s : Z) : Z.land (u8 (Z.lor s 1)) 1 = 1.
Proof.
  rewrite land1_bit0, u8_testbit, Z.lor_spec by lia.
  change (Z.testbit 1 0) with true. now rewrite orb_true_r.
Qed.

Lemma status_clear_bit0 (s : Z) : Z.land (u8 (Z.land s (Z.lnot 1))) 1 = 0.
Proof.
  rewrite land1_bit0, u8_testbit, Z.land_spec, Z.lnot_spec by lia.
  change (Z.testbit 1 0) with true. now rewrite andb_false_r.
Qed.

Lemma next_index_differs (h : Z) :
  0 <= h < KBC_BUFFER_SIZE ->
  (u8 ((h + 1) mod KBC_BUFFER_SIZE) =? h) = false.
Proof.
  unfold KBC_BUFFER_SIZE. intros Hh. apply Z.eqb_neq.
  assert (H : 0 <= (h + 1) mod 16 < 16) by (apply Z.mod_pos_bound; lia).
  rewrite u8_small by lia. zlia.
Qed.

(** What [i8042_send_scancode] does on an idle controller whose
    interrupt controller is not a slave. *)
Lemma send_scancode_idle (fuel : nat) (b : Board.t) (x : Z) :
  let k := Board.kbc b in
  let p := I8042.i8259 k in
  let c := Board.pics b p in
  ring_ok b -> I8042.head k = I8042.tail k ->
  Z.land (I8042.status k) 1 = 0 -> I8259.is_slave c = 0 ->
  i8042_send_scancode (S fuel) b x =
  Some
    (let k' := I8042.set_status (u8 (Z.lor (I8042.status k) 1))
                 (I8042.set_output_buffer (u8 x)
                    (I8042.set_head
                       (u8 ((I8042.head k + 1) mod KBC_BUFFER_SIZE))
                       (I8042.set_buffer
                          (upd (I8042.buffer k) (I8042.head k) (u8 x)) k)))
     in
     if nz (Z.land (I8042.command_byte k) 1)
     then Board.set_pics
            (upd (Board.pics b) p
               (I8259.set_irr
                  (u8 (Z.lor (I8259.irr c)
                         (Z.land (Z.shiftl 1 (u8 1))
                            (Z.lnot (I8259.imr c))))) c))
            (Board.set_kbc k' b)
     else Board.set_kbc k' b).
Proof.
  intros k p c [Hh Ht] He Hst Hs. unfold i8042_send_scancode.
  cbv zeta. fold k. rewrite <- He.
  rewrite next_index_differs by exact Hh. kbc_fields. rewrite Hst.
  cbn [nz Z.eqb negb].
  destruct (nz (Z.land (I8042.command_byte k) 1)); [|reflexivity].
  fold p. rewrite i8259_doirq_not_slave by exact Hs. reflexivity.
Qed.

(** X7.  A scancode through an idle controller (ring empty, output
    buffer free) whose interrupt controller is not a slave:
    [i8042_send_scancode] returns, marks the output buffer full, and,
    when the command byte has interrupts enabled and line 1 is unmasked,
    leaves line 1 requested; reading port 0x60 then returns the
    scancode, empties the ring and marks the output buffer free. *)
Theorem i8042_scancode_roundtrip (fuel : nat) (b : Board.t) (x : Z) :
  let k := Board.kbc b in
  let p := I8042.i8259 k in
  let c := Board.pics b p in
  ring_ok b -> I8042.head k = I8042.tail k ->
  Z.land (I8042.status k) 1 = 0 ->
  I8259.is_slave c = 0 -> 0 <= I8259.irr c < 0x100 ->
  exists b1 b2,
    i8042_send_scancode (S fuel) b x = Some b1 /\
    Z.land (I8042.status (Board.kbc b1)) 1 = 1 /\
    (Z.land (I8042.command_byte k) 1 <> 0 ->
     Z.testbit (I8259.imr c) 1 = false ->
     Z.testbit (I8259.irr (Board.pics b1 p)) 1 = true) /\
    i8042_read (S fuel) b1 0x60 = Some (u8 x, b2) /\
    I8042.head (Board.kbc b2) = I8042.tail (Board.kbc b2) /\
    Z.land (I8042.status (Board.kbc b2)) 1 = 0 /\
    Board.pics b2 = Board.pics b1 /\ Board.cpu b2 = Board.cpu b.
Proof.
  intros k p c Hok He Hst Hs Hirr.
  pose proof (send_scancode_idle fuel b x Hok He Hst Hs) as Hsend.
  cbv zeta in Hsend. fold k p c in Hsend.
  destruct Hok as [Hh Ht]. fold k in Hh, Ht.
  assert (Hne : (u8 ((I8042.head k + 1) mod KBC_BUFFER_SIZE)
                 =? I8042.tail k) = false).
  { rewrite <- He. now apply next_index_differs. }
  assert (Hnext : (u8 ((I8042.head k + 1) mod KBC_BUFFER_SIZE)
                   =? u8 ((I8042.tail k + 1) mod KBC_BUFFER_SIZE)) = true).
  { rewrite He. apply Z.eqb_refl. }
  destruct (nz (Z.land (I8042.command_byte k) 1)) eqn:Hcbv;
    (eexists; eexists; split; [exact Hsend|]); kbc_fields;
    (split; [apply status_set_bit0|]);
    (split;
     [intros Hcb Hm; apply nz_true in Hcb;
      try congruence;
      rewrite upd_same; cbn [I8259.irr I8259.set_irr];
      change (u8 1) with 1; rewrite latch_irr by (lia || assumption);
      apply Z.setbit_eq; lia|]);
    unfold i8042_read; change (u32 0x60 =? 0x64) with false;
    change (u32 0x60 =? 0x60) with true; cbv iota zeta; kbc_fields;
    rewrite Hne; cbn [negb]; kbc_fields; rewrite Hnext; cbn [negb andb bind];
    kbc_fields; rewrite He, upd_same;
    (split; [reflexivity|]);
    (split; [reflexivity|]);
    (split; [apply status_clear_bit0|]); split; reflexivity.
Qed.

Lemma next_next_differs (h : Z) :
  0 <= h < KBC_BUFFER_SIZE ->
  (u8 ((u8 ((h + 1) mod KBC_BUFFER_SIZE) + 1) mod KBC_BUFFER_SIZE) =? h)
  = false.
Proof.
  unfold KBC_BUFFER_SIZE. intros Hh. apply Z.eqb_neq.
  assert (H : 0 <= (h + 1) mod 16 < 16) by (apply Z.mod_pos_bound; lia).
  rewrite (u8_small ((h + 1) mod 16)) by lia.
  assert (H' : 0 <= ((h + 1) mod 16 + 1) mod 16 < 16)
    by (apply Z.mod_pos_bound; lia).
  rewrite u8_small by lia. zlia.
Qed.

(** X8.  Two scancodes sent to an idle controller that is polled (the
    command byte has interrupts disabled): the first read of port 0x60
    returns the first scancode, and so does the second read; the second
    scancode is returned by the third read. *)
Theorem i8042_first_scancode_is_read_twice
  (fuel : nat) (b : Board.t) (x y : Z) :
  let k := Board.kbc b in
  ring_ok b -> I8042.head k = I8042.tail k ->
  Z.land (I8042.status k) 1 = 0 -> Z.land (I8042.command_byte k) 1 = 0 ->
  (b1 <- i8042_send_scancode fuel b x ;;
   b2 <- i8042_send_scancode fuel b1 y ;;
   r1 <- i8042_read fuel b2 0x60 ;;
   r2 <- i8042_read fuel (snd r1) 0x60 ;;
   r3 <- i8042_read fuel (snd r2) 0x60 ;;
   Some (fst r1, fst r2, fst r3)) = Some (u8 x, u8 x, u8 y).
Proof.
  intros k [Hh Ht] He Hst Hcb. fold k in Hh, Ht.
  set (h := I8042.head k) in *.
  set (n1 := u8 ((h + 1) mod KBC_BUFFER_SIZE)).
  set (n2 := u8 ((n1 + 1) mod KBC_BUFFER_SIZE)).
  assert (H1 : (n1 =? h) = false) by now apply next_index_differs.
  assert (H2 : (n2 =? h) = false) by now apply next_next_differs.
  assert (H3 : (n2 =? n1) = false).
  { apply next_index_differs. apply next_index. }
  assert (H1' : (h =? n1) = false) by now rewrite Z.eqb_sym.
  unfold i8042_send_scancode at 1. cbv zeta. fold k. fold h. fold n1.
  rewrite <- He, H1. kbc_fields. rewrite Hst, Hcb. cbn [nz Z.eqb negb bind].
  unfold i8042_send_scancode. cbv zeta. kbc_fields.
  change (u8 ((n1 + 1) mod KBC_BUFFER_SIZE)) with n2.
  rewrite <- He, H2, status_set_bit0. cbn [nz Z.eqb Pos.eqb negb bind].
  unfold i8042_read at 1. change (u32 0x60 =? 0x64) with false.
  change (u32 0x60 =? 0x60) with true. cbv iota zeta. kbc_fields.
  rewrite <- He, H2. cbn [negb]. kbc_fields.
  change (u8 ((h + 1) mod KBC_BUFFER_SIZE)) with n1. rewrite H3. cbn [negb].
  rewrite Hcb. cbn [nz Z.eqb negb andb bind fst snd].
  unfold i8042_read at 1. change (u32 0x60 =? 0x64) with false.
  change (u32 0x60 =? 0x60) with true. cbv iota zeta. kbc_fields.
  rewrite H3. cbn [negb]. kbc_fields.
  change (u8 ((n1 + 1) mod KBC_BUFFER_SIZE)) with n2. rewrite Z.eqb_refl.
  cbn [negb andb bind fst snd].
  unfold i8042_read at 1. change (u32 0x60 =? 0x64) with false.
  change (u32 0x60 =? 0x60) with true. cbv iota zeta. kbc_fields.
  rewrite Z.eqb_refl. cbn [negb andb bind fst snd]. kbc_fields.
  rewrite ?Z.eqb_refl. cbn [negb andb bind fst snd].
  unfold upd. rewrite Z.eqb_refl, H1', Z.eqb_refl. reflexivity.
Qed.

(** * The A20 gate *)

Lemma real_address_a20
  (inner : CPU_t -> Z -> option CPU_t) (s : CPU_t) (seg off : Z) :
  protected_mode s = 0 ->
  0 <= seg < 0x10000 -> 0 <= off < 0x10000 ->
  get_real_address inner s seg off =
  Some (if a20_enabled s =? 0 then (Z.shiftl seg 4 + off) mod 2 ^ 20
        else Z.shiftl seg 4 + off, s).
Proof.
  intros Hpm Hseg Hoff.
  assert (Hsh : Z.shiftl seg 4 = seg * 16)
    by now rewrite Z.shiftl_mul_pow2 by lia.
  unfold get_real_address. rewrite Hpm. cbn [nz Z.eqb negb].
  rewrite (u16_small seg), (u16_small off) by assumption.
  rewrite u32_small by (rewrite Hsh; lia).
  unfold nz. destruct (a20_enabled s =? 0); cbn [negb].
  - now rewrite land_fffff_mod.
  - reflexivity.
Qed.

Lemma a20_bit (v : Z) :
  (Z.land (Z.shiftr v 1) 1 =? 0) = negb (Z.testbit v 1).
Proof. rewrite land1_testbit by lia. now destruct (Z.testbit v 1). Qed.

(** X9.  The A20 gate of the keyboard controller.  Command 0xD1
    written to port 0x64 followed by a byte written to port 0x60 stores
    the byte in the output port and sets the A20 line to bit 1 of the
    byte; nothing else of the processor changes.  A real-mode address is
    then formed without wrap-around when the bit is set and modulo 2^20
    when it is clear. *)
Theorem i8042_a20_gate
  (inner : CPU_t -> Z -> option CPU_t) (fuel : nat) (b : Board.t)
  (v seg off : Z) :
  protected_mode (Board.cpu b) = 0 ->
  0 <= seg < 0x10000 -> 0 <= off < 0x10000 ->
  exists b1 b2,
    i8042_write fuel b 0x64 0xD1 = Some b1 /\
    i8042_write fuel b1 0x60 v = Some b2 /\
    Board.cpu b2 =
      set_a20_enabled (Z.land (Z.shiftr (u8 v) 1) 1) (Board.cpu b) /\
    I8042.output_port (Board.kbc b2) = u8 v /\
    I8042.command (Board.kbc b2) = 0 /\
    get_real_address inner (Board.cpu b2) seg off =
      Some (if Z.testbit (u8 v) 1 then Z.shiftl seg 4 + off
            else (Z.shiftl seg 4 + off) mod 2 ^ 20, Board.cpu b2).
Proof.
  intros Hpm Hseg Hoff. eexists. eexists.
  split.
  { unfold i8042_write. change (u32 0x64 =? 0x64) with true.
    change (u8 0xD1) with 0xD1. cbv iota zeta. cbn [Z.eqb Pos.eqb].
    cbn [bind negb andb]. reflexivity. }
  split.
  { unfold i8042_write. change (u32 0x60 =? 0x64) with false.
    change (u32 0x60 =? 0x60) with true. cbv iota zeta. kbc_fields.
    cbn [nz Z.eqb Pos.eqb negb bind]. reflexivity. }
  kbc_fields. split; [reflexivity|]. split; [reflexivity|].
  split; [reflexivity|].
  rewrite real_address_a20 by (fields; assumption). fields.
  rewrite a20_bit. now destruct (Z.testbit (u8 v) 1).
Qed.

(** X10.  Port 0x92.  A byte written to it is read back from it, and
    sets the A20 line to its bit 1: a real-mode address is formed
    without wrap-around when the bit is set and modulo 2^20 when it is
    clear, so that FFFF:0010 is physical 0x100000 or 0. *)
Theorem port92_a20_gate
  (inner : CPU_t -> Z -> option CPU_t) (b : Board.t) (port v seg off : Z) :
  protected_mode (Board.cpu b) = 0 ->
  0 <= seg < 0x10000 -> 0 <= off < 0x10000 ->
  let b' := port92_write b port v in
  port92_read b' port = u8 v /\
  Board.cpu b' =
    set_a20_enabled (Z.land (Z.shiftr (u8 v) 1) 1) (Board.cpu b) /\
  get_real_address inner (Board.cpu b') seg off =
    Some (if Z.testbit (u8 v) 1 then Z.shiftl seg 4 + off
          else (Z.shiftl seg 4 + off) mod 2 ^ 20, Board.cpu b') /\
  get_real_address inner (Board.cpu b') 0xFFFF 0x10 =
    Some (if Z.testbit (u8 v) 1 then 0x100000 else 0, Board.cpu b').
Proof.
  intros Hpm Hseg Hoff b'. unfold b', port92_write, port92_read.
  cbv zeta. kbc_fields. split; [reflexivity|]. split; [reflexivity|].
  rewrite !real_address_a20 by (fields; (assumption || lia)). fields.
  rewrite a20_bit. now destruct (Z.testbit (u8 v) 1).
Qed.

(** X11.  Command 0xFE written to port 0x64 resets the processor.  The
    reset turns the A20 line off, whatever the controller's output port
    and the latch of port 0x92 hold: these keep their values, so port
    0x92 can read back a byte with bit 1 set while addresses wrap. *)
Theorem i8042_reset_command (fuel : nat) (b : Board.t) :
  exists b',
    i8042_write fuel b 0x64 0xFE = Some b' /\
    Board.cpu b' = cpu_reset (Board.cpu b) /\
    a20_enabled (Board.cpu b') = 0 /\
    (segregs (Board.cpu b') regcs, ip (Board.cpu b')) = (0xF000, 0xFFF0) /\
    port92_read b' 0x92 = port92_read b 0x92 /\
    I8042.output_port (Board.kbc b') = I8042.output_port (Board.kbc b) /\
    mem (Board.cpu b') = mem (Board.cpu b).
Proof.
  eexists. split.
  { unfold i8042_write. change (u32 0x64 =? 0x64) with true.
    change (u8 0xFE) with 0xFE. cbv iota zeta. cbn [Z.eqb Pos.eqb].
    cbn [bind negb andb]. reflexivity. }
  kbc_fields. repeat split.
Qed.

Ltac board_solve :=
  match goal with
  | H : board_ok ?b |- exists b', Some ?x = Some b' /\ board_ok b' =>
      exists x; split; [reflexivity|];
      unfold board_ok, ring_ok in *; kbc_fields_all; exact H
  end.

Lemma send_scancode_returns (fuel : nat) (b : Board.t) (x : Z) :
  board_ok b ->
  exists b', i8042_send_scancode (S fuel) b x = Some b' /\ board_ok b'.
Proof.
  intros Hok. unfold i8042_send_scancode. cbv zeta.
  destruct (u8 ((I8042.head (Board.kbc b) + 1) mod KBC_BUFFER_SIZE)
            =? I8042.tail (Board.kbc b)); [board_solve|].
  kbc_fields. destruct Hok as [[Hh Ht] Hs].
  destruct (negb (nz (Z.land (I8042.status (Board.kbc b)) 1))).
  - destruct (nz (Z.land (I8042.command_byte (Board.kbc b)) 1)).
    + rewrite i8259_doirq_not_slave by exact Hs. cbn [bind].
      eexists. split; [reflexivity|]. unfold board_ok, ring_ok.
      kbc_fields. rewrite upd_same. cbn [I8259.is_slave I8259.set_irr].
      split; [split; [apply next_index|exact Ht]|exact Hs].
    + eexists. split; [reflexivity|]. unfold board_ok, ring_ok.
      kbc_fields. split; [split; [apply next_index|exact Ht]|exact Hs].
  - eexists. split; [reflexivity|]. unfold board_ok, ring_ok.
    kbc_fields. split; [split; [apply next_index|exact Ht]|exact Hs].
Qed.

Lemma i8042_write_returns (fuel : nat) (b : Board.t) (port value : Z) :
  board_ok b ->
  exists b', i8042_write (S fuel) b port value = Some b' /\ board_ok b'.
Proof.
  intros Hok. unfold i8042_write. cbv zeta.
  destruct (u32 port =? 0x64).
  - set (b0 := kbc_update (I8042.set_command (u8 value)) _).
    assert (H0 : board_ok b0).
    { subst b0. unfold board_ok, ring_ok in *. kbc_fields_all. exact Hok. }
    clearbody b0.
    match goal with
    | |- exists b', bind ?m _ = _ /\ _ =>
        assert (H1 : exists b1, m = Some b1 /\ board_ok b1)
    end.
    { repeat match goal with
             | |- exists b1, (if ?c then _ else _) = _ /\ _ => destruct c
             end;
        try (apply send_scancode_returns; exact H0);
        board_solve. }
    destruct H1 as (b1 & -> & H1). cbn [bind].
    match goal with
    | |- exists b', (if ?c then _ else _) = _ /\ _ => destruct c
    end; board_solve.
  - destruct (u32 port =? 0x60); [|board_solve].
    destruct (nz (I8042.command (Board.kbc b)));
      [|apply send_scancode_returns; exact Hok].
    match goal with
    | |- exists b', bind ?m _ = _ /\ _ =>
        assert (H1 : exists b1, m = Some b1 /\ board_ok b1)
    end.
    { destruct (I8042.command (Board.kbc b) =? 0x60); [board_solve|].
      destruct (I8042.command (Board.kbc b) =? 0xD1).
      { eexists. split; [reflexivity|]. unfold board_ok, ring_ok in *.
        kbc_fields_all. exact Hok. }
      destruct (I8042.command (Board.kbc b) =? 0xD3); [board_solve|].
      destruct (I8042.command (Board.kbc b) =? 0xD4); [|board_solve].
      destruct (send_scancode_returns fuel b 0xFA Hok) as (b2 & -> & H2).
      cbn [bind]. destruct (u8 value =? 0xFF); [|board_solve].
      destruct (send_scancode_returns fuel b2 0xAA H2) as (b3 & -> & H3).
      cbn [bind]. apply send_scancode_returns. exact H3. }
    destruct H1 as (b1 & -> & H1). cbn [bind].
    eexists. split; [reflexivity|]. unfold board_ok, ring_ok in *.
    kbc_fields_all. exact H1.
Qed.

Lemma i8042_read_returns (fuel : nat) (b : Board.t) (port : Z) :
  board_ok b ->
  exists d b', i8042_read (S fuel) b port = Some (d, b') /\ board_ok b'.
Proof.
  intros Hok. unfold i8042_read. cbv zeta.
  destruct (u32 port =? 0x64).
  { eexists. eexists. split; [reflexivity|exact Hok]. }
  destruct (u32 port =? 0x60).
  2:{ eexists. eexists. split; [reflexivity|exact Hok]. }
  destruct Hok as [[Hh Ht] Hs].
  destruct (negb (I8042.head (Board.kbc b) =? I8042.tail (Board.kbc b)));
    kbc_fields;
    match goal with
    | |- context [bind (if ?c then _ else _) _] => destruct c
    end;
    rewrite ?i8259_doirq_not_slave by exact Hs; cbn [bind];
    eexists; eexists; (split; [reflexivity|]);
    unfold board_ok, ring_ok; kbc_fields;
    rewrite ?upd_same; cbn [I8259.is_slave I8259.set_irr];
    (split; [split; [exact Hh|first [apply next_index|exact Ht]]|exact Hs]).
Qed.

(** X12.  The ring of the keyboard controller stays in bounds.  On a
    board whose ring indices are below [KBC_BUFFER_SIZE] and whose
    interrupt controller is not a slave, [i8042_send_scancode],
    [i8042_write] and [i8042_read] return, and leave such a board; so
    [buffer] is never indexed outside its sixteen entries.
    [i8042_init] sets up such a board. *)
Theorem i8042_ring_stays_in_bounds
  (fuel : nat) (b : Board.t) (port value : Z) :
  board_ok b ->
  (exists b', i8042_send_scancode (S fuel) b value = Some b' /\ board_ok b')
  /\
  (exists b', i8042_write (S fuel) b port value = Some b' /\ board_ok b') /\
  (exists d b', i8042_read (S fuel) b port = Some (d, b') /\ board_ok b') /\
  (forall keystate, board_ok (i8042_init b (I8042.i8259 (Board.kbc b))
                                keystate)).
Proof.
  intros Hok. split; [now apply send_scancode_returns|].
  split; [now apply i8042_write_returns|].
  split; [now apply i8042_read_returns|].
  intros keystate. unfold board_ok, ring_ok, i8042_init, KBC_BUFFER_SIZE.
  cbv zeta. kbc_fields. split; [lia|apply Hok].
Qed.

(** * Division *)

(** AH and then AL written: AX is the two bytes, whatever it held. *)
Lemma set_ah_al (r q : Z) (s : CPU_t) (i : Z) :
  wordregs (set_bytereg regal q (set_bytereg regah r s)) i =
  if i =? regax then u8 q + 0x100 * u8 r else wordregs s i.
Proof.
  unfold set_bytereg. fields.
  change (regah / 2) with regax. change (regal / 2) with regax.
  change (Z.odd regah) with true. change (Z.odd regal) with false.
  cbv iota. rewrite upd_same.
  assert (E : Z.lor (Z.land (Z.lor (Z.land (wordregs s regax) 0x00FF)
                               (Z.shiftl (u8 r) 8)) 0xFF00) (u8 q)
              = u8 q + 0x100 * u8 r).
  { pose proof (u8_range q) as Hq. pose proof (u8_range r) as Hr.
    apply Z.bits_inj'. intros j Hj.
    assert (Hdis : Z.land (u8 q) (Z.shiftl (u8 r) 8) = 0).
    { apply Z.bits_inj'. intros k Hk. rewrite Z.land_spec, Z.bits_0.
      destruct (Z.lt_ge_cases k 8).
      - rewrite Z.shiftl_spec_low by lia. apply andb_false_r.
      - rewrite (range8_testbit_high (u8 q)) by lia. reflexivity. }
    assert (Hsum : u8 q + 0x100 * u8 r = Z.lor (u8 q) (Z.shiftl (u8 r) 8)).
    { rewrite <- (Z.lxor_lor _ _ Hdis), <- (Z.add_nocarry_lxor _ _ Hdis).
      rewrite Z.shiftl_mul_pow2 by lia. change (2 ^ 8) with 0x100. lia. }
    rewrite Hsum.
    repeat (rewrite Z.lor_spec || rewrite Z.land_spec).
    change 0xFF00 with (Z.shiftl (Z.ones 8) 8).
    change 0x00FF with (Z.ones 8).
    destruct (Z.lt_ge_cases j 8).
    - rewrite !Z.shiftl_spec_low by lia. rewrite !andb_false_r.
      now rewrite orb_false_l, orb_false_r.
    - rewrite Z.ones_spec_high by lia.
      rewrite (range8_testbit_high (u8 q)) by lia.
      rewrite !Z.shiftl_spec by lia.
      destruct (Z.lt_ge_cases (j - 8) 8).
      + rewrite Z.ones_spec_low by lia.
        now rewrite andb_false_r, andb_true_r, orb_false_l, orb_false_r.
      + rewrite Z.ones_spec_high by lia.
        rewrite (range8_testbit_high (u8 r)) by lia.
        now rewrite !andb_false_r. }
  rewrite E. unfold upd. now destruct (i =? regax).
Qed.

Lemma byteregs_al_ah (s : CPU_t) (q r : Z) :
  0 <= q < 0x100 -> 0 <= r < 0x100 ->
  wordregs s regax = q + 0x100 * r ->
  byteregs s regal = q /\ byteregs s regah = r.
Proof.
  intros Hq Hr E. unfold byteregs.
  change (regah / 2) with regax. change (regal / 2) with regax.
  change (Z.odd regah) with true. change (Z.odd regal) with false.
  cbv iota zeta. rewrite E. change 0xFF with (Z.ones 8).
  rewrite !Z.land_ones, Z.shiftr_div_pow2 by lia.
  change (2 ^ 8) with 0x100. split; zlia.
Qed.


(** X14.  The divide error.  A zero divisor, or a quotient that does not
    fit the destination, makes [op_div8] and [op_div16] raise vector 0 on
    the state as it is: no register is written first. *)
Theorem op_div_raises_vector_0
  (inner : CPU_t -> Z -> option CPU_t) (s : CPU_t) (valdiv divisor : Z) :
  (0 <= valdiv < 0x10000 -> 0 <= divisor < 0x100 ->
   divisor = 0 \/ 0xFF < valdiv / divisor ->
   op_div8 inner s valdiv divisor = inner s 0) /\
  (0 <= valdiv < 0x100000000 -> 0 <= divisor < 0x10000 ->
   divisor = 0 \/ 0xFFFF < valdiv / divisor ->
   op_div16 inner s valdiv divisor = inner s 0).
Proof.
  split; intros Hv Hd H.
  - unfold op_div8.
    rewrite (u16_small valdiv), (u8_small divisor) by lia.
    rewrite (u16_small divisor) by lia.
    destruct (Z.eqb_spec divisor 0) as [E|E]; [reflexivity|].
    destruct (Z.ltb_spec 0xFF (valdiv / divisor)) as [_|E']; [reflexivity|].
    lia.
  - unfold op_div16.
    rewrite (u32_small valdiv), (u16_small divisor) by lia.
    rewrite (u32_small divisor) by lia.
    destruct (Z.eqb_spec divisor 0) as [E|E]; [reflexivity|].
    destruct (Z.ltb_spec 0xFFFF (valdiv / divisor)) as [_|E'];
      [reflexivity|].
    lia.
Qed.

Lemma land_pow2 (x i : Z) :
  0 <= i -> Z.land x (2 ^ i) = if Z.testbit x i then 2 ^ i else 0.
Proof.
  intros Hi. apply Z.bits_inj'. intros j Hj. rewrite Z.land_spec.
  destruct (Z.eq_dec j i) as [->|Hne].
  - rewrite Z.pow2_bits_true by lia.
    destruct (Z.testbit x i); [now rewrite Z.pow2_bits_true by lia|].
    now rewrite Z.bits_0.
  - rewrite Z.pow2_bits_false by congruence. rewrite andb_false_r.
    destruct (Z.testbit x i); [now rewrite Z.pow2_bits_false by congruence|].
    now rewrite Z.bits_0.
Qed.

Lemma nz_land_pow2 (x i : Z) :
  0 <= i -> nz (Z.land x (2 ^ i)) = Z.testbit x i.
Proof.
  intros Hi. rewrite land_pow2 by exact Hi.
  destruct (Z.testbit x i); [|reflexivity].
  apply nz_true. apply Z.pow_nonzero; lia.
Qed.

(** The top bit of a value of [w + 1] bits. *)
Lemma testbit_top (x w : Z) :
  0 <= w -> 0 <= x < 2 ^ (w + 1) -> Z.testbit x w = (2 ^ w <=? x).
Proof.
  intros Hw Hx.
  assert (Hp : 0 < 2 ^ w) by (apply Z.pow_pos_nonneg; lia).
  replace (2 ^ (w + 1)) with (2 * 2 ^ w) in Hx
    by (rewrite Z.pow_add_r by lia; change (2 ^ 1) with 2; lia).
  destruct (Z.leb_spec (2 ^ w) x) as [H|H].
  - apply Z.testbit_true; [lia|].
    replace (x / 2 ^ w) with 1; [reflexivity|].
    apply Z.div_unique with (x - 2 ^ w); lia.
  - apply Z.testbit_false; [lia|]. now rewrite Z.div_small by lia.
Qed.

(** X15.  Signed byte division as the code has it.  [op_idiv8] takes
    the dividend as a signed word but the divisor as an unsigned byte,
    1 to 255: it divides truncating toward zero, AL is the quotient and
    AH the remainder (with the sign of the dividend), both as bytes, and
    no other register changes.  A quotient of magnitude up to 255 is
    accepted; a larger one raises vector 0 with no register written. *)
Theorem op_idiv8_takes_the_divisor_unsigned
  (inner : CPU_t -> Z -> option CPU_t) (s : CPU_t) (valdiv divisor : Z) :
  0 <= valdiv < 0x10000 -> 0 < divisor < 0x100 ->
  let n := if valdiv <? 0x8000 then valdiv else valdiv - 0x10000 in
  (Z.abs (Z.quot n divisor) <= 0xFF ->
   exists s',
     op_idiv8 inner s valdiv divisor = Some s' /\
     byteregs s' regal = u8 (Z.quot n divisor) /\
     byteregs s' regah = u8 (Z.rem n divisor) /\
     (forall r, r <> regax -> wordregs s' r = wordregs s r)) /\
  (0xFF < Z.abs (Z.quot n divisor) ->
   op_idiv8 inner s valdiv divisor = inner s 0).
Proof.
  intros Hv Hd n.
  set (m := Z.abs n).
  assert (Hm : 0 <= m <= 0x8000) by (unfold m, n; destruct (valdiv <? 0x8000) eqn:E; [apply Z.ltb_lt in E|apply Z.ltb_ge in E]; lia).
  assert (Hq : Z.abs (Z.quot n divisor) = m / divisor).
  { unfold m. destruct (Z.le_gt_cases 0 n) as [Hn|Hn].
    - rewrite Z.quot_div_nonneg by lia. rewrite !Z.abs_eq; try lia.
      apply Z.div_pos; lia.
    - replace n with (- (- n)) at 1 by lia.
      rewrite Z.quot_opp_l by lia. rewrite Z.abs_opp.
      rewrite Z.quot_div_nonneg by lia.
      rewrite (Z.abs_neq n) by lia. apply Z.abs_eq. apply Z.div_pos; lia. }
  (* the operands the function divides *)
  assert (E1 : u16 (if valdiv <? 0x8000 then valdiv
                    else Z.land (Z.lnot valdiv + 1) 0xffff) = m).
  { unfold m, n. change 0xffff with (Z.ones 16).
    destruct (Z.ltb_spec valdiv 0x8000) as [H|H].
    - rewrite u16_small, Z.abs_eq by lia. reflexivity.
    - rewrite Z.land_ones by lia. unfold Z.lnot, u16.
      change (2 ^ 16) with 0x10000. rewrite Z.mod_mod by lia.
      rewrite Z.abs_neq by lia. zlia. }
  assert (E2 : u16 (if u16 divisor <? 0x8000 then u16 divisor
                    else Z.land (Z.lnot (u16 divisor) + 1) 0xffff)
               = divisor).
  { rewrite (u16_small divisor) by lia.
    destruct (Z.ltb_spec divisor 0x8000) as [_|H]; [|lia].
    apply u16_small. lia. }
  assert (Hsign : nz (Z.land (Z.lxor valdiv (u16 divisor)) 0x8000)
                  = negb (valdiv <? 0x8000)).
  { change 0x8000 with (2 ^ 15). rewrite nz_land_pow2 by lia.
    rewrite Z.lxor_spec, (u16_small divisor) by lia.
    rewrite (testbit_top valdiv 15), (testbit_top divisor 15)
      by (change (2 ^ (15 + 1)) with 0x10000; lia).
    change (2 ^ 15) with 0x8000.
    destruct (Z.leb_spec 0x8000 divisor) as [H|_]; [lia|].
    rewrite xorb_false_r.
    destruct (Z.leb_spec 0x8000 valdiv), (Z.ltb_spec valdiv 0x8000);
      (reflexivity || lia). }
  assert (Hdiv : 0 <= m / divisor <= 0x8000).
  { split; [apply Z.div_pos; lia|].
    apply Z.le_trans with m; [|lia]. apply Z.div_le_upper_bound; nia. }
  assert (Hmod : 0 <= m mod divisor < divisor)
    by (apply Z.mod_pos_bound; lia).
  assert (Hhigh : nz (Z.land (u16 (m / divisor)) 0xFF00)
                  = (0xFF <? m / divisor)).
  { rewrite (u16_small (m / divisor)) by lia.
    rewrite land_high_byte by lia. unfold nz.
    destruct (Z.ltb_spec 0xFF (m / divisor)) as [H1|H1].
    - apply negb_true_iff, Z.eqb_neq. zlia.
    - apply negb_false_iff, Z.eqb_eq. zlia. }
  unfold op_idiv8. cbv zeta.
  rewrite (u16_small valdiv), (u8_small divisor) by lia.
  destruct (Z.eqb_spec divisor 0) as [E|_]; [lia|].
  rewrite E1, E2, Hsign, Hhigh, Hq.
  split.
  - intros Hfit.
    destruct (Z.ltb_spec 0xFF (m / divisor)) as [H|_]; [lia|].
    eexists. split; [reflexivity|].
    match goal with
    | |- byteregs (set_bytereg regal ?q (set_bytereg regah ?r s)) _ = _ /\ _
      => assert (Eax : wordregs (set_bytereg regal q (set_bytereg regah r s))
                         regax = u8 q + 0x100 * u8 r)
           by (rewrite set_ah_al; reflexivity);
         destruct (byteregs_al_ah _ (u8 q) (u8 r) (u8_range q) (u8_range r)
                     Eax) as [-> ->]
    end.
    split; [|split].
    + destruct (Z.ltb_spec valdiv 0x8000) as [H|H]; cbn [negb].
      * unfold n. destruct (Z.ltb_spec valdiv 0x8000); [|lia].
        rewrite Z.quot_div_nonneg by lia.
        unfold m, n. destruct (Z.ltb_spec valdiv 0x8000); [|lia].
        rewrite Z.abs_eq by lia. rewrite u8_idem.
        rewrite (u16_small (valdiv / divisor)); [reflexivity|].
        unfold m, n in Hdiv. destruct (Z.ltb_spec valdiv 0x8000); [|lia].
        rewrite Z.abs_eq in Hdiv by lia. lia.
      * change 0xff with (Z.ones 8). rewrite Z.land_ones by lia.
        rewrite (u16_small (m / divisor)) by lia.
        assert (En : Z.quot n divisor = - (m / divisor)).
        { unfold m. replace n with (- (- n)) at 1 by lia.
          assert (n < 0) by (unfold n;
            destruct (Z.ltb_spec valdiv 0x8000); lia).
          rewrite Z.quot_opp_l by lia.
          rewrite Z.quot_div_nonneg by lia.
          now rewrite (Z.abs_neq n) by lia. }
        rewrite En. unfold u8, u16, Z.lnot. change (2 ^ 8) with 0x100.
        zlia.
    + destruct (Z.ltb_spec valdiv 0x8000) as [H|H]; cbn [negb].
      * unfold n. destruct (Z.ltb_spec valdiv 0x8000); [|lia].
        rewrite Z.rem_mod_nonneg by lia.
        unfold m, n. destruct (Z.ltb_spec valdiv 0x8000); [|lia].
        rewrite Z.abs_eq by lia. rewrite u8_idem.
        rewrite (u16_small (valdiv mod divisor)); [reflexivity|].
        unfold m, n in Hmod. destruct (Z.ltb_spec valdiv 0x8000); [|lia].
        rewrite Z.abs_eq in Hmod by lia. lia.
      * change 0xff with (Z.ones 8). rewrite Z.land_ones by lia.
        rewrite (u16_small (m mod divisor)) by lia.
        assert (En : Z.rem n divisor = - (m mod divisor)).
        { unfold m. replace n with (- (- n)) at 1 by lia.
          assert (n < 0) by (unfold n;
            destruct (Z.ltb_spec valdiv 0x8000); lia).
          rewrite Z.rem_opp_l by lia.
          rewrite Z.rem_mod_nonneg by lia.
          now rewrite (Z.abs_neq n) by lia. }
        rewrite En. unfold u8, u16, Z.lnot. change (2 ^ 8) with 0x100.
        zlia.
    + intros r Hne. rewrite set_ah_al.
      destruct (Z.eqb_spec r regax); [contradiction|reflexivity].
  - intros Hbig.
    destruct (Z.ltb_spec 0xFF (m / divisor)) as [_|H]; [reflexivity|lia].
Qed.

(** * Shifts and rotates *)

Lemma set_cf_set_cf (c c' : Z) (st : CPU_t) :
  set_cf c (set_cf c' st) = set_cf c st.
Proof. reflexivity. Qed.

(** A loop whose body reads and writes the carry flag only is a loop on
    the pair of [s] and the carry flag. *)
Lemma grp2_loop_pure (body : Z * CPU_t -> Z * CPU_t) (pb : Z * Z -> Z * Z) :
  (forall s st,
     body (s, st) =
     (fst (pb (s, cf st)), set_cf (snd (pb (s, cf st))) st)) ->
  forall n s st,
    Nat.iter n body (s, st) =
    match n with
    | O => (s, st)
    | S _ => (fst (Nat.iter n pb (s, cf st)),
              set_cf (snd (Nat.iter n pb (s, cf st))) st)
    end.
Proof.
  intros Hb n. induction n as [|n IH]; intros s st; [reflexivity|].
  rewrite Nat.iter_succ, IH. destruct n as [|n].
  - apply Hb.
  - rewrite Hb, (Nat.iter_succ (S n)).
    generalize (Nat.iter (S n) pb (s, cf st)). intros [a b].
    cbn [fst snd]. change (cf (set_cf b st)) with b. reflexivity.
Qed.

(** The pure bodies of the loops of SHL and SHR. *)
Lemma shl8_iter (n : nat) (a c : Z) :
  0 <= a < 0x100 ->
  Nat.iter n
    (fun p : Z * Z =>
       (u16 (Z.land (Z.shiftl (fst p) 1) 0xFF),
        if nz (Z.land (fst p) 0x80) then 1 else 0)) (a, c) =
  ((a * 2 ^ Z.of_nat n) mod 0x100,
   match n with
   | O => c
   | S _ => (a * 2 ^ Z.of_nat n / 0x100) mod 2
   end).
Proof.
  intros Ha. induction n as [|n IH].
  - change (Z.of_nat 0) with 0. rewrite Z.pow_0_r, Z.mul_1_r. cbn [Nat.iter nat_rect].
    now rewrite Z.mod_small by lia.
  - rewrite Nat.iter_succ, IH. cbn [fst snd].
    rewrite Nat2Z.inj_succ, Z.pow_succ_r by lia.
    set (X := a * 2 ^ Z.of_nat n).
    assert (HX : 0 <= X) by (unfold X; apply Z.mul_nonneg_nonneg;
                             [lia|apply Z.pow_nonneg; lia]).
    replace (a * (2 * 2 ^ Z.of_nat n)) with (2 * X) by (unfold X; lia).
    f_equal.
    + change 0xFF with (Z.ones 8). rewrite Z.land_ones by lia.
      rewrite Z.shiftl_mul_pow2 by lia. change (2 ^ 8) with 0x100.
      change (2 ^ 1) with 2. unfold u16. zlia.
    + change 0x80 with (2 ^ 7). rewrite nz_land_pow2 by lia.
      destruct (Z.testbit (X mod 0x100) 7) eqn:E.
      * apply Z.testbit_true in E; [|lia]. change (2 ^ 7) with 128 in E.
        zlia.
      * apply Z.testbit_false in E; [|lia]. change (2 ^ 7) with 128 in E.
        zlia.
Qed.

Lemma shr_iter (n : nat) (a c : Z) :
  0 <= a ->
  Nat.iter n
    (fun p : Z * Z => (Z.shiftr (fst p) 1, Z.land (fst p) 1)) (a, c) =
  (a / 2 ^ Z.of_nat n,
   match n with
   | O => c
   | S m => (a / 2 ^ Z.of_nat m) mod 2
   end).
Proof.
  intros Ha. induction n as [|n IH].
  - change (Z.of_nat 0) with 0. rewrite Z.pow_0_r, Z.div_1_r. reflexivity.
  - rewrite Nat.iter_succ, IH. cbn [fst snd].
    rewrite Nat2Z.inj_succ, Z.pow_succ_r by lia.
    f_equal.
    + rewrite Z.shiftr_div_pow2 by lia. change (2 ^ 1) with 2.
      rewrite Z.div_div by (try lia; apply Z.pow_pos_nonneg; lia).
      f_equal. lia.
    + change 1 with (Z.ones 1). rewrite Z.land_ones by lia. reflexivity.
Qed.

Lemma cf_flag_szp8 (s : CPU_t) (v : Z) : cf (flag_szp8 s v) = cf s.
Proof.
  unfold flag_szp8. cbv zeta.
  destruct (negb (nz (u8 v))), (nz (Z.land (u8 v) 0x80)); reflexivity.
Qed.

Lemma cf_flag_szp16 (s : CPU_t) (v : Z) : cf (flag_szp16 s v) = cf s.
Proof.
  unfold flag_szp16. cbv zeta.
  destruct (negb (nz (u16 v))), (nz (Z.land (u16 v) 0x8000)); reflexivity.
Qed.

Lemma count_mask (cnt : Z) : 0 <= Z.land cnt 0x1F < 32.
Proof.
  change 0x1F with (Z.ones 5). rewrite Z.land_ones by lia.
  change (2 ^ 5) with 32. zlia.
Qed.

(** X16.  SHL and SHR on a byte.  With the count taken modulo 32,
    [op_grp2_8] returns the operand times 2^count modulo 256 for SHL
    (reg 4 or 6) and the operand divided by 2^count for SHR (reg 5); for
    a count that is not 0 the carry flag is the last bit shifted out,
    bit 8 of the product or bit [count - 1] of the operand, and for a
    count of 0 it keeps its value. *)
Theorem op_grp2_8_shl_shr (st : CPU_t) (cnt : Z) :
  0 <= oper1b st < 0x100 -> 0 <= cnt < 0x100 ->
  let a := oper1b st in
  let k := Z.land cnt 0x1F in
  (reg st = 4 \/ reg st = 6 ->
   fst (op_grp2_8 st cnt) = (a * 2 ^ k) mod 0x100 /\
   cf (snd (op_grp2_8 st cnt)) =
     (if k =? 0 then cf st else (a * 2 ^ k / 0x100) mod 2)) /\
  (reg st = 5 ->
   fst (op_grp2_8 st cnt) = a / 2 ^ k /\
   cf (snd (op_grp2_8 st cnt)) =
     (if k =? 0 then cf st else (a / 2 ^ (k - 1)) mod 2)).
Proof.
  intros Ha Hc a k. pose proof (count_mask cnt) as Hk. fold k in Hk.
  assert (Ek : Z.of_nat (Z.to_nat k) = k) by lia.
  split.
  - intros Hreg. unfold op_grp2_8. cbv zeta.
    rewrite (u8_small cnt), (u16_small (oper1b st)) by lia. fold k a.
    assert (R : ((reg st =? 4) || (reg st =? 6)) = true)
      by (destruct Hreg as [-> | ->]; reflexivity).
    assert (R0 : (reg st =? 0) = false)
      by (destruct Hreg as [-> | ->]; reflexivity).
    assert (R1 : (reg st =? 1) = false)
      by (destruct Hreg as [-> | ->]; reflexivity).
    assert (R2 : (reg st =? 2) = false)
      by (destruct Hreg as [-> | ->]; reflexivity).
    assert (R3 : (reg st =? 3) = false)
      by (destruct Hreg as [-> | ->]; reflexivity).
    rewrite R0, R1, R2, R3, R. unfold grp2_loop.
    rewrite (grp2_loop_pure _
               (fun p : Z * Z =>
                  (u16 (Z.land (Z.shiftl (fst p) 1) 0xFF),
                   if nz (Z.land (fst p) 0x80) then 1 else 0)))
      by (intros s0 st0; cbn [fst snd];
          destruct (nz (Z.land s0 0x80)); reflexivity).
    rewrite shl8_iter by exact Ha. rewrite Ek.
    destruct (Z.to_nat k) as [|n] eqn:En.
    + assert (k = 0) by lia. replace k with 0 by lia.
      cbn [fst snd]. rewrite cf_flag_szp8.
      change (0 =? 0) with true. cbv iota. rewrite Z.pow_0_r, Z.mul_1_r.
      change 0xFF with (Z.ones 8). rewrite !Z.land_ones by lia.
      change (2 ^ 8) with 0x100.
      split; [reflexivity|].
      destruct ((0 =? 1) && (cf st =? Z.shiftr a 7)); reflexivity.
    + assert (Hk0 : (k =? 0) = false) by (apply Z.eqb_neq; lia).
      rewrite Hk0. cbn [fst snd]. rewrite cf_flag_szp8.
      change 0xFF with (Z.ones 8). rewrite !Z.land_ones by lia.
      change (2 ^ 8) with 0x100. rewrite Z.mod_mod by lia.
      split; [reflexivity|].
      match goal with
      | |- cf (if ?b then _ else _) = _ => destruct b
      end; reflexivity.
  - intros Hreg. unfold op_grp2_8. cbv zeta.
    rewrite (u8_small cnt), (u16_small (oper1b st)) by lia. fold k a.
    rewrite Hreg. cbn [Z.eqb Pos.eqb orb]. unfold grp2_loop.
    rewrite (grp2_loop_pure _
               (fun p : Z * Z => (Z.shiftr (fst p) 1, Z.land (fst p) 1)))
      by (intros s0 st0; reflexivity).
    rewrite shr_iter by lia.
    assert (Hq : 0 <= a / 2 ^ k <= a).
    { split; [apply Z.div_pos; [lia|apply Z.pow_pos_nonneg; lia]|].
      apply Z.div_le_upper_bound; [apply Z.pow_pos_nonneg; lia|].
      assert (0 < 2 ^ k) by (apply Z.pow_pos_nonneg; lia). nia. }
    destruct (Z.to_nat k) as [|n] eqn:En.
    + assert (k = 0) by lia. replace k with 0 by lia.
      cbn [fst snd]. rewrite cf_flag_szp8.
      change (Z.of_nat 0) with 0.
      change (0 =? 0) with true. cbv iota. rewrite Z.pow_0_r, Z.div_1_r.
      change 0xFF with (Z.ones 8). rewrite !Z.land_ones by lia.
      change (2 ^ 8) with 0x100. rewrite Z.mod_small by lia.
      split; [reflexivity|].
      destruct ((0 =? 1) && nz (Z.land a 0x80)); reflexivity.
    + assert (Hk0 : (k =? 0) = false) by (apply Z.eqb_neq; lia).
      rewrite Hk0. cbn [fst snd]. rewrite cf_flag_szp8.
      replace (Z.of_nat (S n)) with k by lia.
      replace (Z.of_nat n) with (k - 1) by lia.
      change 0xFF with (Z.ones 8). rewrite !Z.land_ones by lia.
      change (2 ^ 8) with 0x100. rewrite Z.mod_small by lia.
      split; reflexivity.
Qed.

Lemma shl16_iter (n : nat) (a c : Z) :
  0 <= a < 0x10000 ->
  Nat.iter n
    (fun p : Z * Z =>
       (Z.land (u32 (Z.shiftl (fst p) 1)) 0xFFFF,
        if nz (Z.land (fst p) 0x8000) then 1 else 0)) (a, c) =
  ((a * 2 ^ Z.of_nat n) mod 0x10000,
   match n with
   | O => c
   | S _ => (a * 2 ^ Z.of_nat n / 0x10000) mod 2
   end).
Proof.
  intros Ha. induction n as [|n IH].
  - change (Z.of_nat 0) with 0. rewrite Z.pow_0_r, Z.mul_1_r.
    cbn [Nat.iter nat_rect]. now rewrite Z.mod_small by lia.
  - rewrite Nat.iter_succ, IH. cbn [fst snd].
    rewrite Nat2Z.inj_succ, Z.pow_succ_r by lia.
    set (X := a * 2 ^ Z.of_nat n).
    assert (HX : 0 <= X) by (unfold X; apply Z.mul_nonneg_nonneg;
                             [lia|apply Z.pow_nonneg; lia]).
    replace (a * (2 * 2 ^ Z.of_nat n)) with (2 * X) by (unfold X; lia).
    f_equal.
    + change 0xFFFF with (Z.ones 16). rewrite Z.land_ones by lia.
      rewrite Z.shiftl_mul_pow2 by lia. change (2 ^ 16) with 0x10000.
      change (2 ^ 1) with 2. unfold u32. zlia.
    + change 0x8000 with (2 ^ 15). rewrite nz_land_pow2 by lia.
      destruct (Z.testbit (X mod 0x10000) 15) eqn:E.
      * apply Z.testbit_true in E; [|lia]. change (2 ^ 15) with 32768 in E.
        zlia.
      * apply Z.testbit_false in E; [|lia]. change (2 ^ 15) with 32768 in E.
        zlia.
Qed.

(** X17.  SHL and SHR on a word: [op_grp2_16] returns the operand times
    2^count modulo 65536 for SHL and the operand divided by 2^count for
    SHR, the count taken modulo 32, with the carry flag the last bit
    shifted out when the count is not 0 and unchanged when it is. *)
Theorem op_grp2_16_shl_shr (st : CPU_t) (cnt : Z) :
  0 <= oper1 st < 0x10000 -> 0 <= cnt < 0x100 ->
  let a := oper1 st in
  let k := Z.land cnt 0x1F in
  (reg st = 4 \/ reg st = 6 ->
   fst (op_grp2_16 st cnt) = (a * 2 ^ k) mod 0x10000 /\
   cf (snd (op_grp2_16 st cnt)) =
     (if k =? 0 then cf st else (a * 2 ^ k / 0x10000) mod 2)) /\
  (reg st = 5 ->
   fst (op_grp2_16 st cnt) = a / 2 ^ k /\
   cf (snd (op_grp2_16 st cnt)) =
     (if k =? 0 then cf st else (a / 2 ^ (k - 1)) mod 2)).
Proof.
  intros Ha Hc a k. pose proof (count_mask cnt) as Hk. fold k in Hk.
  assert (Ek : Z.of_nat (Z.to_nat k) = k) by lia.
  split.
  - intros Hreg. unfold op_grp2_16. cbv zeta.
    rewrite (u8_small cnt), (u32_small (oper1 st)) by lia. fold k a.
    assert (R : ((reg st =? 4) || (reg st =? 6)) = true)
      by (destruct Hreg as [-> | ->]; reflexivity).
    assert (R0 : (reg st =? 0) = false)
      by (destruct Hreg as [-> | ->]; reflexivity).
    assert (R1 : (reg st =? 1) = false)
      by (destruct Hreg as [-> | ->]; reflexivity).
    assert (R2 : (reg st =? 2) = false)
      by (destruct Hreg as [-> | ->]; reflexivity).
    assert (R3 : (reg st =? 3) = false)
      by (destruct Hreg as [-> | ->]; reflexivity).
    rewrite R0, R1, R2, R3, R. unfold grp2_loop.
    rewrite (grp2_loop_pure _
               (fun p : Z * Z =>
                  (Z.land (u32 (Z.shiftl (fst p) 1)) 0xFFFF,
                   if nz (Z.land (fst p) 0x8000) then 1 else 0)))
      by (intros s0 st0; cbn [fst snd];
          destruct (nz (Z.land s0 0x8000)); reflexivity).
    rewrite shl16_iter by exact Ha. rewrite Ek.
    destruct (Z.to_nat k) as [|n] eqn:En.
    + assert (k = 0) by lia. replace k with 0 by lia.
      cbn [fst snd]. rewrite cf_flag_szp16.
      change (0 =? 0) with true. cbv iota. rewrite Z.pow_0_r, Z.mul_1_r.
      rewrite (u16_small a) by exact Ha.
      change 0xFFFF with (Z.ones 16). rewrite !Z.land_ones by lia.
      change (2 ^ 16) with 0x10000.
      split; [reflexivity|].
      destruct ((0 =? 1) && (cf st =? Z.shiftr a 15)); reflexivity.
    + assert (Hk0 : (k =? 0) = false) by (apply Z.eqb_neq; lia).
      rewrite Hk0. cbn [fst snd]. rewrite cf_flag_szp16.
      assert (Hm : 0 <= (a * 2 ^ k) mod 0x10000 < 0x10000)
        by (apply Z.mod_pos_bound; lia).
      rewrite (u16_small _ Hm).
      change 0xFFFF with (Z.ones 16). rewrite !Z.land_ones by lia.
      change (2 ^ 16) with 0x10000. rewrite Z.mod_mod by lia.
      split; [reflexivity|].
      match goal with
      | |- cf (if ?b then _ else _) = _ => destruct b
      end; reflexivity.
  - intros Hreg. unfold op_grp2_16. cbv zeta.
    rewrite (u8_small cnt), (u32_small (oper1 st)) by lia. fold k a.
    rewrite Hreg. cbn [Z.eqb Pos.eqb orb]. unfold grp2_loop.
    rewrite (grp2_loop_pure _
               (fun p : Z * Z => (Z.shiftr (fst p) 1, Z.land (fst p) 1)))
      by (intros s0 st0; reflexivity).
    rewrite shr_iter by lia.
    assert (Hq : 0 <= a / 2 ^ k <= a).
    { split; [apply Z.div_pos; [lia|apply Z.pow_pos_nonneg; lia]|].
      apply Z.div_le_upper_bound; [apply Z.pow_pos_nonneg; lia|].
      assert (0 < 2 ^ k) by (apply Z.pow_pos_nonneg; lia). nia. }
    destruct (Z.to_nat k) as [|n] eqn:En.
    + assert (k = 0) by lia. replace k with 0 by lia.
      cbn [fst snd]. rewrite cf_flag_szp16.
      change (Z.of_nat 0) with 0.
      change (0 =? 0) with true. cbv iota. rewrite Z.pow_0_r, Z.div_1_r.
      rewrite (u16_small a) by exact Ha.
      change 0xFFFF with (Z.ones 16). rewrite !Z.land_ones by lia.
      change (2 ^ 16) with 0x10000. rewrite Z.mod_small by lia.
      split; [reflexivity|].
      destruct ((0 =? 1) && nz (Z.land a 0x8000)); reflexivity.
    + assert (Hk0 : (k =? 0) = false) by (apply Z.eqb_neq; lia).
      rewrite Hk0. cbn [fst snd]. rewrite cf_flag_szp16.
      replace (Z.of_nat (S n)) with k by lia.
      replace (Z.of_nat n) with (k - 1) by lia.
      rewrite (u16_small (a / 2 ^ k)) by lia.
      change 0xFFFF with (Z.ones 16). rewrite !Z.land_ones by lia.
      change (2 ^ 16) with 0x10000. rewrite Z.mod_small by lia.
      split; reflexivity.
Qed.

(** A loop body that reads [s] only. *)
Lemma iter_fst_only (f g : Z -> Z) (n : nat) (a c : Z) :
  fst (Nat.iter n (fun p : Z * Z => (f (fst p), g (fst p))) (a, c)) =
  Nat.iter n f a.
Proof.
  induction n as [|n IH]; [reflexivity|].
  rewrite !Nat.iter_succ. cbn [fst]. now rewrite IH.
Qed.

(** The rotations of all bytes by all counts, by enumeration. *)
Lemma rol_ror8_table :
  all_below 256 (fun a =>
    all_below 32 (fun k =>
      let rol :=
        Z.land
          (Nat.iter (Z.to_nat k)
             (fun s => u16 (Z.lor (u16 (Z.shiftl s 1))
                              (if nz (Z.land s 0x80) then 1 else 0))) a)
          0xFF in
      (rol =? Z.land (Z.lor (Z.shiftl a (k mod 8))
                            (Z.shiftr a (8 - k mod 8))) 0xFF)
      && (Z.land
            (Nat.iter (Z.to_nat k)
               (fun s => u16 (Z.lor (Z.shiftr s 1)
                                (Z.shiftl (Z.land s 1) 7))) rol)
            0xFF =? a))) = true.
Proof. vm_compute. reflexivity. Qed.

(** X18.  ROL and ROR on a byte.  [op_grp2_8] with reg 0 rotates the
    operand left by the count modulo 8 (the count first taken modulo
    32), and [op_grp2_8] with reg 1 and the same count on the result
    gives the operand back. *)
Theorem op_grp2_8_rol_ror (st st' : CPU_t) (cnt : Z) :
  0 <= oper1b st < 0x100 -> 0 <= cnt < 0x100 ->
  reg st = 0 -> reg st' = 1 -> oper1b st' = fst (op_grp2_8 st cnt) ->
  let a := oper1b st in
  let k := Z.land cnt 0x1F in
  fst (op_grp2_8 st cnt) =
    Z.land (Z.lor (Z.shiftl a (k mod 8)) (Z.shiftr a (8 - k mod 8))) 0xFF /\
  fst (op_grp2_8 st' cnt) = a.
Proof.
  intros Ha Hc Hr Hr' Hop a k. pose proof (count_mask cnt) as Hk.
  fold k in Hk.
  pose proof (all_below_spec 256 _ rol_ror8_table a Ha) as T.
  cbv beta in T.
  pose proof (all_below_spec 32 _ T k Hk) as T'. cbv beta zeta in T'.
  apply andb_prop in T'. destruct T' as [T1 T2].
  apply Z.eqb_eq in T1. apply Z.eqb_eq in T2.
  assert (E : fst (op_grp2_8 st cnt) =
              Z.land
                (Nat.iter (Z.to_nat k)
                   (fun s => u16 (Z.lor (u16 (Z.shiftl s 1))
                                    (if nz (Z.land s 0x80) then 1 else 0)))
                   a) 0xFF).
  { unfold op_grp2_8. cbv zeta.
    rewrite (u8_small cnt), (u16_small (oper1b st)) by lia. fold k a.
    rewrite Hr. cbn [Z.eqb]. unfold grp2_loop.
    rewrite (grp2_loop_pure _
               (fun p : Z * Z =>
                  (u16 (Z.lor (u16 (Z.shiftl (fst p) 1))
                          (if nz (Z.land (fst p) 0x80) then 1 else 0)),
                   if nz (Z.land (fst p) 0x80) then 1 else 0)))
      by (intros s0 st0; cbn [fst snd];
          destruct (nz (Z.land s0 0x80)); reflexivity).
    rewrite <- (iter_fst_only
                  (fun s => u16 (Z.lor (u16 (Z.shiftl s 1))
                                   (if nz (Z.land s 0x80) then 1 else 0)))
                  (fun s => if nz (Z.land s 0x80) then 1 else 0)
                  (Z.to_nat k) a (cf st)).
    destruct (Z.to_nat k); reflexivity. }
  split; [now rewrite E|].
  assert (E' : fst (op_grp2_8 st' cnt) =
               Z.land
                 (Nat.iter (Z.to_nat k)
                    (fun s => u16 (Z.lor (Z.shiftr s 1)
                                     (Z.shiftl (Z.land s 1) 7)))
                    (u16 (oper1b st'))) 0xFF).
  { unfold op_grp2_8. cbv zeta. rewrite (u8_small cnt) by lia. fold k.
    rewrite Hr'. cbn [Z.eqb Pos.eqb]. unfold grp2_loop.
    rewrite (grp2_loop_pure _
               (fun p : Z * Z =>
                  (u16 (Z.lor (Z.shiftr (fst p) 1)
                          (Z.shiftl (Z.land (fst p) 1) 7)),
                   Z.land (fst p) 1)))
      by (intros s0 st0; reflexivity).
    rewrite <- (iter_fst_only
                  (fun s => u16 (Z.lor (Z.shiftr s 1)
                                   (Z.shiftl (Z.land s 1) 7)))
                  (fun s => Z.land s 1) (Z.to_nat k) _ (cf st')).
    destruct (Z.to_nat k); reflexivity. }
  rewrite E', Hop, E.
  match goal with
  | |- context [u16 (Z.land ?x 0xFF)] =>
      assert (Hu : u16 (Z.land x 0xFF) = Z.land x 0xFF)
  end.
  { apply u16_small. change 0xFF with (Z.ones 8).
    rewrite Z.land_ones by lia. change (2 ^ 8) with 0x100. zlia. }
  rewrite Hu. exact T2.
Qed.

(** * The stack *)

Lemma lor_low_high (lo hi : Z) :
  0 <= lo < 0x100 -> Z.lor lo (Z.shiftl hi 8) = lo + 0x100 * hi.
Proof.
  intros Hlo.
  assert (Hdis : Z.land lo (Z.shiftl hi 8) = 0).
  { apply Z.bits_inj'. intros k Hk. rewrite Z.land_spec, Z.bits_0.
    destruct (Z.lt_ge_cases k 8).
    - rewrite Z.shiftl_spec_low by lia. apply andb_false_r.
    - rewrite (range8_testbit_high lo) by lia. reflexivity. }
  rewrite <- (Z.lxor_lor _ _ Hdis), <- (Z.add_nocarry_lxor _ _ Hdis).
  rewrite Z.shiftl_mul_pow2 by lia. change (2 ^ 8) with 0x100. lia.
Qed.

Lemma u32_succ_differs (a : Z) : u32 (u32 a + 1) <> u32 (u32 a).
Proof. unfold u32. zlia. Qed.

(** A word written to memory is the word read back from the address. *)
Lemma mem_readw_writew (m : Z -> Z) (a x : Z) :
  mem_readw (mem_writew m a x) a = u16 x.
Proof.
  unfold mem_readw, mem_writew.
  rewrite upd_same, (upd_other _ (u32 (u32 a + 1)) (u32 (u32 a)))
    by (intros E; symmetry in E; revert E; apply u32_succ_differs).
  rewrite upd_same. rewrite !u8_idem.
  pose proof (u16_range x) as Hx. pose proof (u8_range (u16 x)) as Hlo.
  assert (Hhi : u8 (Z.shiftr (u16 x) 8) = u16 x / 0x100).
  { rewrite Z.shiftr_div_pow2 by lia. change (2 ^ 8) with 0x100.
    apply u8_small. zlia. }
  rewrite Hhi, (u16_small (u8 (u16 x))) by lia.
  rewrite (u16_small (Z.shiftl _ 8))
    by (rewrite Z.shiftl_mul_pow2 by lia; change (2 ^ 8) with 0x100; zlia).
  rewrite lor_low_high by exact Hlo. unfold u8, u16 in *. zlia.
Qed.

Section Stack.

Variable seg_address :
  Z -> Z -> (Z -> Z) -> (Z -> DESCRIPTOR_CACHE) -> Z -> Z -> Z.

(** [pop] after [push]. *)
Lemma pop_push (s : CPU_t) (v : Z) :
  0 <= wordregs s regsp < 0x10000 ->
  let r := pop seg_address (push seg_address s v) in
  let slot := u32 (seg_address (protected_mode s) (a20_enabled s)
                     (segregs s) (segcache s) (u16 (segregs s regss))
                     (u16 (wordregs s regsp - 2))) in
  fst r = u16 v /\
  (forall i, wordregs (snd r) i = wordregs s i) /\
  (forall a, a <> slot -> a <> u32 (slot + 1) ->
             mem (snd r) a = mem s a) /\
  segregs (snd r) = segregs s /\ ip (snd r) = ip s /\
  (cf (snd r), pf (snd r), af (snd r), zf (snd r), sf (snd r),
   tf (snd r), ifl (snd r), df (snd r), of_ (snd r)) =
  (cf s, pf s, af s, zf s, sf s, tf s, ifl s, df s, of_ s).
Proof.
  intros Hsp r slot. unfold r, pop, getmem16, mem_address.
  rewrite push_eq. fields. rewrite !upd_same, !u16_idem.
  rewrite cpu_readw_mem. fields. rewrite mem_cpu_writew.
  rewrite mem_readw_writew. split; [reflexivity|].
  split.
  { intros i. unfold set_wordreg. fields. unfold upd.
    destruct (Z.eqb_spec i regsp) as [->|_]; [|reflexivity].
    unfold u16. zlia. }
  split.
  { intros a Ha1 Ha2. unfold set_wordreg. fields. unfold mem_writew.
    assert (Hs : u32 slot = slot)
      by (unfold slot, u32; apply Z.mod_mod; lia).
    fold slot. rewrite Hs. now rewrite !upd_other by assumption. }
  unfold set_wordreg. fields. repeat split.
Qed.

(** X19.  [push] and then [pop].  The word popped is the word pushed,
    the stack pointer is back where it was, and apart from the two
    bytes of the stack slot the state after the pair is the state
    before: registers, segment registers and flags are untouched. *)
Theorem push_pop_roundtrip (s : CPU_t) (v : Z) :
  0 <= wordregs s regsp < 0x10000 ->
  let r := pop seg_address (push seg_address s v) in
  let slot := u32 (seg_address (protected_mode s) (a20_enabled s)
                     (segregs s) (segcache s) (u16 (segregs s regss))
                     (u16 (wordregs s regsp - 2))) in
  fst r = u16 v /\
  (forall i, wordregs (snd r) i = wordregs s i) /\
  (forall a, a <> slot -> a <> u32 (slot + 1) ->
             mem (snd r) a = mem s a) /\
  segregs (snd r) = segregs s /\ ip (snd r) = ip s /\
  (cf (snd r), pf (snd r), af (snd r), zf (snd r), sf (snd r),
   tf (snd r), ifl (snd r), df (snd r), of_ (snd r)) =
  (cf s, pf s, af s, zf s, sf s, tf s, ifl s, df s, of_ s).
Proof. exact (pop_push s v). Qed.



Lemma exec_push_reg (s : CPU_t) (r : Z) :
  0 <= r < 8 -> opcode s = 0x50 + r ->
  exec_push_pop seg_address s = Some (push seg_address s (wordregs s r)).
Proof.
  intros Hr Hop.
  assert (C : r = 0 \/ r = 1 \/ r = 2 \/ r = 3 \/ r = 4 \/ r = 5 \/ r = 6
              \/ r = 7) by lia.
  unfold exec_push_pop. rewrite Hop.
  repeat (destruct C as [->|C]; [reflexivity|]). subst r. reflexivity.
Qed.

Lemma exec_pop_reg (s : CPU_t) (r : Z) :
  0 <= r < 8 -> opcode s = 0x58 + r ->
  exec_push_pop seg_address s =
  Some (set_wordreg r (fst (pop seg_address s)) (snd (pop seg_address s))).
Proof.
  intros Hr Hop.
  assert (C : r = 0 \/ r = 1 \/ r = 2 \/ r = 3 \/ r = 4 \/ r = 5 \/ r = 6
              \/ r = 7) by lia.
  unfold exec_push_pop. rewrite Hop.
  repeat (destruct C as [->|C]; [reflexivity|]). subst r. reflexivity.
Qed.

(** X20.  PUSH and POP of the general registers (opcodes 0x50 to 0x5F,
    the register in the low three bits).  PUSH r stores the value the
    register has before the instruction, also for SP: the word stored
    by PUSH SP is the stack pointer before the decrement.  A POP into
    any register right after it loads that value; the stack pointer is
    then back where it was, unless it is the register popped into. *)
Theorem push_reg_then_pop_reg (s : CPU_t) (r1 r2 : Z) :
  0 <= r1 < 8 -> 0 <= r2 < 8 ->
  0 <= wordregs s regsp < 0x10000 ->
  opcode s = 0x50 + r1 ->
  exists s1 s2,
    exec_push_pop seg_address s = Some s1 /\
    getmem16 seg_address s1 (segregs s1 regss) (wordregs s1 regsp) =
      u16 (wordregs s r1) /\
    wordregs s1 regsp = u16 (wordregs s regsp - 2) /\
    exec_push_pop seg_address (set_opcode (0x58 + r2) s1) = Some s2 /\
    wordregs s2 r2 = u16 (wordregs s r1) /\
    (forall i, i <> r2 -> wordregs s2 i = wordregs s i).
Proof.
  intros Hr1 Hr2 Hsp Hop.
  pose proof (pop_push s (wordregs s r1) Hsp) as H. cbv zeta in H.
  destruct H as (Hv & Hw & _).
  exists (push seg_address s (wordregs s r1)). eexists.
  split; [now apply exec_push_reg|].
  split; [exact Hv|].
  split; [rewrite push_eq; fields; apply upd_same|].
  split; [apply exec_pop_reg; [exact Hr2|reflexivity]|].
  assert (E : pop seg_address
                (set_opcode (0x58 + r2)
                   (push seg_address s (wordregs s r1))) =
              (fst (pop seg_address (push seg_address s (wordregs s r1))),
               set_opcode (0x58 + r2)
                 (snd (pop seg_address
                         (push seg_address s (wordregs s r1)))))).
  { reflexivity. }
  rewrite E. cbn [fst snd]. rewrite Hv.
  set (s' := snd (pop seg_address (push seg_address s (wordregs s r1))))
    in *.
  assert (Ew : forall v i,
             wordregs (set_wordreg r2 v (set_opcode (0x58 + r2) s')) i =
             upd (wordregs s') r2 (u16 v) i) by reflexivity.
  rewrite Ew, upd_same. split; [apply u16_idem|].
  intros i Hi. rewrite Ew, upd_other by exact Hi. apply Hw.
Qed.

End Stack.

(** * The flag engine: addition, comparison, logic *)

Lemma cf_flag_adc8 (s : CPU_t) (v1 v2 v3 : Z) :
  cf (flag_adc8 s v1 v2 v3) =
  if nz (Z.land (u16 (u8 v1 + u8 v2 + u8 v3)) 0xFF00) then 1 else 0.
Proof.
  unfold flag_adc8.
  repeat match goal with
         | |- context [if ?b then _ else _] => destruct b
         end; reflexivity.
Qed.

Lemma cf_flag_adc16 (s : CPU_t) (v1 v2 v3 : Z) :
  cf (flag_adc16 s v1 v2 v3) =
  if nz (Z.land (u32 (u16 v1 + u16 v2 + u16 v3)) 0xFFFF0000) then 1 else 0.
Proof.
  unfold flag_adc16.
  repeat match goal with
         | |- context [if ?b then _ else _] => destruct b
         end; reflexivity.
Qed.

Lemma res8_flag_adc8 (s : CPU_t) (v1 v2 v3 : Z) :
  res8 (flag_adc8 s v1 v2 v3) = res8 s.
Proof.
  unfold flag_adc8, flag_szp8.
  repeat match goal with
         | |- context [if ?b then _ else _] => destruct b
         end; reflexivity.
Qed.

Lemma res16_flag_adc16 (s : CPU_t) (v1 v2 v3 : Z) :
  res16 (flag_adc16 s v1 v2 v3) = res16 s.
Proof.
  unfold flag_adc16, flag_szp16.
  repeat match goal with
         | |- context [if ?b then _ else _] => destruct b
         end; reflexivity.
Qed.

(** X21.  Add with carry is exact.  For operands in range and an
    incoming carry of 0 or 1, the result of [op_adc8] and the carry flag
    it leaves are together the sum: a + b + c = res8 + 256 * CF; and
    likewise [op_adc16] with 65536.  So, unlike SBB, ADC with an operand
    of all ones and the carry set does carry out. *)
Theorem op_adc_is_exact (s : CPU_t) :
  0 <= cf s <= 1 ->
  (0 <= oper1b s < 0x100 -> 0 <= oper2b s < 0x100 ->
   0 <= cf (op_adc8 s) <= 1 /\
   oper1b s + oper2b s + cf s = res8 (op_adc8 s) + 0x100 * cf (op_adc8 s)) /\
  (0 <= oper1 s < 0x10000 -> 0 <= oper2 s < 0x10000 ->
   0 <= cf (op_adc16 s) <= 1 /\
   oper1 s + oper2 s + cf s =
     res16 (op_adc16 s) + 0x10000 * cf (op_adc16 s)).
Proof.
  intros Hc. split; intros Ha Hb.
  - unfold op_adc8. cbv zeta. rewrite cf_flag_adc8, res8_flag_adc8.
    fields. rewrite !u8_small by lia.
    rewrite land_high_byte by apply u16_range.
    rewrite (u16_small (oper1b s + oper2b s + cf s)) by lia.
    destruct (nz _) eqn:E.
    + apply nz_true in E. split; [lia|]. unfold u8. zlia.
    + apply nz_false in E. split; [lia|]. unfold u8. zlia.
  - unfold op_adc16. cbv zeta. rewrite cf_flag_adc16, res16_flag_adc16.
    fields. rewrite !u16_small by lia.
    rewrite land_high_word by apply u32_range.
    rewrite (u32_small (oper1 s + oper2 s + cf s)) by lia.
    destruct (nz _) eqn:E.
    + apply nz_true in E. split; [lia|]. unfold u16. zlia.
    + apply nz_false in E. split; [lia|]. unfold u16. zlia.
Qed.

Lemma flags_flag_sub8 (s : CPU_t) (v1 v2 : Z) :
  let dst := u16 (u8 v1 - u8 v2) in
  zf (flag_sub8 s v1 v2) = (if negb (nz (u8 (u8 dst))) then 1 else 0) /\
  sf (flag_sub8 s v1 v2) =
    (if nz (Z.land (u8 (u8 dst)) 0x80) then 1 else 0) /\
  of_ (flag_sub8 s v1 v2) =
    (if nz (Z.land (Z.land (Z.lxor dst (u8 v1))
                      (Z.lxor (u8 v1) (u8 v2))) 0x80)
     then 1 else 0).
Proof.
  unfold flag_sub8, flag_szp8. cbv zeta.
  repeat match goal with
         | |- context [if ?b then _ else _] => destruct b
         end; repeat split.
Qed.

(** The flags of a byte comparison, for all pairs of bytes. *)
Lemma compare8_table :
  all_below 256 (fun a =>
    all_below 256 (fun b =>
      let dst := u16 (u8 a - u8 b) in
      let z := if negb (nz (u8 (u8 dst))) then 1 else 0 in
      let sg := if nz (Z.land (u8 (u8 dst)) 0x80) then 1 else 0 in
      let o := if nz (Z.land (Z.land (Z.lxor dst (u8 a))
                                (Z.lxor (u8 a) (u8 b))) 0x80)
               then 1 else 0 in
      let sa := if a <? 0x80 then a else a - 0x100 in
      let sb := if b <? 0x80 then b else b - 0x100 in
      Bool.eqb (z =? 1) (a =? b) && Bool.eqb (negb (sg =? o)) (sa <? sb)))
  = true.
Proof. vm_compute. reflexivity. Qed.

(** X22.  The flags of a byte comparison.  After [op_sub8] (SUB, and
    CMP, which runs it without storing the result) on bytes a and b:
    ZF is set exactly when a = b, CF exactly when a < b as unsigned
    numbers, and SF differs from OF exactly when a < b as signed
    numbers, so the conditional jumps that follow a comparison test
    what their names say. *)
Theorem op_sub8_comparison_flags (s : CPU_t) :
  0 <= oper1b s < 0x100 -> 0 <= oper2b s < 0x100 ->
  let a := oper1b s in
  let b := oper2b s in
  let signed x := if x <? 0x80 then x else x - 0x100 in
  (zf (op_sub8 s) = 1 <-> a = b) /\
  (cf (op_sub8 s) = 1 <-> a < b) /\
  (sf (op_sub8 s) <> of_ (op_sub8 s) <-> signed a < signed b) /\
  res8 (op_sub8 s) = (a - b) mod 0x100.
Proof.
  intros Ha Hb a b signed. unfold op_sub8. cbv zeta.
  pose proof (flags_flag_sub8
                (set_res8 (u8 (oper1b s - oper2b s)) s) a b) as F.
  cbv zeta in F. destruct F as (Fz & Fs & Fo).
  change (oper1b s) with a. change (oper2b s) with b.
  change (oper1b s) with a in Fz, Fs, Fo.
  change (oper2b s) with b in Fz, Fs, Fo.
  rewrite Fz, Fs, Fo. clear Fz Fs Fo.
  pose proof (all_below_spec 256 _ compare8_table a Ha) as T.
  cbv beta in T.
  pose proof (all_below_spec 256 _ T b Hb) as T'. cbv beta zeta in T'.
  apply andb_prop in T'. destruct T' as [T1 T2].
  apply Bool.eqb_prop in T1. apply Bool.eqb_prop in T2.
  split; [|split; [|split]].
  - rewrite <- Z.eqb_eq, T1. apply Z.eqb_eq.
  - rewrite flag_sub8_borrow by assumption. reflexivity.
  - fold (signed a) (signed b) in T2. rewrite <- Z.ltb_lt, <- T2.
    match goal with
    | |- ?x <> ?y <-> _ => destruct (Z.eqb_spec x y) as [E|E]
    end; cbn [negb]; split; (congruence || discriminate || tauto).
  - assert (E : forall v1 v2, res8 (flag_sub8 (set_res8 (u8 (a - b)) s)
                                      v1 v2) = u8 (a - b)).
    { intros v1 v2. unfold flag_sub8, flag_szp8. cbv zeta.
      repeat match goal with
             | |- context [if ?b then _ else _] => destruct b
             end; reflexivity. }
    apply E.
Qed.

Lemma flag_log8_fields (s : CPU_t) (v : Z) :
  cf (flag_log8 s v) = 0 /\ of_ (flag_log8 s v) = 0 /\
  af (flag_log8 s v) = af s /\
  zf (flag_log8 s v) = (if u8 v =? 0 then 1 else 0) /\
  sf (flag_log8 s v) = (if Z.testbit (u8 v) 7 then 1 else 0) /\
  pf (flag_log8 s v) = parity_at (u8 v) /\
  res8 (flag_log8 s v) = res8 s.
Proof.
  unfold flag_log8, flag_szp8. cbv zeta.
  change 0x80 with (2 ^ 7). rewrite nz_land_pow2 by lia. unfold nz.
  destruct (u8 v =? 0), (Z.testbit (u8 v) 7); repeat split.
Qed.

Lemma flag_log16_fields (s : CPU_t) (v : Z) :
  cf (flag_log16 s v) = 0 /\ of_ (flag_log16 s v) = 0 /\
  af (flag_log16 s v) = af s /\
  zf (flag_log16 s v) = (if u16 v =? 0 then 1 else 0) /\
  sf (flag_log16 s v) = (if Z.testbit (u16 v) 15 then 1 else 0) /\
  pf (flag_log16 s v) = parity_at (Z.land (u16 v) 255) /\
  res16 (flag_log16 s v) = res16 s.
Proof.
  unfold flag_log16, flag_szp16. cbv zeta.
  change 0x8000 with (2 ^ 15). rewrite nz_land_pow2 by lia. unfold nz.
  destruct (u16 v =? 0), (Z.testbit (u16 v) 15); repeat split.
Qed.

(** X23.  The logic operations.  [op_and8], [op_or8] and [op_xor8]
    leave the bitwise result in [res8], clear CF and OF, set ZF exactly
    when the result is 0 and SF to its top bit, and do not touch AF;
    the word forms do the same on [res16].  In particular XOR of a value
    with itself gives 0 with ZF set and CF clear. *)
Theorem logic_operations (s : CPU_t) :
  0 <= oper1b s < 0x100 -> 0 <= oper2b s < 0x100 ->
  0 <= oper1 s < 0x10000 -> 0 <= oper2 s < 0x10000 ->
  let flags8 (t : CPU_t) (r : Z) :=
    res8 t = r /\ cf t = 0 /\ of_ t = 0 /\ af t = af s /\
    zf t = (if r =? 0 then 1 else 0) /\
    sf t = (if Z.testbit r 7 then 1 else 0) in
  let flags16 (t : CPU_t) (r : Z) :=
    res16 t = r /\ cf t = 0 /\ of_ t = 0 /\ af t = af s /\
    zf t = (if r =? 0 then 1 else 0) /\
    sf t = (if Z.testbit r 15 then 1 else 0) in
  flags8 (op_and8 s) (Z.land (oper1b s) (oper2b s)) /\
  flags8 (op_or8 s) (Z.lor (oper1b s) (oper2b s)) /\
  flags8 (op_xor8 s) (Z.lxor (oper1b s) (oper2b s)) /\
  flags16 (op_and16 s) (Z.land (oper1 s) (oper2 s)) /\
  flags16 (op_or16 s) (Z.lor (oper1 s) (oper2 s)) /\
  flags16 (op_xor16 s) (Z.lxor (oper1 s) (oper2 s)) /\
  (oper1b s = oper2b s -> res8 (op_xor8 s) = 0 /\ zf (op_xor8 s) = 1).
Proof.
  intros Ha Hb Hc Hd flags8 flags16.
  assert (B8 : forall f : Z -> Z -> Z,
             (forall j, 8 <= j ->
                Z.testbit (f (oper1b s) (oper2b s)) j = false) ->
             u8 (f (oper1b s) (oper2b s)) = f (oper1b s) (oper2b s)).
  { intros f Hf. apply u8_small. apply range8_of_bits. exact Hf. }
  assert (R16 : forall x, (forall j, 16 <= j -> Z.testbit x j = false) ->
                          u16 x = x).
  { intros x Hx. unfold u16. change 0x10000 with (2 ^ 16).
    apply Z.bits_inj'. intros j Hj.
    destruct (Z.lt_ge_cases j 16).
    - apply Z.mod_pow2_bits_low. lia.
    - rewrite Z.mod_pow2_bits_high by lia. symmetry. now apply Hx. }
  assert (H16 : forall x j, 0 <= x < 0x10000 -> 16 <= j ->
                            Z.testbit x j = false).
  { intros x j Hx Hj. rewrite <- (u16_small x Hx). unfold u16.
    change 0x10000 with (2 ^ 16). apply Z.mod_pow2_bits_high. lia. }
  assert (E1 : u8 (Z.land (oper1b s) (oper2b s))
               = Z.land (oper1b s) (oper2b s)).
  { apply (B8 Z.land). intros j Hj. rewrite Z.land_spec.
    now rewrite (range8_testbit_high (oper1b s)) by lia. }
  assert (E2 : u8 (Z.lor (oper1b s) (oper2b s))
               = Z.lor (oper1b s) (oper2b s)).
  { apply (B8 Z.lor). intros j Hj. rewrite Z.lor_spec.
    now rewrite !range8_testbit_high by lia. }
  assert (E3 : u8 (Z.lxor (oper1b s) (oper2b s))
               = Z.lxor (oper1b s) (oper2b s)).
  { apply (B8 Z.lxor). intros j Hj. rewrite Z.lxor_spec.
    now rewrite !range8_testbit_high by lia. }
  assert (E4 : u16 (Z.land (oper1 s) (oper2 s))
               = Z.land (oper1 s) (oper2 s)).
  { apply R16. intros j Hj. rewrite Z.land_spec.
    now rewrite (H16 (oper1 s)) by lia. }
  assert (E5 : u16 (Z.lor (oper1 s) (oper2 s)) = Z.lor (oper1 s) (oper2 s)).
  { apply R16. intros j Hj. rewrite Z.lor_spec.
    now rewrite !H16 by lia. }
  assert (E6 : u16 (Z.lxor (oper1 s) (oper2 s))
               = Z.lxor (oper1 s) (oper2 s)).
  { apply R16. intros j Hj. rewrite Z.lxor_spec.
    now rewrite !H16 by lia. }
  unfold flags8, flags16, op_and8, op_or8, op_xor8, op_and16, op_or16,
    op_xor16. cbv zeta. fields.
  repeat match goal with
         | |- context [flag_log8 ?t ?v] =>
             let F := fresh "F" in
             pose proof (flag_log8_fields t v) as F;
             destruct F as (-> & -> & -> & -> & -> & _ & ->)
         | |- context [flag_log16 ?t ?v] =>
             let F := fresh "F" in
             pose proof (flag_log16_fields t v) as F;
             destruct F as (-> & -> & -> & -> & -> & _ & ->)
         end.
  fields. rewrite !u8_idem, !u16_idem, E1, E2, E3, E4, E5, E6.
  repeat split.
  - rewrite H. apply Z.lxor_nilpotent.
  - rewrite H, Z.lxor_nilpotent. reflexivity.
Qed.

(** * Interrupt requests reaching the processor *)

Lemma pending_nonzero (irr imr i : Z) :
  0 <= i -> Z.testbit irr i = true -> Z.testbit imr i = false ->
  Z.land irr (Z.lnot imr) <> 0.
Proof.
  intros Hi H1 H2 E.
  assert (B : Z.testbit (Z.land irr (Z.lnot imr)) i = true).
  { rewrite Z.land_spec, Z.lnot_spec, H1, H2 by lia. reflexivity. }
  rewrite E, Z.bits_0 in B. discriminate.
Qed.

Section InterruptLine.

Variable run_callback : callback -> CPU_t -> Z -> CPU_t.
Variable flags_word : Z -> Z -> Z -> Z -> Z -> Z -> Z -> Z -> Z -> Z.
Variable seg_address :
  Z -> Z -> (Z -> Z) -> (Z -> DESCRIPTOR_CACHE) -> Z -> Z -> Z.

(** X24.  [cpu_interruptCheck] with a request pending.  Let line [i] be
    the lowest requested and unmasked line of the controller, not the
    master's cascade line.  If a single-step trap is due or IF is clear,
    nothing happens: processor and controller are unchanged, and a
    halted processor stays halted.  Otherwise the controller
    acknowledges line [i], and the processor leaves the halt state and
    enters the dispatcher with the vector (ICW2 & 0xF8) + i. *)
Theorem cpu_interruptCheck_delivers (fuel pfuel : nat) (s : CPU_t)
  (st : i8259_store) (p i : Z) :
  let c := st p in
  0 <= I8259.irr c < 0x100 -> 0 <= I8259.isr c < 0x100 -> 0 <= i < 8 ->
  Z.testbit (I8259.irr c) i = true -> Z.testbit (I8259.imr c) i = false ->
  (forall j, 0 <= j < i -> Z.testbit (I8259.irr c) j = true ->
             Z.testbit (I8259.imr c) j = true) ->
  I8259.is_slave c <> 0 \/ i <> 2 ->
  cpu_interruptCheck run_callback flags_word seg_address fuel (S pfuel)
    s st p =
  if nz (trap_toggle s) || negb (nz (ifl s)) then Some (s, st)
  else
    option_map
      (fun s' =>
         (s', upd st p (I8259.set_isr (Z.setbit (I8259.isr c) i)
                          (I8259.set_irr (Z.clearbit (I8259.irr c) i) c))))
      (cpu_intcall run_callback flags_word seg_address fuel
         (set_hltstate 0 s) (u8 (Z.land (I8259.icw c 2) 0xF8 + i))).
Proof.
  intros c Hirr Hisr Hi Hreq Hmask Hlow Hcas.
  unfold cpu_interruptCheck. fold c.
  assert (Hp : nz (Z.land (I8259.irr c) (Z.lnot (I8259.imr c))) = true).
  { apply nz_true. apply (pending_nonzero _ _ i); [lia|assumption..]. }
  rewrite Hp.
  destruct (nz (trap_toggle s)); cbn [negb andb orb]; [reflexivity|].
  destruct (nz (ifl s)); cbn [negb andb orb]; [|reflexivity].
  rewrite (nextintr_lowest_request pfuel st p i Hirr Hisr Hi Hreq Hmask
             Hlow Hcas).
  fold c. cbn [bind fst snd].
  destruct (cpu_intcall _ _ _ fuel _ _); reflexivity.
Qed.

(** X25.  Registering an interrupt callback.  After
    [cpu_registerIntCallback] for vector [v], the dispatcher on [v]
    runs that callback, in protected mode as in real mode, instead of
    entering a handler through the vector table, and then clears the
    fault latch; the registrations of the other vectors are as before;
    and [cpu_reset] removes every registration. *)
Theorem registered_callback_runs (fuel : nat) (s : CPU_t) (v : Z)
  (cb : callback) :
  handling_fault s = 0 -> 0 <= v < 0x100 -> v <> 0x15 ->
  let s1 := cpu_registerIntCallback s v cb in
  cpu_intcall run_callback flags_word seg_address (S fuel) s1 v =
    Some (set_handling_fault 0
            (run_callback cb
               (if is_fault_vector v then set_handling_fault 1 s1 else s1)
               v)) /\
  (forall w, 0 <= w < 0x100 -> w <> v ->
             int_callback s1 w = int_callback s w) /\
  (forall w, int_callback (cpu_reset s1) w = None).
Proof.
  intros Hl Hv Hne s1. split; [|split].
  - apply callback_runs_with_latch; try assumption.
    unfold s1, cpu_registerIntCallback. fields.
    rewrite (u8_small v) by assumption. apply upd_same.
  - intros w Hw Hwv. unfold s1, cpu_registerIntCallback. fields.
    rewrite (u8_small v) by assumption. now apply upd_other.
  - intros w. reflexivity.
Qed.

End InterruptLine.

(** * The task register and the local descriptor table register *)

Lemma lor_2_byte (a : Z) : 0 <= a < 0x100 -> u8 (Z.lor a 2) = Z.lor a 2.
Proof.
  intros Ha. apply u8_small. apply range8_of_bits. intros j Hj.
  rewrite Z.lor_spec, (range8_testbit_high a) by lia.
  change 2 with (2 ^ 1). rewrite Z.pow2_bits_eqb by lia.
  destruct (Z.eqb_spec 1 j); [lia|reflexivity].
Qed.

Section TaskRegister.

Variable intcall : CPU_t -> Z -> option CPU_t.

(** X26.  [load_tr].  A null selector raises vector 0.  A selector
    that names a descriptor inside its table, of type 1 or 3 (an
    available or an already busy task state segment) and present, is
    loaded: TR holds the selector, the cache holds limit and base of the
    descriptor, the access byte with the busy bit set, and the ring-0
    stack pointer and segment read from offsets 2 and 4 of the segment;
    the busy bit is also written back to the descriptor in memory, and
    no other byte of memory and no register changes.  No fault is
    raised, also when the segment was busy before. *)
Theorem load_tr_loads_and_marks_busy (s : CPU_t) (sel : Z) :
  0 <= sel < 0x10000 ->
  (Z.land sel 0xFFFC = 0 -> load_tr intcall s sel = intcall s 0) /\
  (forall tb tl,
     Z.land sel 0xFFFC <> 0 ->
     selector_table s sel = Some (tb, tl) ->
     Z.shiftr sel 3 * 8 + 7 <= tl ->
     let addr := u32 (tb + Z.shiftr sel 3 * 8) in
     let a := cpu_read s (addr + 5) in
     let b := read_24bit_base s (addr + 2) in
     Z.land a 0x0F = 1 \/ Z.land a 0x0F = 3 ->
     Z.testbit a 7 = true ->
     exists s',
       load_tr intcall s sel = Some s' /\
       tr s' = sel /\
       tr_cache s' =
         mkCache b (cpu_readw s addr) (Z.lor a 2) 1
           (cpu_readw s (b + 2)) (cpu_readw s (b + 4)) /\
       cpu_read s' (addr + 5) = Z.lor a 2 /\
       (forall q, q <> u32 (addr + 5) -> mem s' q = mem s q) /\
       wordregs s' = wordregs s /\ segregs s' = segregs s /\
       segcache s' = segcache s /\ ip s' = ip s /\
       handling_fault s' = handling_fault s).
Proof.
  intros Hsel. split.
  - intros Hnull. unfold load_tr. rewrite (u16_small sel) by assumption.
    rewrite Hnull. reflexivity.
  - intros tb tl Hnn Htab Hlim addr a b Htype Hpres.
    unfold load_tr. rewrite (u16_small sel) by assumption. cbv zeta.
    destruct (Z.eqb_spec (Z.land sel 0xFFFC) 0) as [E|_]; [contradiction|].
    rewrite Htab.
    destruct (Z.ltb_spec tl (Z.shiftr sel 3 * 8 + 7)) as [E|_]; [lia|].
    fold addr. fold a.
    assert (Ht : negb (Z.land a 15 =? 1) && negb (Z.land a 15 =? 3)
                 = false).
    { destruct Htype as [-> | ->]; reflexivity. }
    rewrite Ht.
    assert (Hp : nz (Z.land a 0x80) = true).
    { change 0x80 with (2 ^ 7). rewrite nz_land_pow2 by lia. exact Hpres. }
    rewrite Hp. cbn [negb].
    assert (Ha : 0 <= a < 0x100) by apply u8_range.
    eexists. split; [reflexivity|].
    unfold cpu_write, set_sp0, set_ss0. fields.
    rewrite (lor_2_byte a Ha).
    split; [reflexivity|]. split; [reflexivity|].
    split.
    { unfold cpu_read. fields. rewrite upd_same. apply lor_2_byte, Ha. }
    split.
    { intros q Hq. now apply upd_other. }
    repeat split.
Qed.

(** X27.  [load_ldtr].  A null selector marks the cached local table
    invalid and raises nothing.  Otherwise, at privilege level 0, a
    selector within the global table's limit that names a present
    descriptor of type 2 fills the cache with the descriptor's limit,
    base and access byte and marks it valid.  In neither case is the
    LDTR register itself written, nor the memory, nor any other
    register. *)
Theorem load_ldtr_fills_only_the_cache (s : CPU_t) (sel : Z) :
  0 <= sel < 0x10000 ->
  let same (s' : CPU_t) :=
    ldtr s' = ldtr s /\ mem s' = mem s /\ wordregs s' = wordregs s /\
    segregs s' = segregs s /\ segcache s' = segcache s /\
    tr s' = tr s /\ tr_cache s' = tr_cache s /\ gdtr s' = gdtr s in
  (Z.land sel 0xFFFC = 0 ->
   exists s', load_ldtr intcall s sel = Some s' /\
     valid (ldtr_cache s') = 0 /\
     base (ldtr_cache s') = base (ldtr_cache s) /\
     limit (ldtr_cache s') = limit (ldtr_cache s) /\ same s') /\
  (Z.land sel 0xFFFC <> 0 ->
   Z.land (segregs s regcs) 3 = 0 ->
   Z.land sel 0xFFFC <= DT.limit (gdtr s) ->
   let addr := u32 (DT.base (gdtr s) + Z.shiftr sel 3 * 8) in
   let a := cpu_read s (addr + 5) in
   Z.land a 0x1F = 2 -> Z.testbit a 7 = true ->
   exists s', load_ldtr intcall s sel = Some s' /\
     valid (ldtr_cache s') = 1 /\
     base (ldtr_cache s') = read_24bit_base s (addr + 2) /\
     limit (ldtr_cache s') = cpu_readw s addr /\
     access (ldtr_cache s') = a /\ same s').
Proof.
  intros Hsel same. split.
  - intros Hnull. unfold load_ldtr. rewrite (u16_small sel) by assumption.
    rewrite Hnull. cbn [Z.eqb]. eexists. split; [reflexivity|].
    unfold same. fields. repeat split.
  - intros Hnn Hcpl Hlim addr a Htype Hpres.
    unfold load_ldtr. rewrite (u16_small sel) by assumption. cbv zeta.
    destruct (Z.eqb_spec (Z.land sel 0xFFFC) 0) as [E|_]; [contradiction|].
    rewrite Hcpl. cbn [Z.eqb negb].
    destruct (Z.ltb_spec (DT.limit (gdtr s)) (Z.land sel 0xFFFC))
      as [E|_]; [lia|].
    fold addr. fold a. rewrite Htype. cbn [Z.eqb Pos.eqb negb].
    assert (Hp : nz (Z.land a 0x80) = true).
    { change 0x80 with (2 ^ 7). rewrite nz_land_pow2 by lia. exact Hpres. }
    rewrite Hp. cbn [negb].
    eexists. split; [reflexivity|]. unfold same. fields. repeat split.
Qed.

End TaskRegister.

(** * The coprocessor's stack: faults, rotation, exchange *)

(** The status word after a stack fault and the move of the top, for
    every status word. *)
Lemma sw_fault_table :
  all_below 65536 (fun sw =>
    let under :=
      sw_inc (u16 (Z.land (u16 (Z.lor sw (Z.lor kFpuSwIe kFpuSwSf)))
                     (Z.lnot kFpuSwC1))) in
    let over :=
      sw_dec (u16 (Z.lor sw (Z.lor (Z.lor kFpuSwIe kFpuSwC1) kFpuSwSf))) in
    (top_of under =? (top_of sw + 1) mod 8)
    && (Z.land under 0x241 =? 0x41)
    && (Z.land under 0xC5BE =? Z.land sw 0xC5BE)
    && (top_of over =? (top_of sw - 1) mod 8)
    && (Z.land over 0x241 =? 0x241)
    && (Z.land over 0xC5BE =? Z.land sw 0xC5BE)
    && (sw_dec (sw_inc sw) =? sw)) = true.
Proof. vm_compute. reflexivity. Qed.

Lemma sw_fault_facts (sw : Z) :
  0 <= sw < 0x10000 ->
  let under :=
    sw_inc (u16 (Z.land (u16 (Z.lor sw (Z.lor kFpuSwIe kFpuSwSf)))
                   (Z.lnot kFpuSwC1))) in
  let over :=
    sw_dec (u16 (Z.lor sw (Z.lor (Z.lor kFpuSwIe kFpuSwC1) kFpuSwSf))) in
  top_of under = (top_of sw + 1) mod 8 /\
  Z.land under 0x241 = 0x41 /\
  Z.land under 0xC5BE = Z.land sw 0xC5BE /\
  top_of over = (top_of sw - 1) mod 8 /\
  Z.land over 0x241 = 0x241 /\
  Z.land over 0xC5BE = Z.land sw 0xC5BE /\
  sw_dec (sw_inc sw) = sw.
Proof.
  intros Hsw. pose proof (all_below_spec 65536 _ sw_fault_table sw Hsw) as E.
  cbv beta zeta in E.
  repeat (apply andb_prop in E; destruct E as [E ?]).
  repeat match goal with
         | H : (_ =? _) = true |- _ => apply Z.eqb_eq in H
         end.
  cbv zeta. repeat split; assumption.
Qed.

(** X28.  Faults of the register stack.  [FpuPop] on an empty top
    returns the negative quiet NaN, sets the invalid-operation and
    stack-fault bits and clears C1, and still moves the top up by one;
    tags and registers are untouched.  [FpuPush] onto a slot that is
    not empty sets invalid operation, stack fault and C1, and still
    stores the value: the top moves down, the old content of the slot
    is overwritten and tagged valid, and a pop returns the value
    pushed.  In both cases the other status bits are unchanged. *)
Theorem fpu_stack_faults (s : CPU_t) (x : double) :
  0 <= FPU.sw (fpu s) < 0x10000 -> 0 <= FPU.tw (fpu s) < 0x10000 ->
  (FpuGetTag s 0 = kFpuTagEmpty ->
   let r := FpuPop s in
   fst r = neg_nan /\
   fpu_top (snd r) = (fpu_top s + 1) mod 8 /\
   Z.land (FPU.sw (fpu (snd r))) 0x241 = 0x41 /\
   Z.land (FPU.sw (fpu (snd r))) 0xC5BE = Z.land (FPU.sw (fpu s)) 0xC5BE /\
   FPU.tw (fpu (snd r)) = FPU.tw (fpu s) /\
   FPU.st (fpu (snd r)) = FPU.st (fpu s)) /\
  (FpuGetTag s (-1) <> kFpuTagEmpty ->
   let s1 := FpuPush s x in
   let slot := (fpu_top s - 1) mod 8 in
   fpu_top s1 = slot /\
   FPU.st (fpu s1) slot = x /\
   (forall k, k <> slot -> FPU.st (fpu s1) k = FPU.st (fpu s) k) /\
   FpuGetTag s1 0 = kFpuTagValid /\
   Z.land (FPU.sw (fpu s1)) 0x241 = 0x241 /\
   Z.land (FPU.sw (fpu s1)) 0xC5BE = Z.land (FPU.sw (fpu s)) 0xC5BE /\
   fst (FpuPop s1) = x).
Proof.
  intros Hsw Htw.
  destruct (sw_fault_facts _ Hsw) as (U1 & U2 & U3 & O1 & O2 & O3 & _).
  cbv zeta in U1, U2, U3, O1, O2, O3.
  split.
  - intros Hempty. unfold FpuPop. rewrite Hempty.
    change (negb (_ =? _)) with false. cbv iota.
    unfold OnFpuStackUnderflow, set_fpu_sw. cbv zeta. fields.
    unfold fpu_top. fields.
    match goal with
    | |- context [u16 (Z.lor (Z.land ?w (Z.lnot kFpuSwSp)) _)] =>
        fold (sw_inc w)
    end.
    fold (top_of (FPU.sw (fpu s))).
    match goal with
    | |- context [Z.shiftr (Z.land ?w kFpuSwSp) 11] => fold (top_of w)
    end.
    repeat split; assumption.
  - intros Hfull.
    destruct (sw_facts _ Hsw) as (Htop & _).
    assert (Hj : 0 <= (top_of (FPU.sw (fpu s)) - 1) mod 8 < 8) by zlia.
    set (j := (top_of (FPU.sw (fpu s)) - 1) mod 8) in *.
    assert (Hpush :
      FPU.sw (fpu (FpuPush s x)) =
        sw_dec (u16 (Z.lor (FPU.sw (fpu s))
                       (Z.lor (Z.lor kFpuSwIe kFpuSwC1) kFpuSwSf))) /\
      FPU.tw (fpu (FpuPush s x)) =
        Z.land (FPU.tw (fpu s)) (Z.lnot (Z.shiftl 3 (j * 2))) /\
      FPU.st (fpu (FpuPush s x)) = upd (FPU.st (fpu s)) j x).
    { unfold FpuPush.
      destruct (Z.eqb_spec (FpuGetTag s (-1)) kFpuTagEmpty) as [E|_];
        [contradiction|].
      cbn [negb].
      unfold FpuSetTag, set_FpuSt, OnFpuStackOverflow, set_fpu_sw,
        set_fpu_tw, FpuSt, fpu_top.
      fields.
      match goal with
      | |- context [u16 (Z.lor (Z.land ?w (Z.lnot kFpuSwSp)) _)] =>
          fold (sw_dec w)
      end.
      match goal with
      | |- context [Z.shiftr (Z.land ?w kFpuSwSp) 11] => fold (top_of w)
      end.
      rewrite O1. fold j.
      destruct (slot_at_top j Hj) as [-> ->].
      split; [reflexivity|]. split; [|reflexivity].
      change (Z.shiftl (Z.land (u32 kFpuTagValid) 3) (j * 2)) with
        (Z.shiftl 0 (j * 2)).
      rewrite Z.shiftl_0_l, Z.lor_0_r.
      rewrite !u16_land_l; try assumption. reflexivity. }
    destruct Hpush as (Hsw1 & Htw1 & Hst1).
    assert (Htop1 : fpu_top (FpuPush s x) = j).
    { unfold fpu_top. rewrite Hsw1. exact O1. }
    assert (Htag1 : FpuGetTag (FpuPush s x) 0 = kFpuTagValid).
    { unfold FpuGetTag. rewrite Htop1, Htw1.
      destruct (slot_at_top j Hj) as [-> _].
      rewrite mask_clear_reads_zero. apply Z.shiftr_0_l. }
    cbv zeta. unfold fpu_top at 2 3 4. fold (top_of (FPU.sw (fpu s))).
    fold j.
    split; [exact Htop1|].
    split; [rewrite Hst1; apply upd_same|].
    split; [intros k Hk; rewrite Hst1; now apply upd_other|].
    split; [exact Htag1|].
    split; [rewrite Hsw1; exact O2|].
    split; [rewrite Hsw1; exact O3|].
    unfold FpuPop. rewrite Htag1. change (negb (_ =? _)) with true.
    cbv iota beta. cbn [fst]. unfold FpuSt. rewrite Htop1, Hst1.
    destruct (slot_at_top j Hj) as [_ ->]. apply upd_same.
Qed.

Lemma land7_mod8 (x : Z) : Z.land x 7 = x mod 8.
Proof. change 7 with (Z.ones 3). rewrite Z.land_ones by lia. reflexivity. Qed.

Lemma fpu_set_sw_same (f : FPU_t) : FPU.set_sw (FPU.sw f) f = f.
Proof. destruct f. reflexivity. Qed.

Lemma fpu_set_sw_twice (f : FPU_t) (a b : Z) :
  FPU.set_sw a (FPU.set_sw b f) = FPU.set_sw a f.
Proof. destruct f. reflexivity. Qed.

(** X29.  FINCSTP and FDECSTP rotate the register stack.  They undo
    each other; FINCSTP makes the former ST(i+1) the new ST(i), with
    its tag, and FDECSTP the reverse; neither reads or writes a tag or
    a register, so unlike a pop FINCSTP leaves the old top marked as it
    was, and neither touches a status bit outside the top field. *)
Theorem fincstp_fdecstp_rotate (s : CPU_t) :
  0 <= FPU.sw (fpu s) < 0x10000 ->
  fpu (OpFincstp (OpFdecstp s)) = fpu s /\
  fpu (OpFdecstp (OpFincstp s)) = fpu s /\
  fpu_top (OpFincstp s) = (fpu_top s + 1) mod 8 /\
  fpu_top (OpFdecstp s) = (fpu_top s - 1) mod 8 /\
  (forall i, 0 <= i < 7 ->
     FpuSt (OpFincstp s) i = FpuSt s (i + 1) /\
     FpuGetTag (OpFincstp s) i = FpuGetTag s (i + 1) /\
     FpuSt (OpFdecstp s) (i + 1) = FpuSt s i /\
     FpuGetTag (OpFdecstp s) (i + 1) = FpuGetTag s i) /\
  FPU.tw (fpu (OpFincstp s)) = FPU.tw (fpu s) /\
  FPU.st (fpu (OpFincstp s)) = FPU.st (fpu s) /\
  FPU.tw (fpu (OpFdecstp s)) = FPU.tw (fpu s) /\
  FPU.st (fpu (OpFdecstp s)) = FPU.st (fpu s) /\
  Z.land (FPU.sw (fpu (OpFincstp s))) (Z.lnot kFpuSwSp)
    = Z.land (FPU.sw (fpu s)) (Z.lnot kFpuSwSp) /\
  Z.land (FPU.sw (fpu (OpFdecstp s))) (Z.lnot kFpuSwSp)
    = Z.land (FPU.sw (fpu s)) (Z.lnot kFpuSwSp).
Proof.
  intros Hsw.
  destruct (sw_facts _ Hsw) as (Htop & Hdec & Hinc & Hround & Hk1 & Hk2).
  destruct (sw_fault_facts _ Hsw) as (_ & _ & _ & _ & _ & _ & Hround').
  assert (Ei : fpu (OpFincstp s)
               = FPU.set_sw (sw_inc (FPU.sw (fpu s))) (fpu s))
    by reflexivity.
  assert (Ed : fpu (OpFdecstp s)
               = FPU.set_sw (sw_dec (FPU.sw (fpu s))) (fpu s))
    by reflexivity.
  assert (Ti : fpu_top (OpFincstp s) = (top_of (FPU.sw (fpu s)) + 1) mod 8).
  { unfold fpu_top. rewrite Ei. fields. exact Hinc. }
  assert (Td : fpu_top (OpFdecstp s) = (top_of (FPU.sw (fpu s)) - 1) mod 8).
  { unfold fpu_top. rewrite Ed. fields. exact Hdec. }
  assert (Wi : FPU.tw (fpu (OpFincstp s)) = FPU.tw (fpu s))
    by (rewrite Ei; destruct (fpu s); reflexivity).
  assert (Wd : FPU.tw (fpu (OpFdecstp s)) = FPU.tw (fpu s))
    by (rewrite Ed; destruct (fpu s); reflexivity).
  split.
  { unfold OpFincstp, set_fpu_sw. cbv zeta. fields. rewrite Ed.
    rewrite fpu_set_sw_twice.
    assert (E : FPU.sw (FPU.set_sw (sw_dec (FPU.sw (fpu s))) (fpu s))
                = sw_dec (FPU.sw (fpu s)))
      by (destruct (fpu s); reflexivity).
    rewrite E.
    match goal with
    | |- context [u16 (Z.lor (Z.land ?w (Z.lnot kFpuSwSp)) _)] =>
        fold (sw_inc w)
    end.
    rewrite Hround. apply fpu_set_sw_same. }
  split.
  { unfold OpFdecstp, set_fpu_sw. cbv zeta. fields. rewrite Ei.
    rewrite fpu_set_sw_twice.
    assert (E : FPU.sw (FPU.set_sw (sw_inc (FPU.sw (fpu s))) (fpu s))
                = sw_inc (FPU.sw (fpu s)))
      by (destruct (fpu s); reflexivity).
    rewrite E.
    match goal with
    | |- context [u16 (Z.lor (Z.land ?w (Z.lnot kFpuSwSp)) _)] =>
        fold (sw_dec w)
    end.
    rewrite Hround'. apply fpu_set_sw_same. }
  split; [exact Ti|]. split; [exact Td|].
  split.
  { intros i Hi. unfold FpuSt, FpuGetTag. rewrite Ti, Td, Wi, Wd.
    unfold fpu_top. fold (top_of (FPU.sw (fpu s))).
    set (t := top_of (FPU.sw (fpu s))) in *.
    assert (A1 : Z.land (i + (t + 1) mod 8) 7 = Z.land (i + 1 + t) 7).
    { rewrite !land7_mod8. zlia. }
    assert (A2 : Z.land (i + 1 + (t - 1) mod 8) 7 = Z.land (i + t) 7).
    { rewrite !land7_mod8. zlia. }
    assert (A3 : Z.land (u32 (u32 i + (t + 1) mod 8)) 7
                 = Z.land (u32 (u32 (i + 1) + t)) 7).
    { rewrite !land7_mod8. unfold u32. zlia. }
    assert (A4 : Z.land (u32 (u32 (i + 1) + (t - 1) mod 8)) 7
                 = Z.land (u32 (u32 i + t)) 7).
    { rewrite !land7_mod8. unfold u32. zlia. }
    rewrite A1, A2, A3, A4. repeat split. }
  split; [exact Wi|].
  split; [rewrite Ei; destruct (fpu s); reflexivity|].
  split; [exact Wd|].
  split; [rewrite Ed; destruct (fpu s); reflexivity|].
  split.
  - rewrite Ei. fields. exact Hk2.
  - rewrite Ed. fields. exact Hk1.
Qed.

(** X30.  FXCH.  With ST(0) and ST(rm) both not empty, [OpFxch]
    exchanges the contents of the two registers and changes nothing
    else of the coprocessor: the other registers, the status word and
    the tag word are as before.  Done twice it restores every
    register. *)
Theorem fxch_exchanges (s : CPU_t) :
  0 <= FPU.sw (fpu s) < 0x10000 ->
  FpuGetTag s 0 <> kFpuTagEmpty -> FpuGetTag s (rm s) <> kFpuTagEmpty ->
  let s' := OpFxch s in
  let top := FpuSt s 0 in
  let other := FpuSt s (rm s) in
  FPU.st (fpu s') top = FPU.st (fpu s) other /\
  (other <> top -> FPU.st (fpu s') other = FPU.st (fpu s) top) /\
  (forall k, k <> top -> k <> other ->
             FPU.st (fpu s') k = FPU.st (fpu s) k) /\
  FPU.sw (fpu s') = FPU.sw (fpu s) /\ FPU.tw (fpu s') = FPU.tw (fpu s) /\
  rm s' = rm s /\ mem s' = mem s /\ wordregs s' = wordregs s /\
  (forall k, FPU.st (fpu (OpFxch s')) k = FPU.st (fpu s) k).
Proof.
  intros Hsw H0 Hrm s' top other.
  assert (E : forall t : CPU_t,
             FpuGetTag t 0 <> kFpuTagEmpty ->
             FpuGetTag t (rm t) <> kFpuTagEmpty ->
             OpFxch t =
             set_fpu
               (FPU.set_st
                  (upd (upd (FPU.st (fpu t)) (FpuSt t (rm t))
                          (FPU.st (fpu t) (FpuSt t 0)))
                     (FpuSt t 0) (FPU.st (fpu t) (FpuSt t (rm t))))
                  (fpu t)) t).
  { intros t T0 Tr. unfold OpFxch, StRm, St0, St.
    destruct (Z.eqb_spec (FpuGetTag t (rm t)) kFpuTagEmpty) as [C|_];
      [contradiction|].
    destruct (Z.eqb_spec (FpuGetTag t 0) kFpuTagEmpty) as [C|_];
      [contradiction|].
    unfold FpuSetSt0, FpuSetStRm, set_FpuSt, FpuSt, fpu_top. fields.
    destruct (fpu t). reflexivity. }
  assert (E1 : s' = _) by (exact (E s H0 Hrm)).
  assert (Hf : FPU.sw (fpu s') = FPU.sw (fpu s) /\
               FPU.tw (fpu s') = FPU.tw (fpu s) /\
               rm s' = rm s).
  { rewrite E1. fields. destruct (fpu s). repeat split. }
  destruct Hf as (Fsw & Ftw & Frm).
  assert (Gt : forall i, FpuGetTag s' i = FpuGetTag s i).
  { intros i. unfold FpuGetTag, fpu_top. now rewrite Fsw, Ftw. }
  assert (Gs : forall i, FpuSt s' i = FpuSt s i).
  { intros i. unfold FpuSt, fpu_top. now rewrite Fsw. }
  assert (St1 : FPU.st (fpu s') =
                upd (upd (FPU.st (fpu s)) other (FPU.st (fpu s) top))
                  top (FPU.st (fpu s) other)).
  { rewrite E1. fields. destruct (fpu s). reflexivity. }
  split; [rewrite St1; apply upd_same|].
  split.
  { intros Hne. rewrite St1, upd_other by assumption. apply upd_same. }
  split.
  { intros k K1 K2. rewrite St1. now rewrite !upd_other by assumption. }
  split; [exact Fsw|]. split; [exact Ftw|]. split; [exact Frm|].
  split; [rewrite E1; reflexivity|].
  split; [rewrite E1; reflexivity|].
  intros k.
  rewrite (E s') by (rewrite ?Frm, Gt; assumption).
  fields.
  rewrite Frm, !Gs. fold top other. rewrite St1. unfold upd.
  repeat match goal with
         | |- context [Z.eqb ?a ?b] => destruct (Z.eqb_spec a b)
         end; congruence.
Qed.

(** * Real-mode interrupt entry, byte by byte *)

(** The flags word for flags that are 0 or 1: each flag sits at its
    own bit, so the word is a sum, and bits 8 and 9 are TF and IF. *)
Lemma flags_layout (c p a z s t i d o : Z) :
  (forall f, In f [c; p; a; z; s; t; i; d; o] -> 0 <= f <= 1) ->
  let w := 2 + c + 4 * p + 16 * a + 64 * z + 128 * s + 256 * t + 512 * i
           + 1024 * d + 2048 * o in
  flagsword c p a z s t i d o = w /\
  Z.testbit w 8 = (t =? 1) /\ Z.testbit w 9 = (i =? 1).
Proof.
  intros H.
  assert (B : forall f, In f [c; p; a; z; s; t; i; d; o] -> f = 0 \/ f = 1)
    by (intros f Hf; specialize (H f Hf); lia).
  assert (Bc := B c ltac:(cbn; tauto)).
  assert (Bp := B p ltac:(cbn; tauto)).
  assert (Ba := B a ltac:(cbn; tauto)).
  assert (Bz := B z ltac:(cbn; tauto)).
  assert (Bs := B s ltac:(cbn; tauto)).
  assert (Bt := B t ltac:(cbn; tauto)).
  assert (Bi := B i ltac:(cbn; tauto)).
  assert (Bd := B d ltac:(cbn; tauto)).
  assert (Bo := B o ltac:(cbn; tauto)).
  clear H B.
  destruct Bc as [-> | ->], Bp as [-> | ->], Ba as [-> | ->],
    Bz as [-> | ->], Bs as [-> | ->], Bt as [-> | ->], Bi as [-> | ->],
    Bd as [-> | ->], Bo as [-> | ->];
    vm_compute; repeat split.
Qed.

Lemma u32_idem (x : Z) : u32 (u32 x) = u32 x.
Proof. unfold u32. apply Z.mod_mod. lia. Qed.

(** A word written to memory, as its two bytes. *)
Lemma mem_writew_bytes (m : Z -> Z) (a w : Z) :
  mem_writew m a w =
  upd (upd m (u32 a) (u8 w)) (u32 (u32 a + 1)) (u8 (w / 0x100)).
Proof.
  unfold mem_writew.
  assert (E1 : u8 (u8 (u16 w)) = u8 w) by (unfold u8, u16; zlia).
  assert (E2 : u8 (u8 (Z.shiftr (u16 w) 8)) = u8 (w / 0x100)).
  { rewrite Z.shiftr_div_pow2 by lia. change (2 ^ 8) with 0x100.
    unfold u8, u16. zlia. }
  now rewrite u32_idem, E1, E2.
Qed.

(** A word read from memory, from its two bytes. *)
Lemma mem_readw_bytes (m : Z -> Z) (a : Z) :
  mem_readw m a = u8 (m (u32 a)) + 0x100 * u8 (m (u32 (u32 a + 1))).
Proof.
  unfold mem_readw. rewrite u32_idem.
  pose proof (u8_range (m (u32 a))) as Hlo.
  pose proof (u8_range (m (u32 (u32 a + 1)))) as Hhi.
  rewrite (u16_small (u8 _)) by lia.
  rewrite (u16_small (Z.shiftl _ 8))
    by (rewrite Z.shiftl_mul_pow2 by lia; change (2 ^ 8) with 0x100; lia).
  rewrite lor_low_high by exact Hlo. apply u16_small. lia.
Qed.

Section RealModeEntry.

Variable run_callback : callback -> CPU_t -> Z -> CPU_t.
Variable seg_address :
  Z -> Z -> (Z -> Z) -> (Z -> DESCRIPTOR_CACHE) -> Z -> Z -> Z.

(** C3.  Real-mode delivery of vector [v] (latch clear, no callback, not
    one of the two intercepted INT 15h functions), with the flags word
    of cpu.h in the layout the spec gives it ([flagsword]) and every
    flag 0 or 1.  Three words are stored, each as two bytes, low byte
    first: the flags word at SS:SP-2, then CS at SS:SP-4, then IP at
    SS:SP-6, and no other byte of memory changes.  The flags word is
    that of the state on entry: its bit 9 is the IF and its bit 8 the TF
    of before the delivery.  Then TF and IF are cleared, IP is loaded
    from the bytes at physical [v*4] and [v*4+1] and CS from those at
    [v*4+2] and [v*4+3].  SP has dropped by 6, and nothing else
    changes: not the other general and segment registers, the other
    flags, the machine status word, the table registers, the
    descriptor caches, the mode, the A20 line or the coprocessor. *)
Theorem real_mode_interrupt_delivery (fuel : nat) (s : CPU_t) (v : Z) :
  (forall a20 sregs caches off,
     0 <= off < 0x10000 -> seg_address 0 a20 sregs caches 0 off = off) ->
  protected_mode s = 0 ->
  handling_fault s = 0 ->
  0 <= v < 0x100 ->
  int_callback s v = None ->
  ~ (v = 0x15 /\ (byteregs s regah = 0x88 \/ byteregs s regah = 0x87)) ->
  (forall f, In f [cf s; pf s; af s; zf s; sf s; tf s; ifl s; df s; of_ s] ->
             0 <= f <= 1) ->
  let sp k := u16 (wordregs s regsp - k) in
  let slot k :=
    u32 (seg_address 0 (a20_enabled s) (segregs s) (segcache s)
           (u16 (segregs s regss)) (sp k)) in
  let flags :=
    2 + cf s + 4 * pf s + 16 * af s + 64 * zf s + 128 * sf s + 256 * tf s
    + 512 * ifl s + 1024 * df s + 2048 * of_ s in
  let store m a w :=
    upd (upd m a (u8 w)) (u32 (a + 1)) (u8 (w / 0x100)) in
  exists s',
    cpu_intcall run_callback flagsword seg_address (S fuel) s v = Some s' /\
    mem s' =
      store (store (store (mem s) (slot 2) flags)
                   (slot 4) (segregs s regcs))
            (slot 6) (ip s) /\
    Z.testbit flags 9 = (ifl s =? 1) /\ Z.testbit flags 8 = (tf s =? 1) /\
    tf s' = 0 /\ ifl s' = 0 /\
    ip s' = u8 (mem s' (v * 4)) + 0x100 * u8 (mem s' (v * 4 + 1)) /\
    segregs s' regcs
      = u8 (mem s' (v * 4 + 2)) + 0x100 * u8 (mem s' (v * 4 + 3)) /\
    wordregs s' regsp = sp 6 /\
    (forall r, r <> regsp -> wordregs s' r = wordregs s r) /\
    (forall r, r <> regcs -> segregs s' r = segregs s r) /\
    cf s' = cf s /\ pf s' = pf s /\ af s' = af s /\ zf s' = zf s /\
    sf s' = sf s /\ df s' = df s /\ of_ s' = of_ s /\
    msw s' = msw s /\ gdtr s' = gdtr s /\ idtr s' = idtr s /\
    ldtr s' = ldtr s /\ tr s' = tr s /\
    ldtr_cache s' = ldtr_cache s /\ tr_cache s' = tr_cache s /\
    segcache s' = segcache s /\
    protected_mode s' = 0 /\ a20_enabled s' = a20_enabled s /\
    int_callback s' = int_callback s /\ fpu s' = fpu s /\
    hltstate s' = hltstate s /\ trap_toggle s' = trap_toggle s /\
    handling_fault s' = 0.
Proof.
  intros Hvec Hpm Hlatch Hv Hcb Hint Hflags sp slot flags store.
  destruct (flags_layout _ _ _ _ _ _ _ _ _ Hflags) as (Hw & Hb8 & Hb9).
  cbv zeta in Hw, Hb8, Hb9. fold flags in Hw, Hb8, Hb9.
  cbn [cpu_intcall]. unfold cpu_intcall_body.
  rewrite Hlatch, (u8_small v) by assumption. cbn [nz Z.eqb negb].
  rewrite mark_fault.
  generalize (if is_fault_vector v then 1 else handling_fault s).
  intros h. unfold byteregs at 1 2. fields. fold (byteregs s regah).
  assert (Hno88 : (v =? 0x15) && (byteregs s regah =? 0x88) = false).
  { apply andb_false_iff.
    destruct (Z.eqb_spec v 0x15); [|now left].
    destruct (Z.eqb_spec (byteregs s regah) 0x88); [|now right].
    exfalso. apply Hint. auto. }
  assert (Hno87 : (v =? 0x15) && (byteregs s regah =? 0x87) = false).
  { apply andb_false_iff.
    destruct (Z.eqb_spec v 0x15); [|now left].
    destruct (Z.eqb_spec (byteregs s regah) 0x87); [|now right].
    exfalso. apply Hint. auto. }
  rewrite Hno88, Hno87, Hcb, Hpm. cbn [nz Z.eqb negb].
  rewrite intcall_real_eq. cbv zeta. unfold makeflagsword. fields.
  rewrite Hw.
  eexists. split; [reflexivity|]. fields.
  rewrite !u16_idem, !u16_sub_sub.
  change (2 + 2) with 4. change (4 + 2) with 6. rewrite Hpm.
  fold (sp 2) (sp 4) (sp 6).
  change (u16 0) with 0.
  rewrite !Hvec by (unfold u16; zlia).
  rewrite !(u16_small (v * 4)), !(u16_small (v * 4 + 2)) by lia.
  rewrite !mem_writew_u16, !u16_mem_readw, !upd_same.
  rewrite !mem_readw_bytes, !mem_writew_bytes.
  fold (slot 2) (slot 4) (slot 6).
  rewrite !(u32_small (v * 4)), !(u32_small (v * 4 + 2)),
    !(u32_small (v * 4 + 1)), !(u32_small (v * 4 + 2 + 1)) by lia.
  replace (v * 4 + 2 + 1) with (v * 4 + 3) by lia.
  split; [reflexivity|].
  split; [exact Hb9|]. split; [exact Hb8|].
  repeat split; try reflexivity.
  all: intros r Hr; now rewrite ?upd_other by assumption.
Qed.

End RealModeEntry.

(** * XLAT and the A20 line *)

Lemma byteregs_range (s : CPU_t) (b : Z) : 0 <= byteregs s b < 0x100.
Proof.
  unfold byteregs. change 0xFF with (Z.ones 8).
  destruct (Z.odd b); rewrite Z.land_ones by lia;
    change (2 ^ 8) with 0x100; zlia.
Qed.

(** C9.  XLAT forms its address without the A20 line.  In real mode,
    for every state of the A20 line, the case 0xD7 of the opcode switch
    loads AL with the byte at [useseg * 16 + BX + AL], with no mask and
    no wrap of [BX + AL] to sixteen bits.  With A20 disabled,
    DS = 0xFFFF, BX = 0x0010 and AL = 0 that address is 0x100000, while
    [get_real_address] forms physical 0 for the same segment and
    offset. *)
Theorem xlat_forms_its_address_without_a20
  (inner : CPU_t -> Z -> option CPU_t) (s : CPU_t) :
  opcode s = 0xD7 -> protected_mode s = 0 ->
  0 <= useseg s < 0x10000 -> 0 <= wordregs s regbx < 0x10000 ->
  let a := useseg s * 16 + wordregs s regbx + byteregs s regal in
  exec_xlat s = Some (set_bytereg regal (u8 (mem s a)) s) /\
  (a20_enabled s = 0 -> useseg s = 0xFFFF -> wordregs s regbx = 0x0010 ->
   byteregs s regal = 0 ->
   a = 0x100000 /\
   get_real_address inner s (useseg s)
     (wordregs s regbx + byteregs s regal) = Some (0, s)).
Proof.
  intros Hop Hpm Hseg Hbx a.
  pose proof (byteregs_range s regal) as Hal.
  split.
  - unfold exec_xlat. rewrite Hop. cbn [Z.eqb Pos.eqb].
    unfold cpu_read. fold a. rewrite (u32_small a) by (unfold a; lia).
    reflexivity.
  - intros Ha20 Hds Hb Hz. unfold a. rewrite Hds, Hb, Hz.
    split; [reflexivity|].
    rewrite (real_address_a20 inner s 0xFFFF (0x10 + 0) Hpm) by lia.
    rewrite Ha20. reflexivity.
Qed.

(** * The theorems at concrete inputs *)

Ltac in_range := vm_compute; split; first [discriminate | reflexivity].

Lemma i8259_nextintr_acknowledges_lowest_witness :
  i8259_nextintr 1 keyboard_request 0x20 =
  Some (0x09,
        upd keyboard_request 0x20
          (I8259.set_isr 0x02
             (I8259.set_irr 0 (keyboard_request 0x20)))).
Proof.
  apply (i8259_nextintr_acknowledges_lowest 0 keyboard_request 0x20 1).
  - in_range.
  - in_range.
  - lia.
  - reflexivity.
  - reflexivity.
  - intros j Hj. assert (j = 0) as -> by lia. vm_compute. discriminate.
  - right. discriminate.
Defined.

Lemma i8259_doirq_masked_is_lost_witness :
  exists st',
    i8259_doirq 1 keyboard_masked 0x20 1 = Some st' /\
    forall q, st' q = keyboard_masked q.
Proof.
  apply (i8259_doirq_masked_is_lost 0 keyboard_masked 0x20 1).
  - in_range.
  - lia.
  - reflexivity.
  - reflexivity.
Defined.

Lemma i8259_request_cycle_witness :
  exists st1 st2,
    i8259_doirq 1 pic_pair 0x20 1 = Some st1 /\
    Z.testbit (I8259.irr (st1 0x20)) 1 = true /\
    i8259_nextintr 1 st1 0x20 = Some (0x09, st2) /\
    I8259.isr (st2 0x20) = 2 /\
    i8259_write (st2 0x20) 0 0x20 =
      I8259.set_ocw (upd (I8259.ocw (pic_pair 0x20)) 2 0x20)
        (pic_pair 0x20).
Proof.
  apply (i8259_request_cycle 0 pic_pair 0x20 1).
  - reflexivity.
  - discriminate.
  - lia.
  - in_range.
  - reflexivity.
  - reflexivity.
  - intros j _. change (I8259.irr (pic_pair 0x20)) with 0.
    rewrite Z.bits_0. discriminate.
Defined.

Lemma i8259_cascade_leaves_line_2_requested_witness :
  exists st1 st2,
    i8259_doirq 2 pic_pair 0xA0 4 = Some st1 /\
    i8259_nextintr 2 st1 0x20 = Some (0x74, st2) /\
    st2 0xA0 = I8259.set_isr 0x10 (pic_pair 0xA0) /\
    st2 0x20 = I8259.set_irr 0x04 (pic_pair 0x20) /\
    i8259_nextintr 2 st2 0x20 = Some (0, st2).
Proof.
  apply (i8259_cascade_leaves_line_2_requested 0 pic_pair 0x20 0xA0 4).
  - discriminate.
  - reflexivity.
  - reflexivity.
  - discriminate.
  - reflexivity.
  - in_range.
  - in_range.
  - in_range.
  - lia.
  - reflexivity.
  - reflexivity.
  - intros j _. change (I8259.irr (pic_pair 0x20)) with 0.
    rewrite Z.bits_0. discriminate.
  - intros j _. change (I8259.irr (pic_pair 0xA0)) with 0.
    rewrite Z.bits_0. discriminate.
Defined.

Lemma i8259_initialisation_sequence_witness :
  (let c := program_pic zero_i8259 0x08 0x04 in
   I8259.imr c = 0 /\ I8259.icw c 2 = 0x08 /\ I8259.icwstep c = 5 /\
   i8259_read (i8259_write c 1 0xFD) 1 = 0xFD) /\
  (let c1 := i8259_write (i8259_write zero_i8259 0 0x13) 1 0x08 in
   I8259.icwstep c1 = 5 /\ I8259.imr (i8259_write c1 1 0xFD) = 0xFD /\
   I8259.icw (i8259_write c1 1 0xFD) 4 = 0).
Proof.
  split.
  - pose proof (i8259_initialisation_sequence zero_i8259
                  0x11 0x08 0x04 0x01 0xFD) as H.
    cbv zeta in H.
    destruct H as (H1 & _ & H3 & H4 & _ & _ & H7 & _).
    + vm_compute. discriminate.
    + vm_compute in H1, H3, H4, H7. vm_compute.
      exact (conj H1 (conj H3 (conj H4 H7))).
  - pose proof (i8259_initialisation_sequence zero_i8259
                  0x13 0x08 0x04 0x01 0xFD) as H.
    cbv zeta in H.
    destruct H as (_ & _ & _ & _ & _ & _ & _ & _ & H9).
    + vm_compute. discriminate.
    + destruct H9 as (H1 & H2 & _ & H4); [vm_compute; discriminate|].
      vm_compute in H1, H2, H4. vm_compute.
      exact (conj H1 (conj H2 H4)).
Defined.

Lemma i8259_read_register_select_witness :
  i8259_read (i8259_write (keyboard_request 0x20) 0 0x0B) 0 = 0 /\
  i8259_read (i8259_write (keyboard_request 0x20) 0 0x0A) 0 = 2.
Proof.
  split.
  - apply (i8259_read_register_select (keyboard_request 0x20) 0x0B);
      [lia | reflexivity | discriminate | discriminate].
  - apply (i8259_read_register_select (keyboard_request 0x20) 0x0A);
      [lia | reflexivity | discriminate | discriminate].
Defined.

Lemma i8042_ring_stays_in_bounds_witness :
  (exists b', i8042_send_scancode 1 kbd_board 0x1E = Some b' /\ board_ok b')
  /\
  (exists b', i8042_write 1 kbd_board 0x64 0xAA = Some b' /\ board_ok b') /\
  (exists d b', i8042_read 1 kbd_board 0x60 = Some (d, b') /\ board_ok b').
Proof.
  assert (Hok : board_ok kbd_board).
  { split; [split; vm_compute; split; (discriminate || reflexivity)
           | reflexivity]. }
  split; [|split].
  - exact (proj1 (i8042_ring_stays_in_bounds 0 kbd_board 0x64 0x1E Hok)).
  - exact (proj1 (proj2
             (i8042_ring_stays_in_bounds 0 kbd_board 0x64 0xAA Hok))).
  - exact (proj1 (proj2 (proj2
             (i8042_ring_stays_in_bounds 0 kbd_board 0x60 0 Hok)))).
Defined.

Lemma i8042_scancode_roundtrip_witness :
  exists b1 b2,
    i8042_send_scancode 1 kbd_board 0x1E = Some b1 /\
    Z.testbit (I8259.irr (Board.pics b1 0x20)) 1 = true /\
    i8042_read 1 b1 0x60 = Some (0x1E, b2) /\
    I8042.head (Board.kbc b2) = I8042.tail (Board.kbc b2).
Proof.
  pose proof (i8042_scancode_roundtrip 0 kbd_board 0x1E) as H.
  cbv zeta in H.
  destruct H as (b1 & b2 & H1 & _ & H3 & H4 & H5 & _).
  - split; vm_compute; split; (discriminate || reflexivity).
  - reflexivity.
  - reflexivity.
  - reflexivity.
  - in_range.
  - exists b1, b2. split; [exact H1|]. split.
    + apply H3; [vm_compute; discriminate | reflexivity].
    + split; [exact H4 | exact H5].
Defined.

Lemma i8042_first_scancode_is_read_twice_witness :
  (b1 <- i8042_send_scancode 1 polled_board 0x1E ;;
   b2 <- i8042_send_scancode 1 b1 0x30 ;;
   r1 <- i8042_read 1 b2 0x60 ;;
   r2 <- i8042_read 1 (snd r1) 0x60 ;;
   r3 <- i8042_read 1 (snd r2) 0x60 ;;
   Some (fst r1, fst r2, fst r3)) = Some (0x1E, 0x1E, 0x30).
Proof.
  apply (i8042_first_scancode_is_read_twice 1 polled_board 0x1E 0x30).
  - split; vm_compute; split; (discriminate || reflexivity).
  - reflexivity.
  - reflexivity.
  - reflexivity.
Defined.

Lemma i8042_a20_gate_witness :
  exists b1 b2,
    i8042_write 1 kbd_board 0x64 0xD1 = Some b1 /\
    i8042_write 1 b1 0x60 0xDF = Some b2 /\
    a20_enabled (Board.cpu b2) = 1 /\
    get_real_address (fun _ _ => None) (Board.cpu b2) 0xFFFF 0x10 =
      Some (0x100000, Board.cpu b2).
Proof.
  pose proof (i8042_a20_gate (fun _ _ => None) 1 kbd_board 0xDF 0xFFFF 0x10)
    as H.
  destruct H as (b1 & b2 & H1 & H2 & H3 & _ & _ & H6).
  - reflexivity.
  - lia.
  - lia.
  - exists b1, b2. split; [exact H1|]. split; [exact H2|]. split.
    + rewrite H3. reflexivity.
    + exact H6.
Defined.

Lemma port92_a20_gate_witness :
  port92_read (port92_write kbd_board 0x92 0x02) 0x92 = 0x02 /\
  get_real_address (fun _ _ => None)
    (Board.cpu (port92_write kbd_board 0x92 0x02)) 0xFFFF 0x10 =
  Some (0x100000, Board.cpu (port92_write kbd_board 0x92 0x02)).
Proof.
  pose proof (port92_a20_gate (fun _ _ => None) kbd_board 0x92 0x02
                0xFFFF 0x10) as H.
  cbv zeta in H. destruct H as (H1 & _ & _ & H4).
  - reflexivity.
  - lia.
  - lia.
  - split; [exact H1 | exact H4].
Defined.


Lemma op_div_raises_vector_0_witness :
  op_div8 (cpu_intcall no_callback flagsword spec_address 1)
    int21_machine 1000 0
  = cpu_intcall no_callback flagsword spec_address 1 int21_machine 0 /\
  op_div16 (cpu_intcall no_callback flagsword spec_address 1)
    int21_machine 0x20000 1
  = cpu_intcall no_callback flagsword spec_address 1 int21_machine 0.
Proof.
  split.
  - apply (op_div_raises_vector_0
             (cpu_intcall no_callback flagsword spec_address 1)
             int21_machine 1000 0); [lia | lia | left; reflexivity].
  - apply (op_div_raises_vector_0
             (cpu_intcall no_callback flagsword spec_address 1)
             int21_machine 0x20000 1);
      [lia | lia | right; vm_compute; reflexivity].
Defined.

Lemma op_idiv8_takes_the_divisor_unsigned_witness :
  exists s',
    op_idiv8 (fun _ _ => None) (blank_machine (fun _ => 0)) 0xFF9C 0xFE
    = Some s' /\
    byteregs s' regal = 0 /\ byteregs s' regah = 0x9C.
Proof.
  pose proof (op_idiv8_takes_the_divisor_unsigned (fun _ _ => None)
                (blank_machine (fun _ => 0)) 0xFF9C 0xFE) as H.
  cbv zeta in H. destruct H as [H _]; [lia | lia |].
  destruct H as (s' & H1 & H2 & H3 & _); [vm_compute; discriminate|].
  exists s'. split; [exact H1|]. split; [exact H2 | exact H3].
Defined.

Lemma op_grp2_8_shl_shr_witness :
  fst (op_grp2_8 (set_reg 4 (set_oper1b 0x96 (blank_machine (fun _ => 0))))
         1) = 0x2C /\
  cf (snd (op_grp2_8
             (set_reg 4 (set_oper1b 0x96 (blank_machine (fun _ => 0)))) 1))
  = 1.
Proof.
  pose proof (op_grp2_8_shl_shr
                (set_reg 4 (set_oper1b 0x96 (blank_machine (fun _ => 0))))
                1) as H.
  cbv zeta in H. destruct H as [H _]; [in_range | lia |].
  exact (H (or_introl eq_refl)).
Defined.

Lemma op_grp2_16_shl_shr_witness :
  fst (op_grp2_16 (set_reg 5 (set_oper1 0x8003 (blank_machine (fun _ => 0))))
         2) = 0x2000 /\
  cf (snd (op_grp2_16
             (set_reg 5 (set_oper1 0x8003 (blank_machine (fun _ => 0)))) 2))
  = 1.
Proof.
  pose proof (op_grp2_16_shl_shr
                (set_reg 5 (set_oper1 0x8003 (blank_machine (fun _ => 0))))
                2) as H.
  cbv zeta in H. destruct H as [_ H]; [in_range | lia |].
  exact (H eq_refl).
Defined.

Lemma op_grp2_8_rol_ror_witness :
  fst (op_grp2_8 (set_oper1b 0x81 (blank_machine (fun _ => 0))) 3) = 0x0C /\
  fst (op_grp2_8 (set_reg 1 (set_oper1b 0x0C (blank_machine (fun _ => 0))))
         3) = 0x81.
Proof.
  apply (op_grp2_8_rol_ror
           (set_oper1b 0x81 (blank_machine (fun _ => 0)))
           (set_reg 1 (set_oper1b 0x0C (blank_machine (fun _ => 0)))) 3).
  - in_range.
  - lia.
  - reflexivity.
  - reflexivity.
  - reflexivity.
Defined.

Lemma push_pop_roundtrip_witness :
  fst (pop spec_address (push spec_address int21_machine 0xBEEF)) = 0xBEEF /\
  wordregs (snd (pop spec_address (push spec_address int21_machine 0xBEEF)))
    regsp = 0x1000.
Proof.
  pose proof (push_pop_roundtrip spec_address int21_machine 0xBEEF) as H.
  cbv zeta in H. destruct H as (H1 & H2 & _); [in_range|].
  split; [exact H1 | exact (H2 regsp)].
Defined.

Lemma push_reg_then_pop_reg_witness :
  exists s1 s2,
    exec_push_pop spec_address
      (set_opcode 0x54 int21_machine) = Some s1 /\
    getmem16 spec_address s1 (segregs s1 regss) (wordregs s1 regsp)
      = 0x1000 /\
    wordregs s1 regsp = 0x0FFE /\
    exec_push_pop spec_address (set_opcode 0x5B s1) = Some s2 /\
    wordregs s2 regbx = 0x1000.
Proof.
  pose proof (push_reg_then_pop_reg spec_address
                (set_opcode 0x54 int21_machine) 4 3) as H.
  destruct H as (s1 & s2 & H1 & H2 & H3 & H4 & H5 & _);
    [lia | lia | in_range | reflexivity |].
  exists s1, s2.
  split; [exact H1|]. split; [exact H2|]. split; [exact H3|].
  split; [exact H4 | exact H5].
Defined.

Lemma op_adc_is_exact_witness :
  let s := set_cf 1 (set_oper2b 0x01
                       (set_oper1b 0xFF (blank_machine (fun _ => 0)))) in
  cf (op_adc8 s) = 1 /\ res8 (op_adc8 s) = 0x01 /\
  0xFF + 0x01 + 1 = res8 (op_adc8 s) + 0x100 * cf (op_adc8 s).
Proof.
  pose proof (op_adc_is_exact
                (set_cf 1 (set_oper2b 0x01
                             (set_oper1b 0xFF (blank_machine (fun _ => 0))))))
    as H.
  destruct H as [H _]; [in_range|].
  destruct H as [_ H]; [in_range | in_range |].
  cbv zeta. split; [reflexivity|]. split; [reflexivity|]. exact H.
Defined.

Lemma op_sub8_comparison_flags_witness :
  let s := set_oper2b 0x01 (set_oper1b 0x80 (blank_machine (fun _ => 0))) in
  zf (op_sub8 s) <> 1 /\ cf (op_sub8 s) <> 1 /\
  sf (op_sub8 s) <> of_ (op_sub8 s) /\ res8 (op_sub8 s) = 0x7F.
Proof.
  pose proof (op_sub8_comparison_flags
                (set_oper2b 0x01
                   (set_oper1b 0x80 (blank_machine (fun _ => 0))))) as H.
  cbv zeta in H. destruct H as (H1 & H2 & H3 & H4); [in_range | in_range |].
  cbv zeta. split; [|split; [|split]].
  - intros E. apply H1 in E. discriminate E.
  - intros E. apply H2 in E. revert E. vm_compute. discriminate.
  - apply H3. vm_compute. reflexivity.
  - rewrite H4. reflexivity.
Defined.

Lemma logic_operations_witness :
  let s := set_oper2b 0x0F (set_oper1b 0xF0 (blank_machine (fun _ => 0))) in
  res8 (op_and8 s) = 0 /\ zf (op_and8 s) = 1 /\ cf (op_and8 s) = 0 /\
  res8 (op_or8 s) = 0xFF /\ sf (op_or8 s) = 1.
Proof.
  pose proof (logic_operations
                (set_oper2b 0x0F
                   (set_oper1b 0xF0 (blank_machine (fun _ => 0))))) as H.
  cbv zeta in H.
  destruct H as ((A1 & A2 & _ & _ & A5 & _) & (O1 & _ & _ & _ & _ & O6) & _);
    [in_range | in_range | in_range | in_range |].
  cbv zeta. split; [exact A1|]. split; [exact A5|]. split; [exact A2|].
  split; [exact O1 | exact O6].
Defined.

Lemma cpu_interruptCheck_delivers_witness :
  cpu_interruptCheck no_callback flagsword spec_address 1 1
    halted_machine keyboard_request 0x20 =
  option_map
    (fun s' =>
       (s', upd keyboard_request 0x20
              (I8259.set_isr 0x02
                 (I8259.set_irr 0 (keyboard_request 0x20)))))
    (cpu_intcall no_callback flagsword spec_address 1
       (set_hltstate 0 halted_machine) 0x09).
Proof.
  apply (cpu_interruptCheck_delivers no_callback flagsword spec_address
           1 0 halted_machine keyboard_request 0x20 1).
  - in_range.
  - in_range.
  - lia.
  - reflexivity.
  - reflexivity.
  - intros j Hj. assert (j = 0) as -> by lia. vm_compute. discriminate.
  - right. discriminate.
Defined.

Lemma registered_callback_runs_witness :
  cpu_intcall halting_callback flagsword spec_address 1
    (cpu_registerIntCallback int21_machine 0x21 0%nat) 0x21 =
  Some (set_handling_fault 0
          (halting_callback 0%nat
             (cpu_registerIntCallback int21_machine 0x21 0%nat) 0x21)) /\
  int_callback
    (cpu_reset (cpu_registerIntCallback int21_machine 0x21 0%nat)) 0x21
  = None.
Proof.
  pose proof (registered_callback_runs halting_callback flagsword
                spec_address 0 int21_machine 0x21 0%nat) as H.
  cbv zeta in H. destruct H as (H1 & _ & H3);
    [reflexivity | lia | discriminate |].
  split; [exact H1 | exact (H3 0x21)].
Defined.

Lemma load_tr_loads_and_marks_busy_witness :
  exists s',
    load_tr (fun _ _ => None) tables_machine 0x08 = Some s' /\
    tr s' = 0x08 /\
    tr_cache s' = mkCache 0x2000 0x2B 0x83 1 0x1234 0x0010 /\
    cpu_read s' 0x0D = 0x83.
Proof.
  pose proof (load_tr_loads_and_marks_busy (fun _ _ => None)
                tables_machine 0x08) as H.
  destruct H as [_ H]; [lia|].
  destruct (H 0 0xFFFF) as (s' & H1 & H2 & H3 & H4 & _).
  - discriminate.
  - reflexivity.
  - vm_compute. discriminate.
  - left. reflexivity.
  - reflexivity.
  - exists s'. split; [exact H1|]. split; [exact H2|].
    split; [exact H3 | exact H4].
Defined.

Lemma load_ldtr_fills_only_the_cache_witness :
  exists s',
    load_ldtr (fun _ _ => None) tables_machine 0x10 = Some s' /\
    valid (ldtr_cache s') = 1 /\
    base (ldtr_cache s') = 0x3000 /\
    limit (ldtr_cache s') = 0x17 /\
    ldtr s' = 0.
Proof.
  pose proof (load_ldtr_fills_only_the_cache (fun _ _ => None)
                tables_machine 0x10) as H.
  cbv zeta in H. destruct H as [_ H]; [lia|].
  destruct H as (s' & H1 & H2 & H3 & H4 & _ & H6 & _).
  - discriminate.
  - reflexivity.
  - vm_compute. discriminate.
  - reflexivity.
  - reflexivity.
  - exists s'. split; [exact H1|]. split; [exact H2|].
    split; [exact H3|]. split; [exact H4 | exact H6].
Defined.

Lemma fpu_stack_faults_witness :
  fst (FpuPop (blank_machine (fun _ => 0))) = neg_nan /\
  fpu_top (snd (FpuPop (blank_machine (fun _ => 0)))) = 1 /\
  Z.land (FPU.sw (fpu (snd (FpuPop (blank_machine (fun _ => 0)))))) 0x241
  = 0x41.
Proof.
  pose proof (fpu_stack_faults (blank_machine (fun _ => 0)) double_one) as H.
  destruct H as [H _]; [in_range | in_range |].
  cbv zeta in H. destruct (H eq_refl) as (H1 & H2 & H3 & _).
  split; [exact H1|]. split; [exact H2 | exact H3].
Defined.

Lemma fincstp_fdecstp_rotate_witness :
  fpu (OpFincstp (OpFdecstp fpu_two_machine)) = fpu fpu_two_machine /\
  fpu_top (OpFincstp fpu_two_machine) = 7 /\
  FpuSt (OpFincstp fpu_two_machine) 0 = FpuSt fpu_two_machine 1.
Proof.
  pose proof (fincstp_fdecstp_rotate fpu_two_machine) as H.
  destruct H as (H1 & _ & H3 & _ & H5 & _); [in_range|].
  split; [exact H1|]. split; [exact H3|].
  exact (proj1 (H5 0 ltac:(lia))).
Defined.

Lemma fxch_exchanges_witness :
  FPU.st (fpu (OpFxch fpu_two_machine)) (FpuSt fpu_two_machine 0)
  = double_one /\
  FPU.st (fpu (OpFxch fpu_two_machine)) (FpuSt fpu_two_machine 1)
  = neg_nan /\
  FPU.sw (fpu (OpFxch fpu_two_machine)) = FPU.sw (fpu fpu_two_machine).
Proof.
  pose proof (fxch_exchanges fpu_two_machine) as H.
  cbv zeta in H. destruct H as (H1 & H2 & _ & H4 & _).
  - in_range.
  - vm_compute. discriminate.
  - vm_compute. discriminate.
  - split; [exact H1|]. split; [|exact H4].
    apply H2. vm_compute. discriminate.
Defined.

Lemma real_mode_interrupt_delivery_witness :
  exists s',
    cpu_intcall no_callback flagsword spec_address 1 int21_machine 0x21
    = Some s' /\
    (mem s' 0x0FFE, mem s' 0x0FFF) = (0x02, 0x02) /\
    (mem s' 0x0FFC, mem s' 0x0FFD) = (0x00, 0x00) /\
    (mem s' 0x0FFA, mem s' 0x0FFB) = (0x00, 0x01) /\
    tf s' = 0 /\ ifl s' = 0 /\ ip s' = 0x0400 /\ segregs s' regcs = 0 /\
    wordregs s' regsp = 0x0FFA.
Proof.
  pose proof (real_mode_interrupt_delivery no_callback spec_address
                0 int21_machine 0x21 spec_address_vector eq_refl eq_refl)
    as H.
  cbv zeta in H.
  destruct H as (s' & Hrun & Hmem & _ & _ & Htf & Hif & Hip & Hcs & Hsp & _).
  - lia.
  - reflexivity.
  - intros [H _]. discriminate H.
  - intros f Hf. vm_compute in Hf.
    repeat (destruct Hf as [<- | Hf]; [vm_compute; split; discriminate|]).
    destruct Hf.
  - exists s'. split; [exact Hrun|].
    rewrite Hip, Hcs, Hsp, Hmem.
    vm_compute. repeat split; assumption.
Defined.

Lemma xlat_forms_its_address_without_a20_witness :
  exec_xlat xlat_machine
  = Some (set_bytereg regal 0x22 xlat_machine) /\
  cpu_read xlat_machine 0 = 0x11 /\
  get_real_address (fun _ _ => None) xlat_machine 0xFFFF 0x0010
  = Some (0, xlat_machine).
Proof.
  pose proof (xlat_forms_its_address_without_a20 (fun _ _ => None)
                xlat_machine eq_refl eq_refl) as H.
  cbv zeta in H. destruct H as [H1 H2]; [in_range | in_range |].
  destruct H2 as [_ H2]; try reflexivity.
  split; [exact H1|]. split; [reflexivity | exact H2].
Defined.
